(** * ef-dl: producer/consumer download pipeline

    A shallow embedding of the task queue ([task-queue.ts]), the worker
    consumer loop ([worker.ts]) and the worker pool ([worker-pool.ts]).

    - The [pdf_tasks] table is a list of rows in rowid order; every SQL
      statement of [TaskQueue] is a function on that list.
    - The [metadata] table and the JavaScript [Map]s of the pool are finite
      maps keyed by strings.
    - SQL [INTEGER] columns and JavaScript numbers holding integers are [Z];
      a nullable column is an [option]. *)

From stdpp Require Import base gmap strings pretty.
From Stdlib Require Import ZArith List Bool Lia Sorting.Sorted
  Sorting.Permutation.
Import ListNotations.

Local Open Scope Z_scope.
Local Set Warnings "-clear-no-such-hyp".

(** ** types.ts *)

Module PdfTask.
Record t : Type := mk {
  id : string;
  searchTerm : string;
  pageNumber : Z;
  pdfName : string;
  pdfUrl : string;
  fileSize : Z
}.
End PdfTask.

Module PdfTaskRecord.
Record t : Type := mk {
  id : string;
  searchTerm : string;
  pageNumber : Z;
  pdfName : string;
  pdfUrl : string;
  fileSize : option Z;
  status : Z;
  workerId : option string;
  retryCount : Z;
  createdAt : Z;
  startedAt : option Z;
  completedAt : option Z;
  error : option string
}.
End PdfTaskRecord.

Module QueueProgress.
Record t : Type := mk {
  total : Z;
  pending : Z;
  inProgress : Z;
  completed : Z;
  failed : Z
}.
End QueueProgress.

(** Task status codes: 0 = Pending, 1 = In Progress, 2 = Completed,
    3 = Failed.  The column is a plain SQL integer. *)
Definition Pending : Z := 0.
Definition InProgress : Z := 1.
Definition Completed : Z := 2.
Definition Failed : Z := 3.

(** ** One row of [pdf_tasks], columns as in [CREATE TABLE] *)

Module Row.
Record t : Type := mk {
  id : string;
  search_term : string;
  page_number : Z;
  pdf_name : string;
  pdf_url : string;
  file_size : option Z;
  status : Z;
  worker_id : option string;
  retry_count : Z;
  created_at : Z;
  started_at : option Z;
  completed_at : option Z;
  error : option string
}.
End Row.

(** ** The fragment of SQL the queue uses *)

Module Sql.

(** [UPDATE t SET ... WHERE cond]: every row satisfying [cond] is rewritten,
    the others and the row order are kept. *)
Definition update_where (cond : Row.t -> bool) (set : Row.t -> Row.t)
    (tbl : list Row.t) : list Row.t :=
  List.map (fun r => if cond r then set r else r) tbl.

(** [SELECT ... WHERE cond]. *)
Definition select_where (cond : Row.t -> bool) (tbl : list Row.t) : list Row.t :=
  List.filter cond tbl.

(** [COUNT( * )]. *)
Definition count (rows : list Row.t) : Z := Z.of_nat (length rows).

(** [SUM(e)]: NULL over no rows. *)
Definition sum (e : Row.t -> Z) (rows : list Row.t) : option Z :=
  match rows with
  | [] => None
  | _ => Some (fold_right (fun r acc => e r + acc) 0 rows)
  end.

(** [CASE WHEN status = s THEN 1 ELSE 0 END]. *)
Definition case_status (s : Z) (r : Row.t) : Z :=
  if Row.status r =? s then 1 else 0.

(** The two uniqueness constraints of the table: [id TEXT PRIMARY KEY] and
    [UNIQUE(search_term, pdf_name)]. *)
Definition conflicts (new old : Row.t) : bool :=
  String.eqb (Row.id new) (Row.id old)
  || (String.eqb (Row.search_term new) (Row.search_term old)
      && String.eqb (Row.pdf_name new) (Row.pdf_name old)).

(** [INSERT OR IGNORE]: a row violating a uniqueness constraint is
    skipped, otherwise it is appended. *)
Definition insert_or_ignore (new : Row.t) (tbl : list Row.t) : list Row.t :=
  if existsb (conflicts new) tbl then tbl else tbl ++ [new].

(** [ORDER BY page_number, pdf_name]: integers by value, text by bytes. *)
Definition order_le (a b : Row.t) : bool :=
  (Row.page_number a <? Row.page_number b)
  || ((Row.page_number a =? Row.page_number b)
      && String.leb (Row.pdf_name a) (Row.pdf_name b)).

Fixpoint order_insert (r : Row.t) (sorted : list Row.t) : list Row.t :=
  match sorted with
  | [] => [r]
  | x :: rest => if order_le r x then r :: sorted else x :: order_insert r rest
  end.

Definition order_by_page_name (rows : list Row.t) : list Row.t :=
  fold_right order_insert [] rows.

(** [LIMIT 1] read with [.get()]: the first row or nothing. *)
Definition limit1 (rows : list Row.t) : option Row.t := hd_error rows.

End Sql.

(** JavaScript [v === s] for [v] a string or [null]. *)
Definition is_string (v : option string) (s : string) : bool :=
  match v with
  | Some x => String.eqb x s
  | None => false
  end.

(** JavaScript [v || 0] on a number or [null]. *)
Definition or_zero (v : option Z) : Z :=
  match v with
  | Some n => if n =? 0 then 0 else n
  | None => 0
  end.

(** ** task-queue.ts *)

Module TaskQueue.

(** The queue object: the search term it was opened with and the two
    tables of its database file. *)
Record t : Type := mk {
  searchTerm : string;
  pdf_tasks : list Row.t;
  metadata : gmap string string
}.

Definition with_tasks (q : t) (tbl : list Row.t) : t :=
  {| searchTerm := searchTerm q; pdf_tasks := tbl; metadata := metadata q |}.

Definition initialize (q : t) : t :=
  {| searchTerm := searchTerm q; pdf_tasks := []; metadata := ∅ |}.

(** The row written by the [INSERT] of [insertPdfs]; the columns not listed
    take their defaults. *)
Definition new_row (now : Z) (pdf : PdfTask.t) : Row.t :=
  {| Row.id := PdfTask.id pdf;
     Row.search_term := PdfTask.searchTerm pdf;
     Row.page_number := PdfTask.pageNumber pdf;
     Row.pdf_name := PdfTask.pdfName pdf;
     Row.pdf_url := PdfTask.pdfUrl pdf;
     Row.file_size := Some (PdfTask.fileSize pdf);
     Row.status := 0;
     Row.worker_id := None;
     Row.retry_count := 0;
     Row.created_at := now;
     Row.started_at := None;
     Row.completed_at := None;
     Row.error := None |}.

Definition insert_run (now : Z) (tbl : list Row.t) (pdf : PdfTask.t) : list Row.t :=
  Sql.insert_or_ignore (new_row now pdf) tbl.

Definition insertPdfs (now : Z) (pdfs : list PdfTask.t) (q : t) : t :=
  with_tasks q (fold_left (insert_run now) pdfs (pdf_tasks q)).

(** The [SELECT] of [claimNextPdf]. *)
Definition next_pending (tbl : list Row.t) : option Row.t :=
  Sql.limit1
    (Sql.order_by_page_name
       (Sql.select_where (fun r => Row.status r =? 0) tbl)).

Definition set_claimed (workerId : string) (now : Z) (r : Row.t) : Row.t :=
  {| Row.id := Row.id r;
     Row.search_term := Row.search_term r;
     Row.page_number := Row.page_number r;
     Row.pdf_name := Row.pdf_name r;
     Row.pdf_url := Row.pdf_url r;
     Row.file_size := Row.file_size r;
     Row.status := 1;
     Row.worker_id := Some workerId;
     Row.retry_count := Row.retry_count r;
     Row.created_at := Row.created_at r;
     Row.started_at := Some now;
     Row.completed_at := Row.completed_at r;
     Row.error := Row.error r |}.

Definition claimed_record (workerId : string) (now : Z) (row : Row.t)
    : PdfTaskRecord.t :=
  {| PdfTaskRecord.id := Row.id row;
     PdfTaskRecord.searchTerm := Row.search_term row;
     PdfTaskRecord.pageNumber := Row.page_number row;
     PdfTaskRecord.pdfName := Row.pdf_name row;
     PdfTaskRecord.pdfUrl := Row.pdf_url row;
     PdfTaskRecord.fileSize := Row.file_size row;
     PdfTaskRecord.status := 1;
     PdfTaskRecord.workerId := Some workerId;
     PdfTaskRecord.retryCount := Row.retry_count row;
     PdfTaskRecord.createdAt := Row.created_at row;
     PdfTaskRecord.startedAt := Some now;
     PdfTaskRecord.completedAt := None;
     PdfTaskRecord.error := None |}.

(** One transaction: select the next pending row, mark it, commit. *)
Definition claimNextPdf (workerId : string) (now : Z) (q : t)
    : option PdfTaskRecord.t * t :=
  match next_pending (pdf_tasks q) with
  | None => (None, q)
  | Some row =>
      (Some (claimed_record workerId now row),
       with_tasks q
         (Sql.update_where (fun r => String.eqb (Row.id r) (Row.id row))
            (set_claimed workerId now) (pdf_tasks q)))
  end.

Definition set_complete (now : Z) (r : Row.t) : Row.t :=
  {| Row.id := Row.id r;
     Row.search_term := Row.search_term r;
     Row.page_number := Row.page_number r;
     Row.pdf_name := Row.pdf_name r;
     Row.pdf_url := Row.pdf_url r;
     Row.file_size := Row.file_size r;
     Row.status := 2;
     Row.worker_id := Row.worker_id r;
     Row.retry_count := Row.retry_count r;
     Row.created_at := Row.created_at r;
     Row.started_at := Row.started_at r;
     Row.completed_at := Some now;
     Row.error := None |}.

Definition markComplete (now : Z) (taskId : string) (q : t) : t :=
  with_tasks q
    (Sql.update_where (fun r => String.eqb (Row.id r) taskId)
       (set_complete now) (pdf_tasks q)).

Definition set_failed (now : Z) (err : string) (r : Row.t) : Row.t :=
  {| Row.id := Row.id r;
     Row.search_term := Row.search_term r;
     Row.page_number := Row.page_number r;
     Row.pdf_name := Row.pdf_name r;
     Row.pdf_url := Row.pdf_url r;
     Row.file_size := Row.file_size r;
     Row.status := 3;
     Row.worker_id := Row.worker_id r;
     Row.retry_count := Row.retry_count r;
     Row.created_at := Row.created_at r;
     Row.started_at := Row.started_at r;
     Row.completed_at := Some now;
     Row.error := Some err |}.

Definition markFailed (now : Z) (taskId : string) (err : string) (q : t) : t :=
  with_tasks q
    (Sql.update_where (fun r => String.eqb (Row.id r) taskId)
       (set_failed now err) (pdf_tasks q)).

Definition own_rows (q : t) : list Row.t :=
  Sql.select_where (fun r => String.eqb (Row.search_term r) (searchTerm q))
    (pdf_tasks q).

Definition getProgress (q : t) : QueueProgress.t :=
  let rows := own_rows q in
  {| QueueProgress.total := or_zero (Some (Sql.count rows));
     QueueProgress.pending := or_zero (Sql.sum (Sql.case_status 0) rows);
     QueueProgress.inProgress := or_zero (Sql.sum (Sql.case_status 1) rows);
     QueueProgress.completed := or_zero (Sql.sum (Sql.case_status 2) rows);
     QueueProgress.failed := or_zero (Sql.sum (Sql.case_status 3) rows) |}.

Definition setMetadata (key value : string) (q : t) : t :=
  {| searchTerm := searchTerm q;
     pdf_tasks := pdf_tasks q;
     metadata := <[key := value]> (metadata q) |}.

Definition getMetadata (key : string) (q : t) : option string :=
  metadata q !! key.

Definition isComplete (q : t) : bool :=
  if negb (is_string (getMetadata "json_fetch_complete" q) "true") then false
  else
    Sql.count
      (Sql.select_where
         (fun r => String.eqb (Row.search_term r) (searchTerm q)
                   && ((Row.status r =? 0) || (Row.status r =? 1)))
         (pdf_tasks q)) =? 0.

Definition set_reset (r : Row.t) : Row.t :=
  {| Row.id := Row.id r;
     Row.search_term := Row.search_term r;
     Row.page_number := Row.page_number r;
     Row.pdf_name := Row.pdf_name r;
     Row.pdf_url := Row.pdf_url r;
     Row.file_size := Row.file_size r;
     Row.status := 0;
     Row.worker_id := None;
     Row.retry_count := Row.retry_count r;
     Row.created_at := Row.created_at r;
     Row.started_at := None;
     Row.completed_at := Row.completed_at r;
     Row.error := Row.error r |}.

Definition reset_cond (q : t) (r : Row.t) : bool :=
  (Row.status r =? 1) && String.eqb (Row.search_term r) (searchTerm q).

Definition resetInProgress (q : t) : t :=
  with_tasks q (Sql.update_where (reset_cond q) set_reset (pdf_tasks q)).

Definition hasPage (pageNumber : Z) (q : t) : bool :=
  0 <? Sql.count
         (Sql.select_where
            (fun r => String.eqb (Row.search_term r) (searchTerm q)
                      && (Row.page_number r =? pageNumber))
            (pdf_tasks q)).

(** [rowToTaskRecord]. *)
Definition rowToTaskRecord (row : Row.t) : PdfTaskRecord.t :=
  {| PdfTaskRecord.id := Row.id row;
     PdfTaskRecord.searchTerm := Row.search_term row;
     PdfTaskRecord.pageNumber := Row.page_number row;
     PdfTaskRecord.pdfName := Row.pdf_name row;
     PdfTaskRecord.pdfUrl := Row.pdf_url row;
     PdfTaskRecord.fileSize := Row.file_size row;
     PdfTaskRecord.status := Row.status row;
     PdfTaskRecord.workerId := Row.worker_id row;
     PdfTaskRecord.retryCount := Row.retry_count row;
     PdfTaskRecord.createdAt := Row.created_at row;
     PdfTaskRecord.startedAt := Row.started_at row;
     PdfTaskRecord.completedAt := Row.completed_at row;
     PdfTaskRecord.error := Row.error row |}.

(** The [WHERE] of [getFailedTasks]. *)
Definition failed_cond (q : t) (r : Row.t) : bool :=
  String.eqb (Row.search_term r) (searchTerm q) && (Row.status r =? 3).

Definition getFailedTasks (q : t) : list PdfTaskRecord.t :=
  List.map rowToTaskRecord
    (Sql.order_by_page_name (Sql.select_where (failed_cond q) (pdf_tasks q))).

End TaskQueue.

(** ** The states of a queue that the public operations can produce *)

Module Reach.

Inductive op : Type :=
| InsertPdfs (now : Z) (pdfs : list PdfTask.t)
| ClaimNextPdf (workerId : string) (now : Z)
| MarkComplete (now : Z) (taskId : string)
| MarkFailed (now : Z) (taskId : string) (err : string)
| ResetInProgress
| SetMetadata (key value : string)
| Initialize.

Definition run (o : op) (q : TaskQueue.t) : TaskQueue.t :=
  match o with
  | InsertPdfs now pdfs => TaskQueue.insertPdfs now pdfs q
  | ClaimNextPdf workerId now => snd (TaskQueue.claimNextPdf workerId now q)
  | MarkComplete now taskId => TaskQueue.markComplete now taskId q
  | MarkFailed now taskId err => TaskQueue.markFailed now taskId err q
  | ResetInProgress => TaskQueue.resetInProgress q
  | SetMetadata key value => TaskQueue.setMetadata key value q
  | Initialize => TaskQueue.initialize q
  end.

(** A run starts from an initialized queue, whose tables are empty. *)
Definition fresh (searchTerm : string) : TaskQueue.t :=
  TaskQueue.initialize (TaskQueue.mk searchTerm [] ∅).

Definition run_all (ops : list op) (q : TaskQueue.t) : TaskQueue.t :=
  fold_left (fun q o => run o q) ops q.

Inductive reachable (searchTerm : string) : TaskQueue.t -> Prop :=
| reach_fresh : reachable searchTerm (fresh searchTerm)
| reach_step q o :
    reachable searchTerm q -> reachable searchTerm (run o q).

End Reach.

(** ** Thrown JavaScript values *)

Module Js.

(** What [catch (error)] binds: whether it is an [Error], and its
    [message] when it has one. *)
Record Thrown : Type := mkThrown {
  instanceofError : bool;
  message : option string
}.

(** [error.message || dflt]. *)
Definition message_or (e : Thrown) (dflt : string) : string :=
  match message e with
  | Some "" => dflt
  | Some m => m
  | None => dflt
  end.

(** [`${error.message}`]. *)
Definition message_text (e : Thrown) : string :=
  match message e with
  | Some m => m
  | None => "undefined"
  end.

(** Case folding of the [i] flag on a pattern of ASCII letters. *)
Definition fold_case (c : Ascii.ascii) : Ascii.ascii :=
  let n := Ascii.N_of_ascii c in
  if ((97 <=? n) && (n <=? 122))%N then Ascii.ascii_of_N (n - 32) else c.

Fixpoint starts_with_ci (pat s : string) : bool :=
  match pat, s with
  | EmptyString, _ => true
  | String _ _, EmptyString => false
  | String p pat', String c s' =>
      Ascii.eqb (fold_case p) (fold_case c) && starts_with_ci pat' s'
  end.

(** [/pat/i.test(s)] for a pattern without metacharacters. *)
Fixpoint test_ci (pat s : string) : bool :=
  starts_with_ci pat s
  || match s with
     | EmptyString => false
     | String _ s' => test_ci pat s'
     end.

(** A number as it reaches the worker pool.  The command line hands over
    [parseInt(options.workers, 10)], and the interactive path and the
    coordinator a default when nothing is given: an integer or [NaN]. *)
Inductive number : Type :=
| Int (n : Z)
| NaN.

(** [Math.min(a, x)] and [Math.max(a, x)] for an integer [a]: [NaN] as soon
    as [x] is [NaN]. *)
Definition Math_min (a : Z) (x : number) : number :=
  match x with
  | Int n => Int (Z.min a n)
  | NaN => NaN
  end.

Definition Math_max (a : Z) (x : number) : number :=
  match x with
  | Int n => Int (Z.max a n)
  | NaN => NaN
  end.

(** How often the body of [for (let i = 0; i < x; i++)] runs; [i < NaN] is
    false. *)
Definition iterations (x : number) : nat :=
  match x with
  | Int n => Z.to_nat n
  | NaN => O
  end.

End Js.

(** ** worker.ts *)

Module Worker.

Record WorkerResult : Type := mkResult {
  workerId : string;
  pdfsProcessed : Z;
  pdfsSucceeded : Z;
  pdfsFailed : Z;
  errors : list string
}.

(** Everything a worker process reads or writes: the shared queue, the
    clock read by [Date.now()], the mutable locals of [runWorker], and the
    behaviour of the two collaborators it cannot control: for each coming
    queue mutation whether the database is locked, and for each coming
    [downloadPdf] call whether it rejects.  [slept] logs the [sleep] calls,
    latest first. *)
Record World : Type := mkWorld {
  queue : TaskQueue.t;
  clock : Z;
  locked : list bool;
  downloads : list (option Js.Thrown);
  slept : list Z;
  result : WorkerResult;
  consecutiveErrors : Z
}.

Definition set_queue (q : TaskQueue.t) (w : World) : World :=
  mkWorld q (clock w) (locked w) (downloads w) (slept w) (result w)
    (consecutiveErrors w).
Definition set_locked (l : list bool) (w : World) : World :=
  mkWorld (queue w) (clock w) l (downloads w) (slept w) (result w)
    (consecutiveErrors w).
Definition set_downloads (d : list (option Js.Thrown)) (w : World) : World :=
  mkWorld (queue w) (clock w) (locked w) d (slept w) (result w)
    (consecutiveErrors w).
Definition set_result (r : WorkerResult) (w : World) : World :=
  mkWorld (queue w) (clock w) (locked w) (downloads w) (slept w) r
    (consecutiveErrors w).
Definition set_consecutiveErrors (n : Z) (w : World) : World :=
  mkWorld (queue w) (clock w) (locked w) (downloads w) (slept w) (result w) n.

(** A computation returns, throws, or is cut off by the bound put on a
    [while (true)]. *)
Inductive outcome (A : Type) : Type :=
| Returns (a : A)
| Throws (e : Js.Thrown)
| Unfinished.
Arguments Returns {A} a.
Arguments Throws {A} e.
Arguments Unfinished {A}.

Definition M (A : Type) : Type := World -> outcome A * World.

Definition ret {A} (a : A) : M A := fun w => (Returns a, w).

Definition bind {A B} (c : M A) (k : A -> M B) : M B :=
  fun w =>
    match c w with
    | (Returns a, w') => k a w'
    | (Throws e, w') => (Throws e, w')
    | (Unfinished, w') => (Unfinished, w')
    end.

Notation "'do' x <- c ; k" := (bind c (fun x => k))
  (at level 10, x name, c at level 100, k at level 200).
Notation "c ;; k" := (bind c (fun _ => k))
  (at level 100, k at level 200, right associativity).

Definition modify (f : World -> World) : M unit := fun w => (Returns tt, f w).

Definition sleep (ms : Z) : M unit :=
  fun w =>
    (Returns tt,
     mkWorld (queue w) (clock w + ms) (locked w) (downloads w)
       (ms :: slept w) (result w) (consecutiveErrors w)).

(** The error SQLite raises on contention. *)
Definition database_is_locked : Js.Thrown :=
  Js.mkThrown true (Some "database is locked").

(** A mutating queue call.  When the database is locked the call throws and
    the tables are as before (the transaction is rolled back). *)
Definition mutation {A} (f : Z -> TaskQueue.t -> A * TaskQueue.t) : M A :=
  fun w =>
    match locked w with
    | true :: rest => (Throws database_is_locked, set_locked rest w)
    | _ =>
        let '(a, q') := f (clock w) (queue w) in
        (Returns a, set_queue q' (set_locked (tl (locked w)) w))
    end.

Definition claimNextPdf (workerId : string) : M (option PdfTaskRecord.t) :=
  mutation (fun now q => TaskQueue.claimNextPdf workerId now q).

Definition markComplete (taskId : string) : M unit :=
  mutation (fun now q => (tt, TaskQueue.markComplete now taskId q)).

Definition markFailed (taskId err : string) : M unit :=
  mutation (fun now q => (tt, TaskQueue.markFailed now taskId err q)).

Definition getMetadata (key : string) : M (option string) :=
  fun w => (Returns (TaskQueue.getMetadata key (queue w)), w).

Definition getProgress : M QueueProgress.t :=
  fun w => (Returns (TaskQueue.getProgress (queue w)), w).

(** The download collaborator: the next scripted behaviour, resolving when
    nothing is scripted. *)
Definition downloadPdf (pdfUrl pdfName : string) (pageNumber : Z) : M unit :=
  fun w =>
    match downloads w with
    | Some e :: rest => (Throws e, set_downloads rest w)
    | _ => (Returns tt, set_downloads (tl (downloads w)) w)
    end.

Definition isDatabaseLocked (error : Js.Thrown) : bool :=
  Js.instanceofError error
  && match Js.message error with
     | Some m => Js.test_ci "database is locked" m
     | None => false
     end.

(** [withDbLockRetry]: the [while (true)] unrolled [fuel] times. *)
Fixpoint withDbLockRetry_loop {T} (fuel : nat) (action : M T) (attempt : Z)
    : M T :=
  match fuel with
  | O => fun w => (Unfinished, w)
  | S fuel' =>
      fun w =>
        match action w with
        | (Returns v, w') => (Returns v, w')
        | (Throws error, w') =>
            if negb (isDatabaseLocked error) then (Throws error, w')
            else
              let attempt := attempt + 1 in
              if attempt >=? 5 then (Throws error, w')
              else (sleep (300 * attempt) ;;
                    withDbLockRetry_loop fuel' action attempt) w'
        | (Unfinished, w') => (Unfinished, w')
        end
  end.

Definition withDbLockRetry {T} (action : M T) : M T :=
  withDbLockRetry_loop 5 action 0.

(** The download loop [for (attempt = 1; attempt <= 3; attempt++)]; it
    returns [(success, lastError)]. *)
Fixpoint download_loop (fuel : nat) (pdf : PdfTaskRecord.t) (attempt : Z)
    (lastError : string) : M (bool * string) :=
  match fuel with
  | O => fun w => (Unfinished, w)
  | S fuel' =>
      if attempt <=? 3 then
        fun w =>
          match downloadPdf (PdfTaskRecord.pdfUrl pdf)
                  (PdfTaskRecord.pdfName pdf) (PdfTaskRecord.pageNumber pdf) w
          with
          | (Returns _, w') =>
              (Returns (true, lastError), set_consecutiveErrors 0 w')
          | (Throws error, w') =>
              let lastError := Js.message_or error "Unknown error" in
              ((if attempt <? 3 then sleep (2000 * attempt) else ret tt) ;;
               download_loop fuel' pdf (attempt + 1) lastError) w'
          | (Unfinished, w') => (Unfinished, w')
          end
      else ret (false, lastError)
  end.

Definition download (pdf : PdfTaskRecord.t) : M (bool * string) :=
  download_loop 4 pdf 1 "".

Inductive ctl : Type := Break | Continue.

Definition count_processed (r : WorkerResult) : WorkerResult :=
  mkResult (workerId r) (pdfsProcessed r + 1) (pdfsSucceeded r)
    (pdfsFailed r) (errors r).
Definition count_succeeded (r : WorkerResult) : WorkerResult :=
  mkResult (workerId r) (pdfsProcessed r) (pdfsSucceeded r + 1)
    (pdfsFailed r) (errors r).
Definition count_failed (entry : string) (r : WorkerResult) : WorkerResult :=
  mkResult (workerId r) (pdfsProcessed r) (pdfsSucceeded r)
    (pdfsFailed r + 1) (errors r ++ [entry]).
Definition push_error (entry : string) (r : WorkerResult) : WorkerResult :=
  mkResult (workerId r) (pdfsProcessed r) (pdfsSucceeded r)
    (pdfsFailed r) (errors r ++ [entry]).

(** One pass through the body of the [while (true)] of [runWorker]. *)
Definition iteration (workerId : string) : M ctl :=
  do pdf <- withDbLockRetry (claimNextPdf workerId);
  match pdf with
  | None =>
      do isComplete <- getMetadata "json_fetch_complete";
      do progress <- getProgress;
      if is_string isComplete "true" then ret Break
      else sleep 500 ;; ret Continue
  | Some pdf =>
      modify (fun w => set_result (count_processed (result w)) w) ;;
      do outcome <- download pdf;
      let '(success, lastError) := outcome in
      if success : bool then
        withDbLockRetry (markComplete (PdfTaskRecord.id pdf)) ;;
        modify (fun w => set_result (count_succeeded (result w)) w) ;;
        ret Continue
      else
        withDbLockRetry (markFailed (PdfTaskRecord.id pdf) lastError) ;;
        modify (fun w =>
          set_consecutiveErrors (consecutiveErrors w + 1)
            (set_result
               (count_failed (PdfTaskRecord.pdfName pdf +:+ ": " +:+ lastError)
                  (result w)) w)) ;;
        fun w =>
          if consecutiveErrors w >=? 5 then (Returns Break, w)
          else (Returns Continue, w)
  end.

Fixpoint worker_loop (fuel : nat) (workerId : string) : M unit :=
  match fuel with
  | O => fun w => (Unfinished, w)
  | S fuel' =>
      do c <- iteration workerId;
      match c with
      | Break => ret tt
      | Continue => worker_loop fuel' workerId
      end
  end.

(** The entry [catch] of [runWorker] pushes onto [result.errors]. *)
Definition catch_entry (error : Js.Thrown) : string :=
  if isDatabaseLocked error then "Queue busy: " +:+ Js.message_text error
  else "Fatal: " +:+ Js.message_text error.

(** [runWorker] once the queue is open: the loop inside [try], then the
    [catch]; the value is [result]. *)
Definition runWorker (fuel : nat) (workerId : string) (w : World)
    : outcome WorkerResult * World :=
  let w0 := set_consecutiveErrors 0
              (set_result (mkResult workerId 0 0 0 []) w) in
  match worker_loop fuel workerId w0 with
  | (Returns _, w') => (Returns (result w'), w')
  | (Throws error, w') =>
      let w'' := set_result (push_error (catch_entry error) (result w')) w' in
      (Returns (result w''), w'')
  | (Unfinished, w') => (Unfinished, w')
  end.

(** The exit code chosen by the script around [runWorker]. *)
Definition exit_code (r : WorkerResult) : Z :=
  if pdfsFailed r >? 0 then 1 else 0.

End Worker.

(** ** worker-pool.ts *)

Module WorkerPool.

(** An entry of the [results] map. *)
Record exit : Type := mkExit { code : Z; signal : option string }.

(** The pool object.  Of the [workers] map only the keys matter here: the
    identifiers of the child processes that have not yet closed. *)
Record t : Type := mk {
  workerCount : Js.number;
  workers : gset string;
  results : gmap string exit
}.

Record WorkerPoolResult : Type := mkResult {
  totalWorkers : Js.number;
  completedWorkers : Z;
  failedWorkers : Z
}.

(** The constructor: [Math.max(1, Math.min(10, workerCount))]. *)
Definition create (workerCount : Js.number) : t :=
  {| workerCount := Js.Math_max 1 (Js.Math_min 10 workerCount);
     workers := ∅;
     results := ∅ |}.

(** [`worker-${i + 1}`]. *)
Definition worker_name (i : nat) : string := "worker-" +:+ pretty (i + 1)%nat.

Definition spawnWorker (workerId : string) (p : t) : t :=
  {| workerCount := workerCount p;
     workers := {[workerId]} ∪ workers p;
     results := results p |}.

(** [for (let i = 0; i < this.workerCount; i++)], counting [i] upwards from
    [i] for [n] more rounds. *)
Fixpoint start_from (i n : nat) (p : t) : t :=
  match n with
  | O => p
  | S n' => start_from (S i) n' (spawnWorker (worker_name i) p)
  end.

Definition start (p : t) : t :=
  start_from 0 (Js.iterations (workerCount p)) p.

(** What a child process emits. [Close] carries the exit code, [null] when
    the process was ended by a signal. *)
Inductive event : Type :=
| Close (workerId : string) (code : option Z) (signal : option string)
| Error (workerId : string).

Definition event_worker (e : event) : string :=
  match e with
  | Close workerId _ _ => workerId
  | Error workerId => workerId
  end.

(** The ["close"] and ["error"] handlers installed by [spawnWorker]. *)
Definition handle (e : event) (p : t) : t :=
  match e with
  | Close workerId code signal =>
      {| workerCount := workerCount p;
         workers := workers p ∖ {[workerId]};
         results := <[workerId := mkExit (or_zero code) signal]> (results p) |}
  | Error workerId =>
      {| workerCount := workerCount p;
         workers := workers p ∖ {[workerId]};
         results := <[workerId := mkExit 1 None]> (results p) |}
  end.

Definition deliver (events : list event) (p : t) : t :=
  fold_left (fun p e => handle e p) events p.

Definition tally (acc : WorkerPoolResult) (entry : string * exit)
    : WorkerPoolResult :=
  if code (snd entry) =? 0
  then mkResult (totalWorkers acc) (completedWorkers acc + 1) (failedWorkers acc)
  else mkResult (totalWorkers acc) (completedWorkers acc) (failedWorkers acc + 1).

(** The loop over [this.results] that compiles the result. *)
Definition compile (p : t) : WorkerPoolResult :=
  fold_left tally (map_to_list (results p)) (mkResult (workerCount p) 0 0).

(** [waitForCompletion]: while workers remain, sleep one second, during
    which the events of the next tick are handled.  It gives the compiled
    result and the pool as it then is; [None] when the ticks run out
    before the workers do. *)
Fixpoint waitForCompletion (ticks : list (list event)) (p : t)
    : option (WorkerPoolResult * t) :=
  if bool_decide (size (workers p) = 0%nat) then Some (compile p, p)
  else
    match ticks with
    | [] => None
    | events :: ticks' => waitForCompletion ticks' (deliver events p)
    end.

Definition getActiveWorkerCount (p : t) : nat := size (workers p).

End WorkerPool.

(** ** coordinator.ts *)

Module Coordinator.

(** One element of [data.hits.hits], read through [hit._source]: each field
    may be missing. *)
Record Source : Type := mkSource {
  ORIGIN_FILE_NAME : option string;
  ORIGIN_FILE_URI : option string;
  fileSize : option Z
}.

(** The two parts of the fetched JSON the coordinator reads, each through an
    optional chain: [data.hits?.total?.value] and [data.hits?.hits], whose
    elements may lack [_source]. *)
Record JusticeGovJson : Type := mkJson {
  total_value : option Z;
  hits : option (list (option Source))
}.

(** Whether a string that may be [undefined] or [null] is truthy. *)
Definition truthy (v : option string) : bool :=
  match v with
  | Some x => negb (String.eqb x "")
  | None => false
  end.

(** [v || dflt] on a number that may be [undefined]. *)
Definition number_or (v : option Z) (dflt : Z) : Z :=
  match v with
  | Some n => if n =? 0 then dflt else n
  | None => dflt
  end.

(** [Math.ceil(n / 10)] on an integer. *)
Definition ceil_div10 (n : Z) : Z := - ((- n) / 10).

Definition task_id (searchTerm : string) (pageNumber : Z) (name : string)
    (timestamp : Z) : string :=
  searchTerm +:+ "_" +:+ pretty pageNumber +:+ "_" +:+ name +:+ "_"
  +:+ pretty timestamp.

(** The body of the loop of [extractPdfsFromJson] for one hit. *)
Definition extract_hit (searchTerm : string) (pageNumber timestamp : Z)
    (hit : option Source) : list PdfTask.t :=
  match hit with
  | Some source =>
      if truthy (ORIGIN_FILE_NAME source) && truthy (ORIGIN_FILE_URI source)
      then
        match ORIGIN_FILE_NAME source, ORIGIN_FILE_URI source with
        | Some name, Some uri =>
            [PdfTask.mk (task_id searchTerm pageNumber name timestamp)
               searchTerm pageNumber name uri (number_or (fileSize source) 0)]
        | _, _ => []
        end
      else []
  | None => []
  end.

Definition extractPdfsFromJson (searchTerm : string) (data : JusticeGovJson)
    (pageNumber timestamp : Z) : list PdfTask.t :=
  List.concat
    (List.map (extract_hit searchTerm pageNumber timestamp)
       (match hits data with Some l => l | None => [] end)).

(** What [checkResume] returns. *)
Inductive resume_action : Type := Resume | Fresh | Abort.

(** [checkResume].  [fresh] is the option, [exists_] the answer of
    [queue.exists()], and [shouldResume], [confirmFresh] the answers to the
    two prompts, used only when asked. *)
Definition checkResume (fresh exists_ shouldResume confirmFresh : bool)
    (q : TaskQueue.t) : resume_action * TaskQueue.t :=
  if fresh || negb exists_ then (Fresh, TaskQueue.initialize q)
  else
    let progress := TaskQueue.getProgress q in
    if (QueueProgress.completed progress =? 0)
       && (QueueProgress.inProgress progress =? 0)
    then (Fresh, TaskQueue.initialize q)
    else if shouldResume then (Resume, TaskQueue.resetInProgress q)
    else if negb confirmFresh then (Abort, q)
    else (Fresh, TaskQueue.initialize q).

(** What [fetchPageContent] does for a page: it gives JSON, gives none, or
    rejects. *)
Inductive fetch_result : Type :=
| Fetched (data : JusticeGovJson)
| NoJson
| Rejects.

(** The fields of the coordinator its producer phase reads and writes.
    [fetched] logs the pages asked of [fetchPageContent], latest first, and
    [slept] the [sleep] calls.  The statements of the queue are taken to
    succeed, as they do on a database no other process holds locked. *)
Record t : Type := mk {
  searchTerm : string;
  queue : TaskQueue.t;
  totalPages : Z;
  totalPdfs : Z;
  clock : Z;
  fetched : list Z;
  slept : list Z
}.

Definition set_queue (q : TaskQueue.t) (c : t) : t :=
  mk (searchTerm c) q (totalPages c) (totalPdfs c) (clock c) (fetched c)
    (slept c).
Definition set_totals (pages pdfs : Z) (c : t) : t :=
  mk (searchTerm c) (queue c) pages pdfs (clock c) (fetched c) (slept c).
Definition log_fetch (page : Z) (c : t) : t :=
  mk (searchTerm c) (queue c) (totalPages c) (totalPdfs c) (clock c)
    (page :: fetched c) (slept c).
Definition sleep (ms : Z) (c : t) : t :=
  mk (searchTerm c) (queue c) (totalPages c) (totalPdfs c) (clock c + ms)
    (fetched c) (ms :: slept c).

(** The totals of a full or range run, from the count of PDFs found. *)
Definition plan_pages (startPage : Z) (endPage : option Z)
    (totalPdfsOverall : Z) : Z :=
  let totalPagesOverall := ceil_div10 totalPdfsOverall in
  let effectiveEndPage :=
    match endPage with
    | Some e => if e =? 0 then totalPagesOverall
                else Z.min e totalPagesOverall
    | None => totalPagesOverall
    end in
  Z.max 0 (effectiveEndPage - startPage + 1).

Definition plan_pdfs (startPage totalPages totalPdfsOverall : Z) : Z :=
  let remaining := Z.max 0 (totalPdfsOverall - (startPage - 1) * 10) in
  Z.min (totalPages * 10) remaining.

Section DiscoverTotals.

(** [parseInt(s, 10)], left open. *)
Variable parseInt : string -> Z.

(** [discoverTotals]; [None] when it throws. *)
Definition discoverTotals (startPageOpt endPage : option Z)
    (fetch : Z -> fetch_result) (c : t) : option t :=
  let startPage := number_or startPageOpt 1 in
  let isSinglePage :=
    match endPage with
    | Some e => startPage =? e
    | None => false
    end in
  if TaskQueue.hasPage startPage (queue c) then
    if isSinglePage then
      Some (set_totals 1
              (QueueProgress.total (TaskQueue.getProgress (queue c))) c)
    else
      let totalPagesStr := TaskQueue.getMetadata "total_pages" (queue c) in
      let totalPdfsStr := TaskQueue.getMetadata "total_pdfs" (queue c) in
      let pages :=
        match totalPagesStr with
        | Some str => if truthy totalPagesStr then parseInt str
                      else ceil_div10 (QueueProgress.total
                                         (TaskQueue.getProgress (queue c)))
        | None => ceil_div10 (QueueProgress.total
                                (TaskQueue.getProgress (queue c)))
        end in
      let pdfs :=
        match totalPdfsStr with
        | Some str => if truthy totalPdfsStr
                      then plan_pdfs startPage pages (parseInt str)
                      else pages * 10
        | None => pages * 10
        end in
      Some (set_totals pages pdfs c)
  else
    match fetch startPage with
    | Fetched data =>
        let c := log_fetch startPage c in
        if isSinglePage then
          let pdfs := extractPdfsFromJson (searchTerm c) data startPage
                        (clock c) in
          Some (set_queue (TaskQueue.insertPdfs (clock c) pdfs (queue c))
                  (set_totals 1 (Z.of_nat (length pdfs)) c))
        else
          let totalPdfsOverall := number_or (total_value data) 0 in
          let pages := plan_pages startPage endPage totalPdfsOverall in
          let pdfsTotal := plan_pdfs startPage pages totalPdfsOverall in
          let q1 := TaskQueue.setMetadata "total_pages" (pretty pages)
                      (queue c) in
          let q2 := TaskQueue.setMetadata "total_pdfs"
                      (pretty totalPdfsOverall) q1 in
          let q3 := TaskQueue.setMetadata "start_time" (pretty (clock c)) q2 in
          let pdfs := extractPdfsFromJson (searchTerm c) data startPage
                        (clock c) in
          Some (set_queue (TaskQueue.insertPdfs (clock c) pdfs q3)
                  (set_totals pages pdfsTotal c))
    | NoJson => None
    | Rejects => None
    end.

End DiscoverTotals.

(** One round of the [for] of [producerLoop], at [page]: the coordinator
    after it and whether the page counts as processed. *)
Definition produce_page (page endPage : Z) (fetch : Z -> fetch_result)
    (c : t) : t * bool :=
  if TaskQueue.hasPage page (queue c) then (c, true)
  else
    match fetch page with
    | Fetched data =>
        let c := log_fetch page c in
        let pdfs := extractPdfsFromJson (searchTerm c) data page (clock c) in
        let c := set_queue (TaskQueue.insertPdfs (clock c) pdfs (queue c)) c in
        (if page <? endPage then sleep 1000 c else c, true)
    | NoJson => (log_fetch page c, false)
    | Rejects => (log_fetch page c, false)
    end.

(** [for (page = ...; page <= endPage; page++)], at most [rounds] times. *)
Fixpoint produce_from (rounds : nat) (page endPage : Z)
    (fetch : Z -> fetch_result) (processedPages : Z) (c : t) : t * Z :=
  match rounds with
  | O => (c, processedPages)
  | S rounds' =>
      if page <=? endPage then
        let '(c', counted) := produce_page page endPage fetch c in
        produce_from rounds' (page + 1) endPage fetch
          (if counted then processedPages + 1 else processedPages) c'
      else (c, processedPages)
  end.

(** [producerLoop]: the coordinator after it and [processedPages]. *)
Definition producerLoop (startPageOpt endPageOpt : option Z)
    (fetch : Z -> fetch_result) (c : t) : t * Z :=
  let startPage := number_or startPageOpt 1 in
  let endPage :=
    match endPageOpt with
    | Some e => if e =? 0 then startPage + totalPages c - 1 else e
    | None => startPage + totalPages c - 1
    end in
  produce_from (Z.to_nat (endPage - startPage + 1)) startPage endPage fetch 0 c.

(** The default answer of the cleanup prompt. *)
Definition cleanup_default (failedPdfs : Z) : bool := failedPdfs =? 0.

(** [formatDuration], on a whole number of milliseconds. *)
Definition formatDuration (ms : Z) : string :=
  let seconds := ms / 1000 in
  let minutes := seconds / 60 in
  let hours := minutes / 60 in
  if 0 <? hours then
    pretty hours +:+ "h " +:+ pretty (Z.rem minutes 60) +:+ "m "
    +:+ pretty (Z.rem seconds 60) +:+ "s"
  else if 0 <? minutes then
    pretty minutes +:+ "m " +:+ pretty (Z.rem seconds 60) +:+ "s"
  else pretty seconds +:+ "s".

End Coordinator.

(** ** Vocabulary of the statements *)

(** The sum of [e] over [rows], zero over no rows. *)
Definition tally_of (e : Row.t -> Z) (rows : list Row.t) : Z :=
  fold_right (fun r acc => e r + acc) 0 rows.

(** The status is one of the four codes, an in-progress row has an owner and
    a pending row has none. *)
Definition row_ok (r : Row.t) : Prop :=
  0 <= Row.status r <= 3
  /\ (Row.status r = InProgress -> Row.worker_id r <> None)
  /\ (Row.status r = Pending -> Row.worker_id r = None).

(** Every row of the queue carries the search term the queue was opened
    with: the data-model rule that the tasks of one queue share one group
    key.  The coordinator builds each task with its own search term. *)
Definition scoped (q : TaskQueue.t) : Prop :=
  Forall (fun r => Row.search_term r = TaskQueue.searchTerm q)
    (TaskQueue.pdf_tasks q).

(** [a] comes no later than [b] in the claim order: lower page number first,
    then lower name. *)
Definition lowest_first (a b : Row.t) : Prop :=
  Row.page_number a < Row.page_number b
  \/ (Row.page_number a = Row.page_number b
      /\ String.le (Row.pdf_name a) (Row.pdf_name b)).

(** The key of the uniqueness constraint [UNIQUE(search_term, pdf_name)]. *)
Definition row_key (r : Row.t) : string * string :=
  (Row.search_term r, Row.pdf_name r).

Definition task_key (pdf : PdfTask.t) : string * string :=
  (PdfTask.searchTerm pdf, PdfTask.pdfName pdf).

Definition same_key (pdf : PdfTask.t) (r : Row.t) : bool :=
  String.eqb (Row.search_term r) (PdfTask.searchTerm pdf)
  && String.eqb (Row.pdf_name r) (PdfTask.pdfName pdf).

(** The rows stored under the key of [pdf]. *)
Definition rows_with_key (pdf : PdfTask.t) (tbl : list Row.t) : list Row.t :=
  List.filter (same_key pdf) tbl.

(** What the two uniqueness constraints make true of any table. *)
Definition unique_rows (tbl : list Row.t) : Prop :=
  List.NoDup (List.map Row.id tbl) /\ List.NoDup (List.map row_key tbl).

(** The waits of [withDbLockRetry] before its retries: 300 ms times the
    number of the failed attempt. *)
Definition backoff_delays (k : nat) : list Z :=
  List.map (fun attempt => 300 * Z.of_nat attempt) (seq 1 k).

(** The identifiers [start] gives to [n] workers. *)
Definition worker_names (n : nat) : gset string :=
  list_to_set (List.map WorkerPool.worker_name (seq 0 n)).

(** Every spawned worker is either still running or has its entry in
    [results]. *)
Definition accounted (names : gset string) (p : WorkerPool.t) : Prop :=
  WorkerPool.workers p ∪ dom (WorkerPool.results p) = names.

(** An operation of a producer that, like the coordinator, builds every task
    with the search term of its queue. *)
Definition op_scoped (searchTerm : string) (o : Reach.op) : Prop :=
  match o with
  | Reach.InsertPdfs _ pdfs =>
      Forall (fun pdf => PdfTask.searchTerm pdf = searchTerm) pdfs
  | _ => True
  end.

(** An operation that neither deletes rows nor puts a task back in the
    queue. *)
Definition keeps_claims (o : Reach.op) : Prop :=
  match o with
  | Reach.ResetInProgress => False
  | Reach.Initialize => False
  | _ => True
  end.

(** An operation that deletes no row. *)
Definition keeps_rows (o : Reach.op) : Prop :=
  match o with
  | Reach.Initialize => False
  | _ => True
  end.

(** An operation on the task table alone. *)
Definition task_op (o : Reach.op) : Prop :=
  match o with
  | Reach.SetMetadata _ _ => False
  | Reach.Initialize => False
  | _ => True
  end.

(** The task [taskId] is in the table and none of its rows is pending. *)
Definition taken (taskId : string) (tbl : list Row.t) : Prop :=
  (exists r, In r tbl /\ Row.id r = taskId)
  /\ forall r, In r tbl -> Row.id r = taskId -> Row.status r <> Pending.

(** [s] with its ASCII letters in upper case. *)
Fixpoint upper (s : string) : string :=
  match s with
  | EmptyString => EmptyString
  | String c s' => String (Js.fold_case c) (upper s')
  end.

(** The counts of a [WorkerResult] add up: every processed task succeeded or
    failed, with one error entry per failure. *)
Definition settled (r : Worker.WorkerResult) : Prop :=
  0 <= Worker.pdfsSucceeded r /\ 0 <= Worker.pdfsFailed r
  /\ Worker.pdfsProcessed r = Worker.pdfsSucceeded r + Worker.pdfsFailed r
  /\ Z.of_nat (length (Worker.errors r)) = Worker.pdfsFailed r.

(** The download of the next task fails: the three coming [downloadPdf]
    calls are all rejected. *)
Definition rejects_thrice (d : list (option Js.Thrown)) : bool :=
  match d with
  | Some _ :: Some _ :: Some _ :: _ => true
  | _ => false
  end.

(** The pending rows of a table. *)
Definition pending_rows (tbl : list Row.t) : list Row.t :=
  List.filter (fun r => Row.status r =? 0) tbl.

(** What a worker that completes every pending task makes of a row: a
    pending row ends completed under that worker, with no error and its
    description kept; any other row stays as it is. *)
Definition drained_row (workerId : string) (before after : Row.t) : Prop :=
  if Row.status before =? 0 then
    Row.status after = Completed
    /\ Row.worker_id after = Some workerId
    /\ Row.error after = None
    /\ Row.id after = Row.id before
    /\ Row.search_term after = Row.search_term before
    /\ Row.page_number after = Row.page_number before
    /\ Row.pdf_name after = Row.pdf_name before
    /\ Row.pdf_url after = Row.pdf_url before
    /\ Row.file_size after = Row.file_size before
    /\ Row.retry_count after = Row.retry_count before
    /\ Row.created_at after = Row.created_at before
  else after = before.

(** The workers that emit one of [events]. *)
Definition event_ids (events : list WorkerPool.event) : gset string :=
  list_to_set (List.map WorkerPool.event_worker events).

(** A close event with exit code 0 or, for a process ended by a signal,
    with no exit code. *)
Definition closes_without_code (e : WorkerPool.event) : Prop :=
  match e with
  | WorkerPool.Close _ code _ => code = None \/ code = Some 0
  | WorkerPool.Error _ => False
  end.

(** [data.hits?.hits || []]. *)
Definition hits_of (data : Coordinator.JusticeGovJson)
    : list (option Coordinator.Source) :=
  match Coordinator.hits data with Some l => l | None => [] end.

(** A row as the producer inserts it: pending and unowned, under the given
    search term, from a page between [first] and [last], with a name and an
    address. *)
Definition produced_row (searchTerm : string) (first last : Z) (r : Row.t)
    : Prop :=
  Row.status r = Pending /\ Row.worker_id r = None
  /\ Row.search_term r = searchTerm
  /\ first <= Row.page_number r <= last
  /\ Row.pdf_name r <> "" /\ Row.pdf_url r <> "".

(** What the producer may have done between [c] and [c'] while visiting
    the pages from [first] to [last] of a loop that ends at [endPage]. *)
Definition produced (first last endPage : Z) (c c' : Coordinator.t) : Prop :=
  Coordinator.searchTerm c' = Coordinator.searchTerm c
  /\ Coordinator.totalPages c' = Coordinator.totalPages c
  /\ Coordinator.totalPdfs c' = Coordinator.totalPdfs c
  /\ TaskQueue.searchTerm (Coordinator.queue c')
     = TaskQueue.searchTerm (Coordinator.queue c)
  /\ TaskQueue.metadata (Coordinator.queue c')
     = TaskQueue.metadata (Coordinator.queue c)
  /\ (exists added,
        TaskQueue.pdf_tasks (Coordinator.queue c')
        = TaskQueue.pdf_tasks (Coordinator.queue c) ++ added
        /\ Forall (produced_row (Coordinator.searchTerm c) first last) added)
  /\ (exists pages naps,
        Coordinator.fetched c' = pages ++ Coordinator.fetched c
        /\ List.NoDup pages
        /\ Forall (fun p => first <= p <= last
                            /\ TaskQueue.hasPage p (Coordinator.queue c) = false)
             pages
        /\ Coordinator.slept c' = naps ++ Coordinator.slept c
        /\ Forall (fun ms => ms = 1000) naps
        /\ (length naps
            <= length (List.filter (fun p => (p <? endPage)%Z) pages))%nat
        /\ Coordinator.clock c'
           = Coordinator.clock c + 1000 * Z.of_nat (length naps)).

(** ** Sample data *)

(** A queue opened for ["g"] whose only row belongs to another search term. *)
Definition foreign_only : TaskQueue.t :=
  TaskQueue.insertPdfs 5 [PdfTask.mk "h_1_a.pdf_5" "h" 1 "a.pdf" "u" 10]
    (Reach.fresh "g").

(** A task is inserted, claimed by a worker and completed. *)
Definition claimed_then_completed : list Reach.op :=
  [Reach.InsertPdfs 10 [PdfTask.mk "g_1_a.pdf_10" "g" 1 "a.pdf" "u" 7];
   Reach.ClaimNextPdf "worker-1" 20;
   Reach.MarkComplete 30 "g_1_a.pdf_10"].

(** Three pending tasks, discovered out of claim order. *)
Definition three_pending : TaskQueue.t :=
  TaskQueue.insertPdfs 100
    [PdfTask.mk "g_2_c.pdf_100" "g" 2 "c.pdf" "u3" 30;
     PdfTask.mk "g_1_b.pdf_100" "g" 1 "b.pdf" "u1" 10;
     PdfTask.mk "g_1_a.pdf_100" "g" 1 "a.pdf" "u2" 20]
    (Reach.fresh "g").

(** A batch that repeats a stored name under a new id and adds a new name. *)
Definition second_batch : list PdfTask.t :=
  [PdfTask.mk "g_1_a.pdf_900" "g" 1 "a.pdf" "elsewhere" 21;
   PdfTask.mk "g_3_d.pdf_900" "g" 3 "d.pdf" "u4" 40].

(** The queue is drained of pending rows and ingestion is complete, while
    another worker still holds a row. *)
Definition others_busy : Worker.World :=
  Worker.mkWorld
    (Reach.run_all
       [Reach.InsertPdfs 10 [PdfTask.mk "g_1_a.pdf_10" "g" 1 "a.pdf" "u" 7];
        Reach.ClaimNextPdf "worker-2" 20;
        Reach.SetMetadata "json_fetch_complete" "true"]
       (Reach.fresh "g"))
    30 [] [] [] (Worker.mkResult "worker-1" 0 0 0 []) 0.

(** A worker facing a database that is locked for its first four calls. *)
Definition four_times_locked : Worker.World :=
  Worker.mkWorld three_pending 1000 [true; true; true; true; false] [] []
    (Worker.mkResult "worker-1" 0 0 0 []) 0.

(** A worker whose next three downloads are rejected, while the database is
    locked once when it claims and twice when it marks. *)
Definition three_rejections : Worker.World :=
  Worker.mkWorld three_pending 1000 [true; false; true; true; false]
    [Some (Js.mkThrown true (Some "timeout"));
     Some (Js.mkThrown true (Some "timeout"));
     Some (Js.mkThrown true (Some "HTTP 503"))]
    [] (Worker.mkResult "worker-1" 0 0 0 []) 0.

(** A worker alone on [three_pending] after ingestion was flagged complete;
    every download succeeds and the database is never locked. *)
Definition lone_worker : Worker.World :=
  Worker.mkWorld (TaskQueue.setMetadata "json_fetch_complete" "true" three_pending)
    1000 [] [] [] (Worker.mkResult "worker-1" 0 0 0 []) 0.

(** A worker that finds the database locked at each of its first five
    calls. *)
Definition always_locked : Worker.World :=
  Worker.mkWorld three_pending 1000 [true; true; true; true; true] [] []
    (Worker.mkResult "worker-1" 0 0 0 []) 0.

(** What [claimNextPdf] hands to the worker in [three_rejections]. *)
Definition claimed_a : PdfTaskRecord.t :=
  PdfTaskRecord.mk "g_1_a.pdf_100" "g" 1 "a.pdf" "u2" (Some 20) 1
    (Some "worker-1") 0 100 (Some 1300) None None.

(** A pool of two workers: the first exits with code 0 before the wait, the
    second fails to spawn. *)
Definition pool_of_two : WorkerPool.t :=
  WorkerPool.start (WorkerPool.create (Js.Int 2)).

Definition early_events : list WorkerPool.event :=
  [WorkerPool.Close "worker-1" (Some 0) None].

Definition tick_events : list (list WorkerPool.event) :=
  [[WorkerPool.Error "worker-2"];
   [WorkerPool.Close "worker-2" (Some (-2)) None]].

Definition pool_at_return : WorkerPool.t :=
  WorkerPool.deliver (early_events ++ [WorkerPool.Error "worker-2"]) pool_of_two.

(** A claim, the completion of the claimed task and a recovery. *)
Definition claim_then_finish : list Reach.op :=
  [Reach.ClaimNextPdf "worker-1" 1300;
   Reach.MarkComplete 1400 "g_1_a.pdf_100";
   Reach.ResetInProgress].

(** [three_pending] after a worker claimed its first task at time 1300. *)
Definition one_claimed : TaskQueue.t :=
  snd (TaskQueue.claimNextPdf "worker-1" 1300 three_pending).

(** The row of that task in [one_claimed]. *)
Definition claimed_row : Row.t :=
  Row.mk "g_1_a.pdf_100" "g" 1 "a.pdf" "u2" (Some 20) 1 (Some "worker-1") 0
    100 (Some 1300) None None.

(** What a second worker is handed once the first task is completed. *)
Definition claimed_b : PdfTaskRecord.t :=
  PdfTaskRecord.mk "g_1_b.pdf_100" "g" 1 "b.pdf" "u1" (Some 10) 1
    (Some "worker-2") 0 100 (Some 1500) None None.

(** A pool of two workers: the first is ended by a signal before the wait,
    the second exits with code 0. *)
Definition signalled_first : list WorkerPool.event :=
  [WorkerPool.Close "worker-1" None (Some "SIGTERM")].

Definition then_clean : list (list WorkerPool.event) :=
  [[WorkerPool.Close "worker-2" (Some 0) None]].

Definition pool_after_signal : WorkerPool.t :=
  WorkerPool.deliver
    (signalled_first ++ [WorkerPool.Close "worker-2" (Some 0) None])
    pool_of_two.

(** A coordinator that resumes over [three_pending], which holds pages 1
    and 2. *)
Definition resuming : Coordinator.t :=
  Coordinator.mk "g" three_pending 2 3 1000 [] [].

(** A coordinator on an empty queue, and a first page that announces 25
    documents and lists three hits, of which one has a name and an address. *)
Definition starting : Coordinator.t :=
  Coordinator.mk "g" (Reach.fresh "g") 0 0 1000 [] [].

Definition first_page : Coordinator.JusticeGovJson :=
  Coordinator.mkJson (Some 25)
    (Some [Some (Coordinator.mkSource (Some "a.pdf") (Some "u") (Some 10));
           None;
           Some (Coordinator.mkSource (Some "b.pdf") None None)]).

(** * Properties of the queue *)

Section SqlFacts.

Lemma update_where_Forall (P : Row.t -> Prop) cond set tbl :
  (forall r, cond r = true -> P (set r)) ->
  Forall P tbl -> Forall P (Sql.update_where cond set tbl).
Proof.
  intros Hset Htbl. unfold Sql.update_where.
  induction Htbl as [|r tbl Hr _ IH]; simpl; constructor; auto.
  destruct (cond r) eqn:E; auto.
Qed.

Lemma insert_or_ignore_Forall (P : Row.t -> Prop) new tbl :
  P new -> Forall P tbl -> Forall P (Sql.insert_or_ignore new tbl).
Proof.
  intros Hnew Htbl. unfold Sql.insert_or_ignore.
  destruct (existsb _ tbl); auto.
  apply Forall_app; split; auto.
Qed.

Lemma insert_fold_Forall (P : Row.t -> Prop) now pdfs tbl :
  (forall pdf, P (TaskQueue.new_row now pdf)) ->
  Forall P tbl -> Forall P (fold_left (TaskQueue.insert_run now) pdfs tbl).
Proof.
  intros Hnew. revert tbl.
  induction pdfs as [|pdf pdfs IH]; simpl; intros tbl Htbl; auto.
  apply IH. now apply insert_or_ignore_Forall.
Qed.

(** [v || 0] leaves a number as it is. *)
Lemma or_zero_Some n : or_zero (Some n) = n.
Proof. simpl. destruct (Z.eqb_spec n 0); congruence. Qed.

Lemma or_zero_sum e rows : or_zero (Sql.sum e rows) = tally_of e rows.
Proof.
  destruct rows as [|r rows]; [reflexivity|].
  unfold Sql.sum. apply or_zero_Some.
Qed.

Lemma tally_absent s rows :
  Forall (fun r => Row.status r <> s) rows ->
  tally_of (Sql.case_status s) rows = 0.
Proof.
  induction 1 as [|r rows Hr _ IH]; simpl; [reflexivity|].
  unfold Sql.case_status at 1.
  destruct (Z.eqb_spec (Row.status r) s); [contradiction|lia].
Qed.

Lemma count_by_status rows :
  Forall (fun r => 0 <= Row.status r <= 3) rows ->
  Sql.count rows
  = tally_of (Sql.case_status 0) rows + tally_of (Sql.case_status 1) rows
    + tally_of (Sql.case_status 2) rows + tally_of (Sql.case_status 3) rows.
Proof.
  unfold Sql.count.
  induction 1 as [|r rows Hr _ IH]; [reflexivity|].
  cbn [length tally_of fold_right]. fold (tally_of (Sql.case_status 0) rows).
  fold (tally_of (Sql.case_status 1) rows).
  fold (tally_of (Sql.case_status 2) rows).
  fold (tally_of (Sql.case_status 3) rows).
  rewrite Nat2Z.inj_succ, IH. unfold Sql.case_status.
  destruct (Z.eqb_spec (Row.status r) 0), (Z.eqb_spec (Row.status r) 1),
    (Z.eqb_spec (Row.status r) 2), (Z.eqb_spec (Row.status r) 3); lia.
Qed.

End SqlFacts.

(** ** What every row of a reachable queue satisfies *)

Section RowInvariant.

Lemma run_rows_ok o q :
  Forall row_ok (TaskQueue.pdf_tasks q) ->
  Forall row_ok (TaskQueue.pdf_tasks (Reach.run o q)).
Proof.
  intros H. destruct o; simpl.
  - apply insert_fold_Forall; auto.
    intros pdf. unfold row_ok, InProgress, Pending. simpl.
    repeat split; (lia || congruence).
  - unfold TaskQueue.claimNextPdf.
    destruct (TaskQueue.next_pending _); simpl; auto.
    apply update_where_Forall; auto.
    intros r _. unfold row_ok, InProgress, Pending. simpl.
    repeat split; (lia || congruence).
  - apply update_where_Forall; auto.
    intros r _. unfold row_ok, InProgress, Pending. simpl.
    repeat split; (lia || congruence).
  - apply update_where_Forall; auto.
    intros r _. unfold row_ok, InProgress, Pending. simpl.
    repeat split; (lia || congruence).
  - apply update_where_Forall; auto.
    intros r _. unfold row_ok, InProgress, Pending. simpl.
    repeat split; (lia || congruence).
  - exact H.
  - constructor.
Qed.

Lemma run_all_rows_ok ops q :
  Forall row_ok (TaskQueue.pdf_tasks q) ->
  Forall row_ok (TaskQueue.pdf_tasks (Reach.run_all ops q)).
Proof.
  revert q. unfold Reach.run_all.
  induction ops as [|o ops IH]; simpl; intros q H; auto.
  apply IH, run_rows_ok, H.
Qed.

Lemma reachable_rows_ok searchTerm ops :
  Forall row_ok
    (TaskQueue.pdf_tasks (Reach.run_all ops (Reach.fresh searchTerm))).
Proof. apply run_all_rows_ok. constructor. Qed.

(** The inductive and the executable reading of reachability agree. *)
Lemma reachable_run_all searchTerm q :
  Reach.reachable searchTerm q
  <-> exists ops, q = Reach.run_all ops (Reach.fresh searchTerm).
Proof.
  split.
  - induction 1 as [|q o _ [ops ->]].
    + exists []. reflexivity.
    + exists (ops ++ [o]). unfold Reach.run_all.
      rewrite fold_left_app. reflexivity.
  - intros [ops ->]. unfold Reach.run_all.
    generalize (Reach.reach_fresh searchTerm).
    generalize (Reach.fresh searchTerm).
    induction ops as [|o ops IH]; simpl; intros q Hq; auto.
    apply IH. now constructor.
Qed.

End RowInvariant.

(** ** Progress counts *)

(** C10: on a queue holding no row for its search term, [getProgress]
    returns zero for every count.  The count of rows is 0 and each [SUM] is
    NULL, which [|| 0] turns into 0. *)
Theorem getProgress_no_rows (q : TaskQueue.t) :
  TaskQueue.own_rows q = [] ->
  TaskQueue.getProgress q = QueueProgress.mk 0 0 0 0 0
  /\ Sql.count (TaskQueue.own_rows q) = 0
  /\ (forall s, Sql.sum (Sql.case_status s) (TaskQueue.own_rows q) = None).
Proof.
  intros H. unfold TaskQueue.getProgress. rewrite H. repeat split.
Qed.

Lemma getProgress_no_rows_witness :
  TaskQueue.getProgress foreign_only = QueueProgress.mk 0 0 0 0 0
  /\ Sql.count (TaskQueue.own_rows foreign_only) = 0
  /\ (forall s, Sql.sum (Sql.case_status s) (TaskQueue.own_rows foreign_only) = None).
Proof. apply (getProgress_no_rows foreign_only). reflexivity. Defined.

(** C7: in every state the public operations can produce from an
    initialized queue, the total reported by [getProgress] is the sum of the
    four per-status counts. *)
Theorem getProgress_conservation (searchTerm : string) (ops : list Reach.op) :
  let p := TaskQueue.getProgress (Reach.run_all ops (Reach.fresh searchTerm)) in
  QueueProgress.total p
  = QueueProgress.pending p + QueueProgress.inProgress p
    + QueueProgress.completed p + QueueProgress.failed p.
Proof.
  cbn zeta. unfold TaskQueue.getProgress.
  cbn [QueueProgress.total QueueProgress.pending QueueProgress.inProgress
       QueueProgress.completed QueueProgress.failed].
  rewrite or_zero_Some, !or_zero_sum.
  apply count_by_status.
  unfold TaskQueue.own_rows, Sql.select_where.
  apply Forall_forall. intros r Hr. apply filter_In in Hr as [Hr _].
  pose proof (reachable_rows_ok searchTerm ops) as Hok.
  rewrite Forall_forall in Hok. apply Hok in Hr. apply Hr.
Qed.

(** ** Recovery *)

Lemma own_rows_reset_not_in_progress q :
  Forall (fun r => Row.status r <> InProgress)
    (TaskQueue.own_rows (TaskQueue.resetInProgress q)).
Proof.
  unfold TaskQueue.own_rows, TaskQueue.resetInProgress, Sql.select_where,
    Sql.update_where. cbn [TaskQueue.pdf_tasks TaskQueue.searchTerm
    TaskQueue.with_tasks].
  apply Forall_forall. intros r Hr.
  apply filter_In in Hr as [Hin Hown].
  apply in_map_iff in Hin as [r0 [<- _]].
  unfold TaskQueue.reset_cond in *.
  destruct (Z.eqb_spec (Row.status r0) 1) as [E|E]; simpl in *.
  - destruct (String.eqb (Row.search_term r0) (TaskQueue.searchTerm q)) eqn:Eo;
      simpl in *; [discriminate|congruence].
  - exact E.
Qed.

(** C6: after [resetInProgress], [getProgress] reports [inProgress = 0].
    Row by row, an in-progress row of the queue's search term becomes
    pending with owner and start time cleared and every other column kept,
    and any other row stays exactly as it was. *)
Theorem resetInProgress_recovers (q : TaskQueue.t) :
  let q' := TaskQueue.resetInProgress q in
  QueueProgress.inProgress (TaskQueue.getProgress q') = 0
  /\ length (TaskQueue.pdf_tasks q') = length (TaskQueue.pdf_tasks q)
  /\ forall i r, nth_error (TaskQueue.pdf_tasks q) i = Some r ->
       exists r', nth_error (TaskQueue.pdf_tasks q') i = Some r'
       /\ (Row.status r = InProgress
           /\ Row.search_term r = TaskQueue.searchTerm q ->
           Row.status r' = Pending /\ Row.worker_id r' = None
           /\ Row.started_at r' = None
           /\ Row.id r' = Row.id r /\ Row.search_term r' = Row.search_term r
           /\ Row.page_number r' = Row.page_number r
           /\ Row.pdf_name r' = Row.pdf_name r /\ Row.pdf_url r' = Row.pdf_url r
           /\ Row.file_size r' = Row.file_size r
           /\ Row.retry_count r' = Row.retry_count r
           /\ Row.created_at r' = Row.created_at r
           /\ Row.completed_at r' = Row.completed_at r
           /\ Row.error r' = Row.error r)
       /\ (~ (Row.status r = InProgress
              /\ Row.search_term r = TaskQueue.searchTerm q) -> r' = r).
Proof.
  cbn zeta. split; [|split].
  - unfold TaskQueue.getProgress. cbn [QueueProgress.inProgress].
    rewrite or_zero_sum. apply tally_absent, own_rows_reset_not_in_progress.
  - unfold TaskQueue.resetInProgress, Sql.update_where. simpl.
    apply length_map.
  - intros i r Hi.
    unfold TaskQueue.resetInProgress, Sql.update_where.
    cbn [TaskQueue.pdf_tasks TaskQueue.with_tasks].
    rewrite nth_error_map, Hi. simpl. eexists; split; [reflexivity|].
    unfold TaskQueue.reset_cond, InProgress.
    destruct (Z.eqb_spec (Row.status r) 1) as [E|E];
      destruct (String.eqb_spec (Row.search_term r) (TaskQueue.searchTerm q))
        as [Eo|Eo]; simpl; split; intros H;
      try (exfalso; tauto); try reflexivity.
    unfold Pending. repeat split.
Qed.

(** ** Ownership *)

(** C3, as the code has it: in every state the public operations can
    produce from an initialized queue, an in-progress row has an owner, and a
    row with an owner is in progress, completed or failed: [markComplete] and
    [markFailed] keep the [worker_id] of the worker that claimed the row. *)
Theorem owner_invariant (searchTerm : string) (ops : list Reach.op) :
  Forall (fun r =>
            (Row.status r = InProgress -> Row.worker_id r <> None)
            /\ (Row.worker_id r <> None ->
                Row.status r = InProgress \/ Row.status r = Completed
                \/ Row.status r = Failed))
    (TaskQueue.pdf_tasks (Reach.run_all ops (Reach.fresh searchTerm))).
Proof.
  eapply Forall_impl; [|apply reachable_rows_ok].
  intros r (Hrange & Hin & Hpend). split; [exact Hin|].
  intros Hown. unfold InProgress, Completed, Failed, Pending in *.
  assert (Row.status r <> 0) by (intros E; apply Hown, Hpend, E).
  lia.
Qed.

(** C3, as stated, fails: the completed row still has its owner. *)
Lemma owner_iff_in_progress_refuted :
  ~ (forall searchTerm ops,
       Forall (fun r => Row.worker_id r <> None <-> Row.status r = InProgress)
         (TaskQueue.pdf_tasks (Reach.run_all ops (Reach.fresh searchTerm)))).
Proof.
  intros H. specialize (H "g" claimed_then_completed).
  vm_compute in H. inversion H as [|r rows [Hown _] _]; subst.
  assert (2 = 1) as E by (apply Hown; discriminate).
  discriminate E.
Qed.

(** ** Claim order *)

Section ClaimOrder.

Lemma string_leb_trans a b c :
  String.leb a b = true -> String.leb b c = true -> String.leb a c = true.
Proof.
  intros H1%Is_true_true H2%Is_true_true. apply Is_true_true.
  change (String.le a c). etransitivity; eassumption.
Qed.

Lemma order_le_spec a b : Sql.order_le a b = true <-> lowest_first a b.
Proof.
  unfold Sql.order_le, lowest_first, String.le.
  rewrite orb_true_iff, andb_true_iff, Z.ltb_lt, Z.eqb_eq, Is_true_true.
  reflexivity.
Qed.

Lemma order_le_total a b : Sql.order_le a b = false -> Sql.order_le b a = true.
Proof.
  unfold Sql.order_le. intros H.
  apply orb_false_iff in H as [Hlt H]. apply Z.ltb_ge in Hlt.
  destruct (Z.eqb_spec (Row.page_number a) (Row.page_number b)) as [E|E].
  - simpl in H. rewrite E, Z.eqb_refl. simpl.
    destruct (String.leb_total (Row.pdf_name a) (Row.pdf_name b)) as [L|L];
      [congruence|]. rewrite L. apply orb_true_r.
  - assert ((Row.page_number b <? Row.page_number a) = true) as ->
      by (apply Z.ltb_lt; lia). reflexivity.
Qed.

Lemma order_le_trans a b c :
  Sql.order_le a b = true -> Sql.order_le b c = true ->
  Sql.order_le a c = true.
Proof.
  unfold Sql.order_le. rewrite !orb_true_iff, !andb_true_iff, !Z.ltb_lt,
    !Z.eqb_eq.
  intros [H1|[H1 L1]] [H2|[H2 L2]]; try (left; lia).
  right. split; [lia|]. eapply string_leb_trans; eassumption.
Qed.

Lemma order_le_refl a : Sql.order_le a a = true.
Proof.
  destruct (Sql.order_le a a) eqn:E; [reflexivity|].
  apply order_le_total in E as E'. congruence.
Qed.

Lemma order_insert_In r s x :
  In x (Sql.order_insert r s) <-> x = r \/ In x s.
Proof.
  induction s as [|y s IH]; simpl.
  - intuition congruence.
  - destruct (Sql.order_le r y); simpl; rewrite ?IH; intuition congruence.
Qed.

Lemma order_by_In rows x : In x (Sql.order_by_page_name rows) <-> In x rows.
Proof.
  unfold Sql.order_by_page_name.
  induction rows as [|r rows IH]; simpl; [reflexivity|].
  rewrite order_insert_In, IH. intuition congruence.
Qed.

(** The first row of the ordered selection is a least one. *)
Lemma order_by_head rows low rest :
  Sql.order_by_page_name rows = low :: rest ->
  forall x, In x rows -> Sql.order_le low x = true.
Proof.
  unfold Sql.order_by_page_name. revert low rest.
  induction rows as [|r rows IH]; simpl; intros low rest Hs x Hx;
    [contradiction|].
  destruct (fold_right Sql.order_insert [] rows) as [|m sorted] eqn:Es.
  - assert (rows = []) as ->.
    { destruct rows as [|y rows]; [reflexivity|]. exfalso.
      assert (In y (Sql.order_by_page_name (y :: rows)))
        by (apply order_by_In; left; reflexivity).
      unfold Sql.order_by_page_name in H. rewrite Es in H. exact H. }
    simpl in Hs. injection Hs as <- <-.
    destruct Hx as [<-|[]]. apply order_le_refl.
  - simpl in Hs. destruct (Sql.order_le r m) eqn:Erm.
    + injection Hs as <- <-. destruct Hx as [<-|Hx].
      * apply order_le_refl.
      * eapply order_le_trans; [exact Erm|]. eapply IH; eauto.
    + injection Hs as <- <-. destruct Hx as [<-|Hx].
      * now apply order_le_total.
      * eapply IH; eauto.
Qed.

Lemma next_pending_None tbl :
  TaskQueue.next_pending tbl = None <->
  forall r, In r tbl -> Row.status r <> Pending.
Proof.
  unfold TaskQueue.next_pending, Sql.limit1, Sql.select_where, Pending.
  split.
  - intros H r Hr E.
    assert (In r (Sql.order_by_page_name
                    (List.filter (fun r => Row.status r =? 0) tbl))) as Hin.
    { apply order_by_In, filter_In. split; [exact Hr|]. now apply Z.eqb_eq. }
    destruct (Sql.order_by_page_name _); [exact Hin|discriminate].
  - intros H.
    destruct (Sql.order_by_page_name _) as [|m sorted] eqn:Es; [reflexivity|].
    exfalso.
    assert (In m (Sql.order_by_page_name
                    (List.filter (fun r => Row.status r =? 0) tbl))) as Hin
      by (rewrite Es; left; reflexivity).
    apply order_by_In, filter_In in Hin as [Hin E].
    apply Z.eqb_eq in E. exact (H m Hin E).
Qed.

Lemma next_pending_Some tbl low :
  TaskQueue.next_pending tbl = Some low ->
  In low tbl /\ Row.status low = Pending
  /\ forall r, In r tbl -> Row.status r = Pending -> lowest_first low r.
Proof.
  unfold TaskQueue.next_pending, Sql.limit1, Sql.select_where, Pending.
  destruct (Sql.order_by_page_name _) as [|m sorted] eqn:Es;
    [discriminate|].
  simpl. intros [= ->].
  assert (In low (Sql.order_by_page_name
                    (List.filter (fun r => Row.status r =? 0) tbl))) as Hin
    by (rewrite Es; left; reflexivity).
  apply order_by_In, filter_In in Hin as [Hin E]. apply Z.eqb_eq in E.
  repeat split; auto.
  intros r Hr Er. apply order_le_spec.
  eapply order_by_head; [exact Es|].
  apply filter_In. split; [exact Hr|]. now apply Z.eqb_eq.
Qed.

Lemma scoped_own_rows q : scoped q -> TaskQueue.own_rows q = TaskQueue.pdf_tasks q.
Proof.
  unfold scoped, TaskQueue.own_rows, Sql.select_where.
  induction 1 as [|r tbl Hr _ IH]; simpl; [reflexivity|].
  rewrite Hr, String.eqb_refl. now f_equal.
Qed.

End ClaimOrder.

(** The producer keeps the queue scoped: every task it builds carries the
    search term of the queue, and no operation rewrites that column. *)
Section Scoped.

Lemma update_where_Forall_keep (P : Row.t -> Prop) cond set tbl :
  (forall r, P r -> P (set r)) ->
  Forall P tbl -> Forall P (Sql.update_where cond set tbl).
Proof.
  intros Hset Htbl. unfold Sql.update_where.
  induction Htbl as [|r tbl Hr _ IH]; simpl; constructor; auto.
  destruct (cond r); auto.
Qed.

Lemma insert_fold_Forall_batch (P : Row.t -> Prop) (Q : PdfTask.t -> Prop)
    now pdfs tbl :
  (forall pdf, Q pdf -> P (TaskQueue.new_row now pdf)) ->
  Forall Q pdfs ->
  Forall P tbl -> Forall P (fold_left (TaskQueue.insert_run now) pdfs tbl).
Proof.
  intros Hnew Hq. revert tbl.
  induction Hq as [|pdf pdfs Hpdf _ IH]; simpl; intros tbl Htbl; auto.
  apply IH. apply insert_or_ignore_Forall; auto.
Qed.

Lemma run_searchTerm o q :
  TaskQueue.searchTerm (Reach.run o q) = TaskQueue.searchTerm q.
Proof.
  destruct o; simpl; try reflexivity.
  unfold TaskQueue.claimNextPdf.
  destruct (TaskQueue.next_pending _); reflexivity.
Qed.

Lemma run_scoped o q :
  op_scoped (TaskQueue.searchTerm q) o -> scoped q -> scoped (Reach.run o q).
Proof.
  unfold scoped. rewrite run_searchTerm. intros Ho H. destruct o; simpl in *.
  - eapply insert_fold_Forall_batch; [|exact Ho|exact H].
    intros pdf Hpdf. exact Hpdf.
  - unfold TaskQueue.claimNextPdf.
    destruct (TaskQueue.next_pending _); simpl; auto.
    apply update_where_Forall_keep; auto.
  - apply update_where_Forall_keep; auto.
  - apply update_where_Forall_keep; auto.
  - apply update_where_Forall_keep; auto.
  - exact H.
  - constructor.
Qed.

Lemma producer_keeps_scoped searchTerm ops :
  Forall (op_scoped searchTerm) ops ->
  scoped (Reach.run_all ops (Reach.fresh searchTerm)).
Proof.
  intros Hops. unfold Reach.run_all.
  assert (scoped (Reach.fresh searchTerm)) as H0 by constructor.
  assert (TaskQueue.searchTerm (Reach.fresh searchTerm) = searchTerm) as Hst
    by reflexivity.
  revert H0 Hst. generalize (Reach.fresh searchTerm).
  induction Hops as [|o ops Ho _ IH]; simpl; intros q Hq Hst; auto.
  apply IH.
  - apply run_scoped; [rewrite Hst; exact Ho|exact Hq].
  - rewrite run_searchTerm. exact Hst.
Qed.

End Scoped.

(** C1, as the code has it: [claimNextPdf] looks at every row of the table,
    whatever search term it carries.  It returns nothing and changes nothing
    when no row of the table is pending; otherwise it picks a pending row
    that comes first by (page number, name) among the pending rows of the
    table, returns it as an in-progress record owned by [workerId] and
    started at [now], and in the table sets exactly those three columns of
    that row, leaving the rows with another id as they were.  On a queue
    whose rows all carry its search term, the rows of the table are the
    queue's own. *)
Theorem claimNextPdf_lowest_pending
    (workerId : string) (now : Z) (q : TaskQueue.t) :
  ((forall r, In r (TaskQueue.pdf_tasks q) -> Row.status r <> Pending) ->
   TaskQueue.claimNextPdf workerId now q = (None, q))
  /\ ((exists r, In r (TaskQueue.pdf_tasks q) /\ Row.status r = Pending) ->
      exists low q',
        In low (TaskQueue.pdf_tasks q) /\ Row.status low = Pending
        /\ (forall r, In r (TaskQueue.pdf_tasks q) -> Row.status r = Pending ->
            lowest_first low r)
        /\ TaskQueue.claimNextPdf workerId now q
           = (Some (PdfTaskRecord.mk (Row.id low) (Row.search_term low)
                      (Row.page_number low) (Row.pdf_name low)
                      (Row.pdf_url low) (Row.file_size low) InProgress
                      (Some workerId) (Row.retry_count low)
                      (Row.created_at low) (Some now) None None), q')
        /\ TaskQueue.searchTerm q' = TaskQueue.searchTerm q
        /\ TaskQueue.metadata q' = TaskQueue.metadata q
        /\ forall i r, nth_error (TaskQueue.pdf_tasks q) i = Some r ->
             nth_error (TaskQueue.pdf_tasks q') i
             = Some (if String.eqb (Row.id r) (Row.id low)
                     then Row.mk (Row.id r) (Row.search_term r)
                            (Row.page_number r) (Row.pdf_name r)
                            (Row.pdf_url r) (Row.file_size r) InProgress
                            (Some workerId) (Row.retry_count r)
                            (Row.created_at r) (Some now)
                            (Row.completed_at r) (Row.error r)
                     else r))
  /\ (scoped q -> TaskQueue.own_rows q = TaskQueue.pdf_tasks q).
Proof.
  split; [|split].
  - intros Hnone. apply next_pending_None in Hnone.
    unfold TaskQueue.claimNextPdf. now rewrite Hnone.
  - intros [r [Hr Er]].
    destruct (TaskQueue.next_pending (TaskQueue.pdf_tasks q)) as [low|] eqn:En.
    + apply next_pending_Some in En as Hlow.
      destruct Hlow as (Hin & Est & Hmin).
      unfold TaskQueue.claimNextPdf. rewrite En.
      eexists low, _. repeat split; try eassumption; try reflexivity.
      intros i x Hi. cbn [TaskQueue.pdf_tasks TaskQueue.with_tasks].
      unfold Sql.update_where. rewrite nth_error_map, Hi. simpl.
      destruct (String.eqb (Row.id x) (Row.id low)); reflexivity.
    + exfalso. rewrite next_pending_None in En. exact (En r Hr Er).
  - apply scoped_own_rows.
Qed.

(** C1, as stated, fails: a queue opened for one search term that holds only
    a pending row of another term has no pending row of its own, and
    [claimNextPdf] still hands that row out instead of returning nothing. *)
Lemma claimNextPdf_among_own_rows_refuted :
  ~ (forall workerId now q,
       ((forall r, In r (TaskQueue.own_rows q) -> Row.status r <> Pending) ->
        TaskQueue.claimNextPdf workerId now q = (None, q))
       /\ ((exists r, In r (TaskQueue.own_rows q) /\ Row.status r = Pending) ->
           exists low q',
             In low (TaskQueue.own_rows q) /\ Row.status low = Pending
             /\ (forall r, In r (TaskQueue.own_rows q) ->
                           Row.status r = Pending -> lowest_first low r)
             /\ TaskQueue.claimNextPdf workerId now q
                = (Some (PdfTaskRecord.mk (Row.id low) (Row.search_term low)
                           (Row.page_number low) (Row.pdf_name low)
                           (Row.pdf_url low) (Row.file_size low) InProgress
                           (Some workerId) (Row.retry_count low)
                           (Row.created_at low) (Some now) None None), q'))).
Proof.
  intros H.
  destruct (H "worker-1" 20 foreign_only) as [Hnone _].
  assert (TaskQueue.claimNextPdf "worker-1" 20 foreign_only
          = (None, foreign_only)) as E.
  { apply Hnone. intros r Hr. vm_compute in Hr. destruct Hr. }
  vm_compute in E. discriminate E.
Qed.

(** ** Insertion *)

Section Insertion.

Lemma same_key_spec pdf r : same_key pdf r = true <-> row_key r = task_key pdf.
Proof.
  unfold same_key, row_key, task_key.
  rewrite andb_true_iff, !String.eqb_eq. split.
  - intros [-> ->]. reflexivity.
  - intros [= -> ->]. split; reflexivity.
Qed.

Lemma conflicts_spec new old :
  Sql.conflicts new old = true <->
  Row.id new = Row.id old \/ row_key new = row_key old.
Proof.
  unfold Sql.conflicts, row_key.
  rewrite orb_true_iff, andb_true_iff, !String.eqb_eq. split.
  - intros [H|[H1 H2]]; [left|right]; congruence.
  - intros [H|[= H1 H2]]; auto.
Qed.

Lemma insert_run_grows now tbl pdf :
  TaskQueue.insert_run now tbl pdf = tbl
  \/ TaskQueue.insert_run now tbl pdf = tbl ++ [TaskQueue.new_row now pdf].
Proof.
  unfold TaskQueue.insert_run, Sql.insert_or_ignore.
  destruct (existsb _ tbl); auto.
Qed.

(** A batch only appends rows, each the new row of one of its items. *)
Lemma insert_fold_appends now pdfs tbl :
  exists added,
    fold_left (TaskQueue.insert_run now) pdfs tbl = tbl ++ added
    /\ Forall (fun r => exists pdf, In pdf pdfs /\ r = TaskQueue.new_row now pdf)
         added.
Proof.
  revert tbl. induction pdfs as [|pdf pdfs IH]; intros tbl; simpl.
  - exists []. split; [now rewrite app_nil_r|constructor].
  - destruct (IH (TaskQueue.insert_run now tbl pdf)) as (added & -> & Hadd).
    assert (Forall (fun r => exists p, (pdf = p \/ In p pdfs)
                                       /\ r = TaskQueue.new_row now p) added)
      as Hadd'.
    { eapply Forall_impl; [|exact Hadd]. intros r (p & Hp & ->). eauto. }
    destruct (insert_run_grows now tbl pdf) as [->| ->].
    + exists added. split; auto.
    + exists (TaskQueue.new_row now pdf :: added). split.
      * now rewrite <- app_assoc.
      * constructor; eauto.
Qed.

Lemma insert_or_ignore_unique new tbl :
  unique_rows tbl -> unique_rows (Sql.insert_or_ignore new tbl).
Proof.
  unfold unique_rows, Sql.insert_or_ignore. intros [Hid Hkey].
  destruct (existsb (Sql.conflicts new) tbl) eqn:E; [now split|].
  assert (forall old, In old tbl ->
            Row.id new <> Row.id old /\ row_key new <> row_key old) as Hno.
  { intros old Hold.
    assert (Sql.conflicts new old = false) as Hc.
    { destruct (Sql.conflicts new old) eqn:Ec; [|reflexivity].
      assert (existsb (Sql.conflicts new) tbl = true)
        by (apply existsb_exists; eauto). congruence. }
    split; intros Heq;
      (assert (Sql.conflicts new old = true)
         by (apply conflicts_spec; auto); congruence). }
  rewrite !map_app. simpl. split.
  - apply List.NoDup_app; auto.
    + repeat constructor. intros [].
    + intros x Hx [<-|[]].
      apply in_map_iff in Hx as (old & Heq & Hold).
      destruct (Hno old Hold) as [Hne _]. congruence.
  - apply List.NoDup_app; auto.
    + repeat constructor. intros [].
    + intros x Hx [<-|[]].
      apply in_map_iff in Hx as (old & Heq & Hold).
      destruct (Hno old Hold) as [_ Hne]. congruence.
Qed.

Lemma insert_fold_unique now pdfs tbl :
  unique_rows tbl -> unique_rows (fold_left (TaskQueue.insert_run now) pdfs tbl).
Proof.
  revert tbl. induction pdfs as [|pdf pdfs IH]; simpl; intros tbl H; auto.
  apply IH. now apply insert_or_ignore_unique.
Qed.

Lemma existsb_app_l {A} (f : A -> bool) l k :
  existsb f l = true -> existsb f (l ++ k) = true.
Proof. intros H. rewrite existsb_app, H. reflexivity. Qed.

(** After a batch every item of it meets a stored row with its id or its
    key. *)
Lemma insert_fold_conflicts now later pdfs tbl pdf :
  In pdf pdfs ->
  existsb (Sql.conflicts (TaskQueue.new_row later pdf))
    (fold_left (TaskQueue.insert_run now) pdfs tbl) = true.
Proof.
  revert tbl. induction pdfs as [|p pdfs IH]; intros tbl Hin;
    [contradiction|].
  simpl. destruct Hin as [->|Hin]; [|now apply IH].
  destruct (insert_fold_appends now pdfs (TaskQueue.insert_run now tbl pdf))
    as (added & -> & _).
  apply existsb_app_l.
  unfold TaskQueue.insert_run, Sql.insert_or_ignore.
  destruct (existsb (Sql.conflicts (TaskQueue.new_row now pdf)) tbl) eqn:E.
  - exact E.
  - rewrite existsb_app. simpl. unfold Sql.conflicts at 2. simpl.
    rewrite String.eqb_refl. simpl. apply orb_true_r.
Qed.

Lemma insert_fold_ignored now pdfs tbl :
  (forall pdf, In pdf pdfs ->
     existsb (Sql.conflicts (TaskQueue.new_row now pdf)) tbl = true) ->
  fold_left (TaskQueue.insert_run now) pdfs tbl = tbl.
Proof.
  induction pdfs as [|p pdfs IH]; simpl; intros H; [reflexivity|].
  unfold TaskQueue.insert_run at 2, Sql.insert_or_ignore.
  rewrite (H p) by auto. apply IH. auto.
Qed.

Lemma rows_with_key_unique pdf tbl r :
  List.NoDup (List.map row_key tbl) -> In r tbl -> same_key pdf r = true ->
  rows_with_key pdf tbl = [r].
Proof.
  unfold rows_with_key.
  induction tbl as [|x tbl IH]; simpl; intros Hnd Hin Hk; [contradiction|].
  apply List.NoDup_cons_iff in Hnd as [Hx Hnd].
  assert (forall y, In y tbl -> row_key y <> row_key x) as Hothers.
  { intros y Hy Heq. apply Hx. rewrite <- Heq. now apply in_map. }
  destruct Hin as [->|Hin].
  - rewrite Hk. f_equal.
    assert (Forall (fun y => row_key y <> row_key r) tbl) as HF
      by (apply List.Forall_forall; exact Hothers).
    clear -HF Hk. induction HF as [|y tbl Hy _ IH]; simpl; [reflexivity|].
    destruct (same_key pdf y) eqn:Ey; [|exact IH].
    apply same_key_spec in Ey, Hk. congruence.
  - destruct (same_key pdf x) eqn:Ex.
    + apply same_key_spec in Ex, Hk. exfalso.
      apply (Hothers r Hin). congruence.
    + now apply IH.
Qed.

(** No statement of the queue breaks the two constraints: the updates leave
    [id], [search_term] and [pdf_name] alone. *)
Lemma update_where_keys cond set tbl :
  (forall r, Row.id (set r) = Row.id r /\ row_key (set r) = row_key r) ->
  List.map Row.id (Sql.update_where cond set tbl) = List.map Row.id tbl
  /\ List.map row_key (Sql.update_where cond set tbl) = List.map row_key tbl.
Proof.
  intros Hset. unfold Sql.update_where.
  induction tbl as [|r tbl [IHid IHkey]]; simpl; [split; reflexivity|].
  rewrite IHid, IHkey.
  destruct (cond r); [|split; reflexivity].
  destruct (Hset r) as [-> ->]. split; reflexivity.
Qed.

Lemma update_where_unique cond set tbl :
  (forall r, Row.id (set r) = Row.id r /\ row_key (set r) = row_key r) ->
  unique_rows tbl -> unique_rows (Sql.update_where cond set tbl).
Proof.
  intros Hset [Hid Hkey]. unfold unique_rows.
  destruct (update_where_keys cond set tbl Hset) as [-> ->]. now split.
Qed.

Lemma run_unique o q :
  unique_rows (TaskQueue.pdf_tasks q) ->
  unique_rows (TaskQueue.pdf_tasks (Reach.run o q)).
Proof.
  intros H. destruct o; simpl.
  - now apply insert_fold_unique.
  - unfold TaskQueue.claimNextPdf.
    destruct (TaskQueue.next_pending _); simpl; auto.
    apply update_where_unique; auto.
  - apply update_where_unique; auto.
  - apply update_where_unique; auto.
  - apply update_where_unique; auto.
  - exact H.
  - split; constructor.
Qed.

Lemma reachable_unique_rows searchTerm ops :
  unique_rows (TaskQueue.pdf_tasks (Reach.run_all ops (Reach.fresh searchTerm))).
Proof.
  unfold Reach.run_all.
  assert (unique_rows (TaskQueue.pdf_tasks (Reach.fresh searchTerm))) as H0
    by (split; constructor).
  revert H0. generalize (Reach.fresh searchTerm).
  induction ops as [|o ops IH]; simpl; intros q Hq; auto.
  apply IH, run_unique, Hq.
Qed.

End Insertion.

(** C4: on a table obeying its uniqueness constraints, [insertPdfs] is
    idempotent per (search term, name).  The table stays duplicate-free;
    running the same batch again, at any later time, changes nothing; the rows
    already stored are kept as they are and in place, and every row the batch
    adds is pending and created at [now]; an item whose key is already stored
    leaves the stored row as the one row of that key; and an item with a new
    key is stored, as the pending row created at [now] of the first item of
    the batch with that key, when its id is not in use for another key (the
    id is a primary key, so [INSERT OR IGNORE] skips a reused id as well). *)
Theorem insertPdfs_idempotent
    (now later : Z) (pdfs : list PdfTask.t) (q : TaskQueue.t) :
  unique_rows (TaskQueue.pdf_tasks q) ->
  let q1 := TaskQueue.insertPdfs now pdfs q in
  unique_rows (TaskQueue.pdf_tasks q1)
  /\ TaskQueue.insertPdfs later pdfs q1 = q1
  /\ (exists added,
        TaskQueue.pdf_tasks q1 = TaskQueue.pdf_tasks q ++ added
        /\ Forall (fun r => Row.status r = Pending /\ Row.created_at r = now
                            /\ exists pdf, In pdf pdfs
                                           /\ r = TaskQueue.new_row now pdf)
             added)
  /\ (forall pdf r,
        In pdf pdfs -> In r (TaskQueue.pdf_tasks q) -> same_key pdf r = true ->
        rows_with_key pdf (TaskQueue.pdf_tasks q1) = [r])
  /\ (forall pdf,
        In pdf pdfs ->
        rows_with_key pdf (TaskQueue.pdf_tasks q) = [] ->
        (forall r, In r (TaskQueue.pdf_tasks q) -> Row.id r <> PdfTask.id pdf) ->
        (forall other, In other pdfs -> PdfTask.id other = PdfTask.id pdf ->
                       task_key other = task_key pdf) ->
        exists first,
          In first pdfs /\ task_key first = task_key pdf
          /\ rows_with_key pdf (TaskQueue.pdf_tasks q1)
             = [Row.mk (PdfTask.id first) (PdfTask.searchTerm first)
                  (PdfTask.pageNumber first) (PdfTask.pdfName first)
                  (PdfTask.pdfUrl first) (Some (PdfTask.fileSize first))
                  Pending None 0 now None None None]).
Proof.
  intros Huniq. cbn zeta.
  unfold TaskQueue.insertPdfs.
  cbn [TaskQueue.pdf_tasks TaskQueue.with_tasks TaskQueue.searchTerm
       TaskQueue.metadata].
  set (tbl := TaskQueue.pdf_tasks q) in *.
  pose proof (insert_fold_unique now pdfs tbl Huniq) as Huniq1.
  destruct (insert_fold_appends now pdfs tbl) as (added & Happ & Hadded).
  split; [exact Huniq1|]. split; [|split; [|split]].
  - unfold TaskQueue.with_tasks. cbn [TaskQueue.searchTerm TaskQueue.metadata].
    f_equal. apply insert_fold_ignored.
    intros pdf Hin. now apply insert_fold_conflicts.
  - exists added. split; [exact Happ|].
    eapply Forall_impl; [|exact Hadded].
    intros r (pdf & Hin & ->). repeat split. eauto.
  - intros pdf r Hpdf Hr Hk.
    apply rows_with_key_unique; [apply Huniq1| |exact Hk].
    rewrite Happ. apply in_or_app. now left.
  - intros pdf Hpdf Hnokey Hnoid Hids.
    pose proof (insert_fold_conflicts now now pdfs tbl pdf Hpdf) as Hc.
    apply existsb_exists in Hc as (r & Hr & Hc).
    apply conflicts_spec in Hc.
    change (Row.id (TaskQueue.new_row now pdf)) with (PdfTask.id pdf) in Hc.
    change (row_key (TaskQueue.new_row now pdf)) with (task_key pdf) in Hc.
    assert (forall x, In x tbl -> row_key x <> task_key pdf) as Hnokey'.
    { intros x Hx Hk. apply same_key_spec in Hk.
      assert (In x (rows_with_key pdf tbl))
        by (apply filter_In; split; assumption).
      rewrite Hnokey in H. exact H. }
    assert (exists first, In first pdfs /\ task_key first = task_key pdf
                          /\ In (TaskQueue.new_row now first) added)
      as (first & Hfirst & Hkey & Hin).
    { rewrite Happ in Hr. apply in_app_or in Hr as [Hr|Hr].
      - exfalso. destruct Hc as [Hc|Hc].
        + apply (Hnoid r Hr). congruence.
        + apply (Hnokey' r Hr). congruence.
      - rewrite Forall_forall in Hadded.
        destruct (Hadded r Hr) as (other & Hother & ->).
        exists other. repeat split; auto.
        destruct Hc as [Hc|Hc].
        + apply Hids; auto.
        + symmetry. exact Hc. }
    exists first. repeat split; auto.
    change (Row.mk _ _ _ _ _ _ _ _ _ _ _ _ _)
      with (TaskQueue.new_row now first).
    apply rows_with_key_unique; [apply Huniq1| |].
    + rewrite Happ. apply in_or_app. now right.
    + apply same_key_spec. exact Hkey.
Qed.

Lemma insertPdfs_idempotent_witness :
  unique_rows (TaskQueue.pdf_tasks three_pending)
  /\ unique_rows
       (TaskQueue.pdf_tasks (TaskQueue.insertPdfs 700 second_batch three_pending))
  /\ TaskQueue.insertPdfs 900 second_batch
       (TaskQueue.insertPdfs 700 second_batch three_pending)
     = TaskQueue.insertPdfs 700 second_batch three_pending.
Proof.
  assert (unique_rows (TaskQueue.pdf_tasks three_pending)) as Hu.
  { split; repeat constructor; simpl; intuition discriminate. }
  split; [exact Hu|].
  destruct (insertPdfs_idempotent 700 900 second_batch three_pending Hu)
    as (H1 & H2 & _).
  split; [exact H1|exact H2].
Defined.

(** * Properties of the worker *)

(** ** Retrying on a locked database *)

Section Retry.
Import Worker.

Lemma locked_error_is_locked : isDatabaseLocked database_is_locked = true.
Proof. reflexivity. Qed.

Lemma mutation_locked {A} (f : Z -> TaskQueue.t -> A * TaskQueue.t) w l :
  locked w = true :: l ->
  mutation f w = (Throws database_is_locked, set_locked l w).
Proof. intros H. unfold mutation. rewrite H. reflexivity. Qed.

Lemma mutation_free {A} (f : Z -> TaskQueue.t -> A * TaskQueue.t) w :
  hd false (locked w) = false ->
  mutation f w
  = (Returns (fst (f (clock w) (queue w))),
     set_queue (snd (f (clock w) (queue w))) (set_locked (tl (locked w)) w)).
Proof.
  intros H. unfold mutation.
  destruct (locked w) as [|[|] l]; try discriminate;
    destruct (f (clock w) (queue w)); reflexivity.
Qed.

Lemma retry_step_locked {A} (f : Z -> TaskQueue.t -> A * TaskQueue.t)
    fuel attempt w l :
  locked w = true :: l ->
  withDbLockRetry_loop (S fuel) (mutation f) attempt w
  = if attempt + 1 >=? 5 then (Throws database_is_locked, set_locked l w)
    else withDbLockRetry_loop fuel (mutation f) (attempt + 1)
           (mkWorld (queue w) (clock w + 300 * (attempt + 1)) l (downloads w)
              (300 * (attempt + 1) :: slept w) (result w)
              (consecutiveErrors w)).
Proof.
  intros H. cbn [withDbLockRetry_loop].
  rewrite (mutation_locked f w l H), locked_error_is_locked.
  cbn [negb]. destruct (attempt + 1 >=? 5); reflexivity.
Qed.

Lemma retry_step_free {A} (f : Z -> TaskQueue.t -> A * TaskQueue.t)
    fuel attempt w :
  hd false (locked w) = false ->
  withDbLockRetry_loop (S fuel) (mutation f) attempt w
  = (Returns (fst (f (clock w) (queue w))),
     set_queue (snd (f (clock w) (queue w))) (set_locked (tl (locked w)) w)).
Proof.
  intros H. cbn [withDbLockRetry_loop].
  rewrite (mutation_free f w H). reflexivity.
Qed.

(** A retried mutation that returns has applied the call once, to the
    queue as it was, and has touched nothing else of the worker. *)
Lemma retry_returns {A} (f : Z -> TaskQueue.t -> A * TaskQueue.t)
    fuel attempt w a w1 :
  withDbLockRetry_loop fuel (mutation f) attempt w = (Returns a, w1) ->
  f (clock w1) (queue w) = (a, queue w1)
  /\ downloads w1 = downloads w /\ result w1 = result w
  /\ consecutiveErrors w1 = consecutiveErrors w.
Proof.
  revert attempt w. induction fuel as [|fuel IH]; intros attempt w H;
    [discriminate|].
  destruct (locked w) as [|[|] l] eqn:El.
  - rewrite retry_step_free in H by (rewrite El; reflexivity).
    injection H as <- <-. simpl. rewrite <- surjective_pairing. auto.
  - rewrite (retry_step_locked f fuel attempt w l El) in H.
    destruct (attempt + 1 >=? 5); [discriminate|].
    apply IH in H. exact H.
  - rewrite retry_step_free in H by (rewrite El; reflexivity).
    injection H as <- <-. simpl. rewrite <- surjective_pairing. auto.
Qed.

Lemma retry_throws {A} (f : Z -> TaskQueue.t -> A * TaskQueue.t)
    fuel attempt w e w1 :
  withDbLockRetry_loop fuel (mutation f) attempt w = (Throws e, w1) ->
  e = database_is_locked /\ queue w1 = queue w.
Proof.
  revert attempt w. induction fuel as [|fuel IH]; intros attempt w H;
    [discriminate|].
  destruct (locked w) as [|[|] l] eqn:El.
  - rewrite retry_step_free in H by (rewrite El; reflexivity). discriminate.
  - rewrite (retry_step_locked f fuel attempt w l El) in H.
    destruct (attempt + 1 >=? 5).
    + injection H as <- <-. auto.
    + apply IH in H. exact H.
  - rewrite retry_step_free in H by (rewrite El; reflexivity). discriminate.
Qed.

(** Five rounds are all the loop can use. *)
Lemma retry_fuel {A} (f : Z -> TaskQueue.t -> A * TaskQueue.t) fuel n attempt w :
  attempt < 5 -> (Z.to_nat (5 - attempt) <= n)%nat -> (n <= fuel)%nat ->
  withDbLockRetry_loop fuel (mutation f) attempt w
  = withDbLockRetry_loop n (mutation f) attempt w.
Proof.
  revert n attempt w.
  induction fuel as [|fuel IH]; intros n attempt w H0 Hn Hf; [lia|].
  destruct n as [|n]; [lia|].
  destruct (locked w) as [|[|] l] eqn:El.
  - rewrite !retry_step_free by (rewrite El; reflexivity). reflexivity.
  - rewrite !(retry_step_locked f _ attempt w l El).
    destruct (attempt + 1 >=? 5) eqn:E; [reflexivity|].
    apply IH; lia.
  - rewrite !retry_step_free by (rewrite El; reflexivity). reflexivity.
Qed.
End Retry.

Section RetryBudget.
Import Worker.

Ltac retry_locked f :=
  erewrite (retry_step_locked f) by (first [eassumption | cbn; reflexivity]);
  match goal with |- context [?a >=? 5] => 
    let b := eval vm_compute in (a >=? 5) in change (a >=? 5) with b end;
  cbv iota.

Lemma retry_after_locks {A} (f : Z -> TaskQueue.t -> A * TaskQueue.t)
    (w : World) (k : nat) (rest : list bool) :
  locked w = repeat true k ++ rest ->
  hd false rest = false ->
  (k <= 4)%nat ->
  exists a w',
    withDbLockRetry (mutation f) w = (Returns a, w')
    /\ f (clock w') (queue w) = (a, queue w')
    /\ clock w' = clock w + 150 * Z.of_nat k * (Z.of_nat k + 1)
    /\ slept w' = rev (backoff_delays k) ++ slept w
    /\ locked w' = tl rest
    /\ downloads w' = downloads w /\ result w' = result w
    /\ consecutiveErrors w' = consecutiveErrors w.
Proof.
  intros Hl Hrest Hk. unfold withDbLockRetry.
  destruct k as [|[|[|[|[|k]]]]]; try lia; simpl in Hl.
  + rewrite retry_step_free by (rewrite Hl; exact Hrest).
    eexists _, _. split; [reflexivity|]. cbn. rewrite Hl.
    rewrite <- surjective_pairing. repeat split; lia.
  + retry_locked f.
    rewrite retry_step_free by exact Hrest.
    eexists _, _. split; [reflexivity|]. cbn.
    rewrite <- surjective_pairing. repeat split; lia.
  + do 2 retry_locked f.
    rewrite retry_step_free by exact Hrest.
    eexists _, _. split; [reflexivity|]. cbn.
    rewrite <- surjective_pairing. repeat split; lia.
  + do 3 retry_locked f.
    rewrite retry_step_free by exact Hrest.
    eexists _, _. split; [reflexivity|]. cbn.
    rewrite <- surjective_pairing. repeat split; lia.
  + do 4 retry_locked f.
    rewrite retry_step_free by exact Hrest.
    eexists _, _. split; [reflexivity|]. cbn.
    rewrite <- surjective_pairing. repeat split; lia.
Qed.

(** C5: a queue mutation of the worker ([claimNextPdf], [markComplete] and
    [markFailed] are each a [mutation] run under [withDbLockRetry]) that
    finds the database locked is retried with waits of 300 ms times the
    attempt number.  When the first [k <= 4] attempts are locked and the next
    is not, the call is applied once, to the queue as it was and at the clock
    reached after the waits 300, 600, ..., 300k, and its value is returned.
    When five attempts in a row are locked, the locked error is thrown after
    four waits with the queue untouched, and [runWorker] records it as
    ["Queue busy: ..."]; any other error is rethrown at once, without a
    retry, and recorded as ["Fatal: ..."].  The [while (true)] never needs
    more than five rounds. *)
Theorem withDbLockRetry_bounded {A} (f : Z -> TaskQueue.t -> A * TaskQueue.t)
    (w : World) (k : nat) (rest : list bool) :
  locked w = repeat true k ++ rest ->
  hd false rest = false ->
  ((k <= 4)%nat ->
   exists a w',
     withDbLockRetry (mutation f) w = (Returns a, w')
     /\ f (clock w') (queue w) = (a, queue w')
     /\ clock w' = clock w + 150 * Z.of_nat k * (Z.of_nat k + 1)
     /\ slept w' = rev (backoff_delays k) ++ slept w
     /\ locked w' = tl rest
     /\ downloads w' = downloads w /\ result w' = result w
     /\ consecutiveErrors w' = consecutiveErrors w)
  /\ ((5 <= k)%nat ->
      exists w',
        withDbLockRetry (mutation f) w = (Throws database_is_locked, w')
        /\ queue w' = queue w
        /\ slept w' = rev (backoff_delays 4) ++ slept w
        /\ locked w' = repeat true (k - 5) ++ rest
        /\ isDatabaseLocked database_is_locked = true
        /\ catch_entry database_is_locked = "Queue busy: database is locked")
  /\ (forall (action : M A) e w1,
        action w = (Throws e, w1) -> isDatabaseLocked e = false ->
        withDbLockRetry action w = (Throws e, w1)
        /\ catch_entry e = "Fatal: " +:+ Js.message_text e)
  /\ (forall fuel, (5 <= fuel)%nat ->
        withDbLockRetry_loop fuel (mutation f) 0 w
        = withDbLockRetry (mutation f) w).
Proof.
  intros Hl Hrest. split; [|split; [|split]].
  - intros Hk. exact (retry_after_locks f w k rest Hl Hrest Hk).
  - intros Hk. unfold withDbLockRetry.
    destruct k as [|[|[|[|[|k]]]]]; try lia; simpl in Hl.
    do 5 retry_locked f.
    eexists. split; [reflexivity|]. cbn.
    rewrite Nat.sub_0_r. repeat split.
  - intros action e w1 Ha He. split.
    + unfold withDbLockRetry. cbn [withDbLockRetry_loop].
      rewrite Ha, He. reflexivity.
    + unfold catch_entry. rewrite He. reflexivity.
  - intros fuel Hf. unfold withDbLockRetry. apply retry_fuel; simpl; lia.
Qed.

Lemma withDbLockRetry_bounded_witness :
  Worker.locked four_times_locked = repeat true 4 ++ [false]
  /\ hd false [false] = false
  /\ exists a w',
       Worker.withDbLockRetry (Worker.claimNextPdf "worker-1") four_times_locked
       = (Worker.Returns a, w')
       /\ TaskQueue.claimNextPdf "worker-1" (Worker.clock w')
            (Worker.queue four_times_locked) = (a, Worker.queue w')
       /\ Worker.clock w' = Worker.clock four_times_locked + 3000
       /\ Worker.slept w' = [1200; 900; 600; 300].
Proof.
  split; [reflexivity|]. split; [reflexivity|].
  destruct (proj1 (withDbLockRetry_bounded
                     (fun now q => TaskQueue.claimNextPdf "worker-1" now q)
                     four_times_locked 4 [false] eq_refl eq_refl))
    as (a & w' & Hret & Hf & Hclk & Hsl & _); [lia|].
  exists a, w'. repeat split; assumption.
Defined.

End RetryBudget.

(** ** One pass of the worker loop *)

Section Iteration.
Import Worker.


(** The download loop always returns; it reports failure only after three
    rejected calls, and otherwise resets the failure counter. *)
Lemma download_returns pdf w :
  exists success lastError w2,
    download pdf w = (Returns (success, lastError), w2)
    /\ queue w2 = queue w /\ locked w2 = locked w /\ result w2 = result w
    /\ consecutiveErrors w2 = (if success then 0 else consecutiveErrors w).
Proof.
  unfold download. cbn [download_loop].
  change (1 <=? 3) with true. cbv iota.
  unfold downloadPdf at 1.
  destruct (downloads w) as [|[e1|] d1] eqn:E1;
    try (eexists true, _, _; split; [reflexivity|]; cbn; auto).
  unfold bind, sleep, ret, set_downloads, downloadPdf. cbn.
  destruct d1 as [|[e2|] d2];
    try (eexists true, _, _; split; [reflexivity|]; cbn; auto).
  cbn.
  destruct d2 as [|[e3|] d3];
    try (eexists true, _, _; split; [reflexivity|]; cbn; auto).
  cbn. eexists false, _, _. split; [reflexivity|]. cbn. auto.
Qed.

End Iteration.

Section IterationExit.
Import Worker.

Lemma is_string_spec v s : is_string v s = true <-> v = Some s.
Proof.
  destruct v as [x|]; simpl.
  - rewrite String.eqb_eq. split; congruence.
  - split; discriminate.
Qed.

Lemma claim_returned workerId fuel attempt w pdf w1 :
  withDbLockRetry_loop fuel (claimNextPdf workerId) attempt w
  = (Returns pdf, w1) ->
  TaskQueue.claimNextPdf workerId (clock w1) (queue w) = (pdf, queue w1)
  /\ downloads w1 = downloads w /\ result w1 = result w
  /\ consecutiveErrors w1 = consecutiveErrors w.
Proof. intros H. exact (retry_returns _ _ _ _ _ _ H). Qed.

(** The download loop reports failure exactly when the three coming calls
    are rejected; it then leaves the failure counter alone, and otherwise
    resets it. *)
Lemma download_outcome pdf w :
  exists lastError w2,
    download pdf w
    = (Returns (negb (rejects_thrice (downloads w)), lastError), w2)
    /\ queue w2 = queue w /\ locked w2 = locked w /\ result w2 = result w
    /\ consecutiveErrors w2
       = (if rejects_thrice (downloads w) then consecutiveErrors w else 0).
Proof.
  unfold download. cbn [download_loop].
  change (1 <=? 3) with true. cbv iota.
  unfold downloadPdf at 1.
  destruct (downloads w) as [|[e1|] d1] eqn:E1;
    try (eexists _, _; split; [reflexivity|]; cbn; auto).
  unfold bind, sleep, ret, set_downloads, downloadPdf. cbn.
  destruct d1 as [|[e2|] d2];
    try (eexists _, _; split; [reflexivity|]; cbn; auto).
  cbn.
  destruct d2 as [|[e3|] d3];
    eexists _, _; (split; [reflexivity|]); cbn; auto.
Qed.

(** The exit test of one pass. *)
Lemma iteration_exit (workerId : string) (w : World) (c : ctl) (w' : World) :
  consecutiveErrors w < 5 ->
  iteration workerId w = (Returns c, w') ->
  (c = Break <->
     (TaskQueue.getMetadata "json_fetch_complete" (queue w) = Some "true"
      /\ forall r, In r (TaskQueue.pdf_tasks (queue w)) -> Row.status r <> Pending)
     \/ 5 <= consecutiveErrors w')
  /\ (c = Continue -> consecutiveErrors w' < 5)
  /\ (c = Continue ->
      (forall r, In r (TaskQueue.pdf_tasks (queue w)) -> Row.status r <> Pending) ->
      queue w' = queue w /\ exists earlier, slept w' = 500 :: earlier).
Proof.
  intros Hlt H. unfold iteration, bind, withDbLockRetry in H.
  destruct (withDbLockRetry_loop 5 (claimNextPdf workerId) 0 w)
    as [[[pdf|]|e|] w1] eqn:Hclaim; try discriminate.
  - (* a task was claimed *)
    apply claim_returned in Hclaim as (Hf & _ & _ & Hc1).
    unfold TaskQueue.claimNextPdf in Hf.
    destruct (TaskQueue.next_pending (TaskQueue.pdf_tasks (queue w)))
      as [low|] eqn:En; [|discriminate].
    apply next_pending_Some in En as (Hin & Hst & _).
    assert (~ forall r, In r (TaskQueue.pdf_tasks (queue w)) ->
                        Row.status r <> Pending) as Hsome
      by (intros Hno; exact (Hno low Hin Hst)).
    unfold modify in H.
    destruct (download_returns pdf
                (set_result (count_processed (result w1)) w1))
      as (success & lastError & w2 & Hd & _ & _ & _ & Hc2).
    rewrite Hd in H. cbn [consecutiveErrors set_result] in Hc2.
    destruct success.
    + destruct (withDbLockRetry_loop 5 (markComplete (PdfTaskRecord.id pdf)) 0 w2)
        as [[[]|e|] w3] eqn:Hm; try discriminate.
      apply retry_returns in Hm as (_ & _ & _ & Hc3).
      unfold ret in H. injection H as <- <-.
      cbn [consecutiveErrors set_result]. rewrite Hc3, Hc2.
      repeat split; try discriminate; try lia; try tauto.
      intros [[_ Hno]|Hge]; [tauto|lia].
    + destruct (withDbLockRetry_loop 5
                  (markFailed (PdfTaskRecord.id pdf) lastError) 0 w2)
        as [[[]|e|] w3] eqn:Hm; try discriminate.
      apply retry_returns in Hm as (_ & _ & _ & Hc3).
      cbn [consecutiveErrors set_result set_consecutiveErrors] in H.
      rewrite Z.geb_leb in H.
      destruct (Z.leb_spec 5 (consecutiveErrors w3 + 1)) as [Eg|Eg];
        injection H as <- <-;
        cbn [consecutiveErrors set_result set_consecutiveErrors].
      * repeat split; try discriminate; try tauto; try lia.
      * repeat split; try discriminate; try tauto; try lia.
        intros [[_ Hno]|Hge]; [tauto|lia].
  - (* nothing to claim *)
    apply claim_returned in Hclaim as (Hf & _ & _ & Hc1).
    unfold TaskQueue.claimNextPdf in Hf.
    destruct (TaskQueue.next_pending (TaskQueue.pdf_tasks (queue w)))
      as [low|] eqn:En; [discriminate|].
    injection Hf as Hq.
    pose proof (proj1 (next_pending_None _) En) as Hnone.
    unfold getMetadata, getProgress in H. rewrite <- Hq in H.
    destruct (is_string (TaskQueue.getMetadata "json_fetch_complete" (queue w))
                "true") eqn:Ef.
    + unfold ret in H. injection H as <- <-.
      apply is_string_spec in Ef.
      repeat split; try discriminate; auto.
    + unfold sleep, ret in H. injection H as <- <-. cbn.
      assert (TaskQueue.getMetadata "json_fetch_complete" (queue w)
              <> Some "true") as Hne.
      { intros E. apply is_string_spec in E. congruence. }
      repeat split; try discriminate; try lia; eauto.
      intros [[Ht _]|Hge]; [contradiction|lia].
Qed.

(** What one pass does, case by case, read off the state it starts in. *)
Lemma iteration_cases (workerId : string) (w : World) (c : ctl) (w' : World) :
  iteration workerId w = (Returns c, w') ->
  let w1 := snd (withDbLockRetry (claimNextPdf workerId) w) in
  ((forall r, In r (TaskQueue.pdf_tasks (queue w)) -> Row.status r <> Pending) ->
   queue w' = queue w /\ result w' = result w
   /\ consecutiveErrors w' = consecutiveErrors w
   /\ (TaskQueue.getMetadata "json_fetch_complete" (queue w) = Some "true" ->
       c = Break /\ slept w' = slept w1 /\ clock w' = clock w1)
   /\ (TaskQueue.getMetadata "json_fetch_complete" (queue w) <> Some "true" ->
       c = Continue /\ slept w' = 500 :: slept w1
       /\ clock w' = clock w1 + 500))
  /\ ((exists r, In r (TaskQueue.pdf_tasks (queue w))
                 /\ Row.status r = Pending) ->
      consecutiveErrors w'
      = (if rejects_thrice (downloads w) then consecutiveErrors w + 1 else 0)
      /\ (c = Break <->
          rejects_thrice (downloads w) = true
          /\ 5 <= consecutiveErrors w + 1)).
Proof.
  intros H w1. unfold iteration, bind in H. subst w1.
  unfold withDbLockRetry in *.
  destruct (withDbLockRetry_loop 5 (claimNextPdf workerId) 0 w)
    as [[[pdf|]|e|] w1] eqn:Hclaim; try discriminate; cbn [snd].
  - (* a task was claimed *)
    apply claim_returned in Hclaim as (Hf & Hd1 & _ & Hc1).
    unfold TaskQueue.claimNextPdf in Hf.
    destruct (TaskQueue.next_pending (TaskQueue.pdf_tasks (queue w)))
      as [low|] eqn:En; [|discriminate].
    apply next_pending_Some in En as (Hin & Hst & _).
    split; [intros Hno; exfalso; exact (Hno low Hin Hst)|]. intros _.
    unfold modify in H.
    destruct (download_outcome pdf
                (set_result (count_processed (result w1)) w1))
      as (lastError & w2 & Hd & _ & _ & _ & Hc2).
    rewrite Hd in H. cbn [consecutiveErrors downloads set_result] in Hc2, H.
    rewrite Hd1, Hc1 in Hc2. rewrite Hd1 in H.
    destruct (rejects_thrice (downloads w)); cbn [negb] in H.
    + destruct (withDbLockRetry_loop 5
                  (markFailed (PdfTaskRecord.id pdf) lastError) 0 w2)
        as [[[]|e|] w3] eqn:Hm; try discriminate.
      apply retry_returns in Hm as (_ & _ & _ & Hc3).
      cbn [consecutiveErrors set_result set_consecutiveErrors] in H.
      rewrite Z.geb_leb in H.
      destruct (Z.leb_spec 5 (consecutiveErrors w3 + 1)) as [Eg|Eg];
        injection H as <- <-;
        cbn [consecutiveErrors set_result set_consecutiveErrors];
        rewrite Hc3, Hc2 in *; (split; [reflexivity|]); split.
      * auto.
      * auto.
      * discriminate.
      * intros [_ Hge]. lia.
    + destruct (withDbLockRetry_loop 5 (markComplete (PdfTaskRecord.id pdf)) 0 w2)
        as [[[]|e|] w3] eqn:Hm; try discriminate.
      apply retry_returns in Hm as (_ & _ & _ & Hc3).
      unfold ret in H. injection H as <- <-.
      cbn [consecutiveErrors set_result]. rewrite Hc3, Hc2.
      split; [reflexivity|]. split; [discriminate|].
      intros [Hf' _]. discriminate.
  - (* nothing to claim *)
    apply claim_returned in Hclaim as (Hf & _ & Hr1 & Hc1).
    unfold TaskQueue.claimNextPdf in Hf.
    destruct (TaskQueue.next_pending (TaskQueue.pdf_tasks (queue w)))
      as [low|] eqn:En; [discriminate|].
    injection Hf as Hq.
    pose proof (proj1 (next_pending_None _) En) as Hnone.
    split; [|intros (r & Hr & Hst); exfalso; exact (Hnone r Hr Hst)].
    intros _.
    unfold getMetadata, getProgress in H. rewrite <- Hq in H.
    destruct (is_string (TaskQueue.getMetadata "json_fetch_complete" (queue w))
                "true") eqn:Ef.
    + unfold ret in H. injection H as <- <-.
      apply is_string_spec in Ef.
      split; [congruence|]. split; [exact Hr1|]. split; [exact Hc1|]. split.
      * intros _. repeat split.
      * intros Hne. contradiction.
    + unfold sleep, ret in H. injection H as <- <-. cbn.
      assert (TaskQueue.getMetadata "json_fetch_complete" (queue w)
              <> Some "true") as Hne.
      { intros E. apply is_string_spec in E. congruence. }
      split; [congruence|]. split; [exact Hr1|]. split; [exact Hc1|]. split.
      * intros E. contradiction.
      * intros _. repeat split.
Qed.

(** A pass that finds nothing to claim does return, as long as the database
    is locked for fewer than five calls in a row: it breaks when ingestion
    is flagged complete and otherwise sleeps 500 ms and continues. *)
Lemma idle_pass_returns (workerId : string) (v : World) (k : nat)
    (rest : list bool) :
  locked v = repeat true k ++ rest -> hd false rest = false -> (k <= 4)%nat ->
  (forall r, In r (TaskQueue.pdf_tasks (queue v)) -> Row.status r <> Pending) ->
  exists c v',
    iteration workerId v = (Returns c, v')
    /\ (TaskQueue.getMetadata "json_fetch_complete" (queue v) = Some "true" ->
        c = Break /\ slept v' = rev (backoff_delays k) ++ slept v)
    /\ (TaskQueue.getMetadata "json_fetch_complete" (queue v) <> Some "true" ->
        c = Continue /\ slept v' = 500 :: rev (backoff_delays k) ++ slept v).
Proof.
  intros Hl Hrest Hk Hnone.
  destruct (retry_after_locks
              (fun now q => TaskQueue.claimNextPdf workerId now q)
              v k rest Hl Hrest Hk)
    as (a & v1 & Hret & Hf & _ & Hsl & _).
  apply next_pending_None in Hnone.
  unfold TaskQueue.claimNextPdf in Hf. rewrite Hnone in Hf.
  injection Hf as <- Hq.
  change (mutation (fun now q => TaskQueue.claimNextPdf workerId now q))
    with (claimNextPdf workerId) in Hret.
  unfold iteration, bind. rewrite Hret.
  unfold getMetadata, getProgress. rewrite <- Hq.
  destruct (is_string (TaskQueue.getMetadata "json_fetch_complete" (queue v))
              "true") eqn:Ef.
  - apply is_string_spec in Ef. eexists _, _. split; [reflexivity|].
    split; [intros _; split; [reflexivity|exact Hsl]|].
    intros Hne. contradiction.
  - assert (TaskQueue.getMetadata "json_fetch_complete" (queue v)
            <> Some "true") as Hne.
    { intros E. apply is_string_spec in E. congruence. }
    eexists _, _. split; [reflexivity|].
    split; [intros E; contradiction|].
    intros _. split; [reflexivity|]. cbn. now rewrite Hsl.
Qed.

(** C2, as the code has it.  A pass of the worker loop that ends without a
    thrown error either ends the loop or is followed by the next pass.  It
    ends the loop if and only if ingestion is flagged complete and no row is
    pending, or the count of consecutive failures has reached 5; rows in
    progress under other workers play no part.  That count is reset by a
    task whose download succeeds, grows by one with a task whose three
    download attempts are all rejected, and is left alone by a pass that
    finds nothing to claim.  With nothing to claim the pass leaves the queue
    as it was and, unless ingestion is flagged complete, sleeps 500 ms after
    its claim and goes on to the next pass; such a pass does return as long
    as the database is locked for fewer than five calls in a row.  A pass in
    which a queue call throws ends the loop with that error. *)
Theorem worker_exit_condition (workerId : string) (w : World) (c : ctl) (w' : World) :
  consecutiveErrors w < 5 ->
  iteration workerId w = (Returns c, w') ->
  let w1 := snd (withDbLockRetry (claimNextPdf workerId) w) in
  (c = Break <->
     (TaskQueue.getMetadata "json_fetch_complete" (queue w) = Some "true"
      /\ forall r, In r (TaskQueue.pdf_tasks (queue w)) -> Row.status r <> Pending)
     \/ 5 <= consecutiveErrors w')
  /\ (c = Continue -> consecutiveErrors w' < 5)
  /\ (c = Continue ->
      (forall r, In r (TaskQueue.pdf_tasks (queue w)) -> Row.status r <> Pending) ->
      queue w' = queue w /\ exists earlier, slept w' = 500 :: earlier)
  /\ ((forall r, In r (TaskQueue.pdf_tasks (queue w)) -> Row.status r <> Pending) ->
      queue w' = queue w /\ result w' = result w
      /\ consecutiveErrors w' = consecutiveErrors w
      /\ (TaskQueue.getMetadata "json_fetch_complete" (queue w) = Some "true" ->
          c = Break /\ slept w' = slept w1 /\ clock w' = clock w1)
      /\ (TaskQueue.getMetadata "json_fetch_complete" (queue w) <> Some "true" ->
          c = Continue /\ slept w' = 500 :: slept w1
          /\ clock w' = clock w1 + 500))
  /\ ((exists r, In r (TaskQueue.pdf_tasks (queue w))
                 /\ Row.status r = Pending) ->
      consecutiveErrors w'
      = (if rejects_thrice (downloads w) then consecutiveErrors w + 1 else 0)
      /\ (c = Break <->
          rejects_thrice (downloads w) = true /\ consecutiveErrors w = 4))
  /\ (forall fuel,
        worker_loop (S fuel) workerId w
        = match c with
          | Break => (Returns tt, w')
          | Continue => worker_loop fuel workerId w'
          end)
  /\ (forall fuel v e v',
        iteration workerId v = (Throws e, v') ->
        worker_loop (S fuel) workerId v = (Throws e, v'))
  /\ (forall v k rest,
        locked v = repeat true k ++ rest -> hd false rest = false ->
        (k <= 4)%nat ->
        (forall r, In r (TaskQueue.pdf_tasks (queue v)) ->
                   Row.status r <> Pending) ->
        exists c' v',
          iteration workerId v = (Returns c', v')
          /\ (TaskQueue.getMetadata "json_fetch_complete" (queue v)
              = Some "true" ->
              c' = Break /\ slept v' = rev (backoff_delays k) ++ slept v)
          /\ (TaskQueue.getMetadata "json_fetch_complete" (queue v)
              <> Some "true" ->
              c' = Continue
              /\ slept v' = 500 :: rev (backoff_delays k) ++ slept v)).
Proof.
  intros Hlt H w1.
  destruct (iteration_exit workerId w c w' Hlt H) as (H1 & H2 & H3).
  destruct (iteration_cases workerId w c w' H) as (H4 & H5).
  split; [exact H1|]. split; [exact H2|]. split; [exact H3|].
  split; [exact H4|]. split.
  - intros Hsome. destruct (H5 Hsome) as [Hc Hb]. split; [exact Hc|].
    rewrite Hb. split; intros [Hr Hn]; (split; [exact Hr|lia]).
  - split.
    + intros fuel. cbn [worker_loop]. unfold bind. rewrite H.
      destruct c; reflexivity.
    + split.
      * intros fuel v e v' Hthrow. cbn [worker_loop]. unfold bind.
        rewrite Hthrow. reflexivity.
      * intros v k rest. apply idle_pass_returns.
Qed.

Lemma worker_exit_condition_witness :
  Worker.consecutiveErrors others_busy < 5
  /\ Worker.iteration "worker-1" others_busy = (Worker.Returns Worker.Break, others_busy)
  /\ (Worker.Break = Worker.Break <->
      (TaskQueue.getMetadata "json_fetch_complete" (Worker.queue others_busy)
       = Some "true"
       /\ forall r, In r (TaskQueue.pdf_tasks (Worker.queue others_busy)) ->
                    Row.status r <> Pending)
      \/ 5 <= Worker.consecutiveErrors others_busy).
Proof.
  assert (Worker.consecutiveErrors others_busy < 5) as H1 by (simpl; lia).
  assert (Worker.iteration "worker-1" others_busy
          = (Worker.Returns Worker.Break, others_busy)) as H2 by reflexivity.
  split; [exact H1|]. split; [exact H2|].
  exact (proj1 (worker_exit_condition "worker-1" others_busy Worker.Break
                  others_busy H1 H2)).
Defined.

(** C2, as stated, fails: with ingestion complete, nothing pending and a
    row still in progress under another worker, the worker breaks out of its
    loop although neither stated condition holds. *)
Lemma worker_exit_as_stated_refuted :
  ~ (forall workerId w c w',
       consecutiveErrors w < 5 ->
       iteration workerId w = (Returns c, w') ->
       (c = Break <->
          (TaskQueue.getMetadata "json_fetch_complete" (queue w) = Some "true"
           /\ QueueProgress.pending (TaskQueue.getProgress (queue w)) = 0
           /\ QueueProgress.inProgress (TaskQueue.getProgress (queue w)) = 0)
          \/ 5 <= consecutiveErrors w')).
Proof.
  intros H.
  specialize (H "worker-1" others_busy Break others_busy).
  destruct H as [H _]; [reflexivity|reflexivity|].
  destruct (H eq_refl) as [(_ & _ & Hin)|Hge].
  - vm_compute in Hin. discriminate.
  - vm_compute in Hge. apply Hge. reflexivity.
Qed.

End IterationExit.

Section DownloadFailure.
Import Worker.



End DownloadFailure.

(** ** The whole loop on sample runs *)

Section SampleRuns.
Import Worker.

(** Three tasks, one worker: all are downloaded in claim order and the
    worker stops at the first empty claim. *)
Example runWorker_drains_queue :
  let '(out, w) := runWorker 4 "worker-1" lone_worker in
  out = Returns (mkResult "worker-1" 3 3 0 [])
  /\ TaskQueue.getProgress (queue w) = QueueProgress.mk 3 0 0 3 0
  /\ exit_code (mkResult "worker-1" 3 3 0 []) = 0.
Proof. vm_compute. repeat split. Qed.

(** Five locked attempts at the first claim end the worker with a
    ["Queue busy"] entry and no task touched. *)
Example runWorker_gives_up_when_locked :
  let '(out, w) := runWorker 4 "worker-1" always_locked in
  out = Returns (mkResult "worker-1" 0 0 0 ["Queue busy: database is locked"])
  /\ queue w = three_pending
  /\ slept w = [1200; 900; 600; 300].
Proof. vm_compute. repeat split. Qed.

(** Three rejected downloads of the first task, then two successes. *)
Example runWorker_after_rejections :
  let '(out, w) :=
    runWorker 4 "worker-1"
      (set_queue (TaskQueue.setMetadata "json_fetch_complete" "true" three_pending)
         three_rejections) in
  out = Returns (mkResult "worker-1" 3 2 1 ["a.pdf: HTTP 503"])
  /\ TaskQueue.getProgress (queue w) = QueueProgress.mk 3 0 0 2 1.
Proof. vm_compute. repeat split. Qed.

End SampleRuns.

(** * Properties of the worker pool *)

Section Pool.
Import WorkerPool.

Lemma worker_name_inj i j : worker_name i = worker_name j -> i = j.
Proof.
  unfold worker_name. intros H.
  apply (inj (String.app "worker-")) in H.
  apply (inj pretty) in H. lia.
Qed.

Lemma worker_names_size n : size (worker_names n) = n.
Proof.
  unfold worker_names. rewrite size_list_to_set.
  - rewrite length_map, length_seq. reflexivity.
  - apply (NoDup_fmap_2_strong worker_name).
    + intros i j _ _. apply worker_name_inj.
    + apply NoDup_seq.
Qed.

Lemma start_from_spec i n p :
  workerCount (start_from i n p) = workerCount p
  /\ results (start_from i n p) = results p
  /\ workers (start_from i n p)
     = workers p ∪ list_to_set (List.map worker_name (seq i n)).
Proof.
  revert i p. induction n as [|n IH]; intros i p; simpl.
  - repeat split. set_solver.
  - destruct (IH (S i) (spawnWorker (worker_name i) p)) as (-> & -> & ->).
    simpl. repeat split. set_solver.
Qed.

Lemma start_workers p :
  workers p = ∅ ->
  workers (start p) = worker_names (Js.iterations (workerCount p)).
Proof.
  intros H. unfold start.
  destruct (start_from_spec 0 (Js.iterations (workerCount p)) p) as (_ & _ & ->).
  rewrite H. unfold worker_names. set_solver.
Qed.

Lemma start_spec count :
  let p0 := start (create count) in
  workerCount p0 = Js.Math_max 1 (Js.Math_min 10 count)
  /\ results p0 = ∅
  /\ workers p0
     = worker_names (Js.iterations (Js.Math_max 1 (Js.Math_min 10 count))).
Proof.
  cbn zeta. unfold start.
  destruct (start_from_spec 0 (Js.iterations (workerCount (create count)))
              (create count)) as (-> & -> & ->).
  simpl. repeat split. unfold worker_names. set_solver.
Qed.

Lemma handle_accounted names e p :
  event_worker e ∈ names -> accounted names p -> accounted names (handle e p).
Proof.
  unfold accounted. intros He <-.
  destruct e as [id c s|id]; simpl in *; rewrite dom_insert_L;
    apply set_eq; intros x; destruct (decide (x = id)); set_solver.
Qed.

Lemma deliver_accounted names events p :
  Forall (fun e => event_worker e ∈ names) events ->
  accounted names p -> accounted names (deliver events p).
Proof.
  unfold deliver. intros H. revert p.
  induction H as [|e events He _ IH]; simpl; intros p Hp; auto.
  apply IH. now apply handle_accounted.
Qed.

Lemma deliver_workerCount events p :
  workerCount (deliver events p) = workerCount p.
Proof.
  unfold deliver. revert p.
  induction events as [|e events IH]; simpl; intros p; auto.
  rewrite IH. destruct e; reflexivity.
Qed.

Lemma wait_returns names ticks p r p' :
  Forall (fun e => event_worker e ∈ names) (concat ticks) ->
  accounted names p ->
  waitForCompletion ticks p = Some (r, p') ->
  accounted names p' /\ workers p' = ∅ /\ r = compile p'
  /\ workerCount p' = workerCount p.
Proof.
  revert p. induction ticks as [|events ticks IH]; intros p Hev Hp H; simpl in H.
  - case_bool_decide as Hsz; [|discriminate].
    injection H as <- <-. repeat split; auto.
    now apply size_empty_inv, leibniz_equiv in Hsz.
  - case_bool_decide as Hsz.
    + injection H as <- <-. repeat split; auto.
      now apply size_empty_inv, leibniz_equiv in Hsz.
    + simpl in Hev. apply Forall_app in Hev as [Hev1 Hev2].
      apply IH in H; auto using deliver_accounted.
      rewrite deliver_workerCount in H. exact H.
Qed.

Lemma tally_fold entries acc :
  let r := fold_left tally entries acc in
  totalWorkers r = totalWorkers acc
  /\ completedWorkers r
     = completedWorkers acc
       + Z.of_nat (length (List.filter (fun kv => code (snd kv) =? 0) entries))
  /\ failedWorkers r
     = failedWorkers acc
       + Z.of_nat (length (List.filter (fun kv => negb (code (snd kv) =? 0))
                             entries))
  /\ completedWorkers r + failedWorkers r
     = completedWorkers acc + failedWorkers acc + Z.of_nat (length entries).
Proof.
  revert acc. induction entries as [|kv entries IH]; intros acc; simpl.
  - repeat split; lia.
  - destruct (IH (tally acc kv)) as (Ht & Hc & Hf & Hs).
    cbn zeta in *. unfold tally in *.
    destruct (code (snd kv) =? 0); simpl in *;
      (split; [exact Ht|]); repeat split; lia.
Qed.

(** Whatever the count given to the constructor: when [waitForCompletion]
    returns, [results] has an entry for exactly the workers [start] spawned,
    and completed plus failed workers are as many as those. *)
Lemma wait_accounts count before ticks r p' :
  let p0 := start (create count) in
  Forall (fun e => event_worker e ∈ workers p0) (before ++ concat ticks) ->
  waitForCompletion ticks (deliver before p0) = Some (r, p') ->
  totalWorkers r = Js.Math_max 1 (Js.Math_min 10 count)
  /\ dom (results p') = workers p0
  /\ size (workers p0)
     = Js.iterations (Js.Math_max 1 (Js.Math_min 10 count))
  /\ completedWorkers r
     = Z.of_nat (length (List.filter (fun kv => code (snd kv) =? 0)
                           (map_to_list (results p'))))
  /\ failedWorkers r
     = Z.of_nat (length (List.filter (fun kv => negb (code (snd kv) =? 0))
                           (map_to_list (results p'))))
  /\ completedWorkers r + failedWorkers r = Z.of_nat (size (workers p0)).
Proof.
  intros p0 Hev Hwait.
  apply Forall_app in Hev as [Hbefore Hticks].
  destruct (start_spec count) as (Hc & Hr & Hw). fold p0 in Hc, Hr, Hw.
  assert (accounted (workers p0) p0) as Hp0.
  { unfold accounted. rewrite Hr, dom_empty_L. set_solver. }
  destruct (wait_returns (workers p0) ticks (deliver before p0) r p' Hticks
              (deliver_accounted _ _ _ Hbefore Hp0) Hwait)
    as (Hacc & Hempty & -> & Hcount).
  rewrite deliver_workerCount in Hcount.
  unfold accounted in Hacc. rewrite Hempty, union_empty_l_L in Hacc.
  destruct (tally_fold (map_to_list (results p')) (mkResult (workerCount p') 0 0))
    as (Ht & Hcm & Hf & Hs).
  cbn zeta in *. fold (compile p') in Ht, Hcm, Hf, Hs. simpl in Ht, Hcm, Hf, Hs.
  split; [rewrite Ht, Hcount; exact Hc|].
  split; [exact Hacc|].
  split; [rewrite Hw; apply worker_names_size|].
  split; [rewrite Hcm; lia|]. split; [rewrite Hf; lia|].
  rewrite Hs, length_map_to_list, <- size_dom, Hacc. lia.
Qed.

(** C9 fails on the code when the count is not a number, as it is for
    [--workers abc]: the clamp gives [NaN], [start] spawns no worker, and
    [waitForCompletion] returns at once with [totalWorkers] = [NaN] and no
    worker completed or failed, so that completed plus failed workers are
    not the total. *)
Theorem waitForCompletion_nan_count (ticks : list (list event)) :
  let p0 := start (create Js.NaN) in
  workerCount p0 = Js.NaN
  /\ workers p0 = ∅
  /\ waitForCompletion ticks p0 = Some (mkResult Js.NaN 0 0, p0)
  /\ Js.Int (completedWorkers (mkResult Js.NaN 0 0)
             + failedWorkers (mkResult Js.NaN 0 0))
     <> totalWorkers (mkResult Js.NaN 0 0).
Proof.
  cbn zeta. change (start (create Js.NaN)) with (create Js.NaN).
  split; [reflexivity|]. split; [reflexivity|]. split; [|discriminate].
  assert (compile (create Js.NaN) = mkResult Js.NaN 0 0) as Hc.
  { unfold compile. simpl. rewrite map_to_list_empty. reflexivity. }
  destruct ticks as [|events ticks]; cbn [waitForCompletion];
    (case_bool_decide as Hsz;
     [now rewrite Hc|exfalso; apply Hsz, (size_empty (C:=gset string))]).
Qed.

(** X26: for a pool started on an integer count whose events all come from
    the workers it spawned, when [waitForCompletion] returns, completed plus
    failed workers equal the total, which is the count clamped to 1..10 and
    the number of spawned workers; [results] has an entry for exactly the
    spawned workers; the completed ones are the entries with code 0 and the
    failed ones the others; and a spawn error is recorded with code 1. *)
Theorem waitForCompletion_accounts
    (count : Z) (before : list event) (ticks : list (list event))
    (r : WorkerPoolResult) (p' : t) :
  let p0 := start (create (Js.Int count)) in
  Forall (fun e => event_worker e ∈ workers p0) (before ++ concat ticks) ->
  waitForCompletion ticks (deliver before p0) = Some (r, p') ->
  Js.Int (completedWorkers r + failedWorkers r) = totalWorkers r
  /\ totalWorkers r = Js.Int (Z.max 1 (Z.min 10 count))
  /\ dom (results p') = workers p0
  /\ size (workers p0) = Z.to_nat (Z.max 1 (Z.min 10 count))
  /\ completedWorkers r
     = Z.of_nat (length (List.filter (fun kv => code (snd kv) =? 0)
                           (map_to_list (results p'))))
  /\ failedWorkers r
     = Z.of_nat (length (List.filter (fun kv => negb (code (snd kv) =? 0))
                           (map_to_list (results p'))))
  /\ (forall workerId q,
        results (handle (Error workerId) q) !! workerId = Some (mkExit 1 None)).
Proof.
  intros p0 Hev Hwait.
  destruct (wait_accounts (Js.Int count) before ticks r p' Hev Hwait)
    as (Ht & Hdom & Hsize & Hc & Hf & Hsum).
  fold p0 in Hdom, Hsize, Hsum. simpl in Ht, Hsize.
  split; [|split; [|split; [|split; [|split; [|split]]]]].
  - rewrite Ht, Hsum, Hsize. f_equal. lia.
  - exact Ht.
  - exact Hdom.
  - exact Hsize.
  - exact Hc.
  - exact Hf.
  - intros workerId q. simpl. apply lookup_insert_eq.
Qed.

Lemma waitForCompletion_accounts_witness :
  Forall (fun e => WorkerPool.event_worker e ∈ WorkerPool.workers pool_of_two)
    (early_events ++ concat tick_events)
  /\ WorkerPool.waitForCompletion tick_events
       (WorkerPool.deliver early_events pool_of_two)
     = Some (WorkerPool.mkResult (Js.Int 2) 1 1, pool_at_return)
  /\ Js.Int (WorkerPool.completedWorkers (WorkerPool.mkResult (Js.Int 2) 1 1)
             + WorkerPool.failedWorkers (WorkerPool.mkResult (Js.Int 2) 1 1))
     = WorkerPool.totalWorkers (WorkerPool.mkResult (Js.Int 2) 1 1).
Proof.
  assert (Forall (fun e => WorkerPool.event_worker e
                           ∈ WorkerPool.workers pool_of_two)
            (early_events ++ concat tick_events)) as H1.
  { repeat constructor; apply bool_decide_unpack; vm_compute; exact I. }
  assert (WorkerPool.waitForCompletion tick_events
            (WorkerPool.deliver early_events pool_of_two)
          = Some (WorkerPool.mkResult (Js.Int 2) 1 1, pool_at_return)) as H2
    by (vm_compute; reflexivity).
  split; [exact H1|]. split; [exact H2|].
  exact (proj1 (waitForCompletion_accounts 2 early_events tick_events
                  (WorkerPool.mkResult (Js.Int 2) 1 1) pool_at_return H1 H2)).
Defined.

End Pool.

(** * Further properties of the queue *)

Section Progress.

Lemma getProgress_tallies q :
  TaskQueue.getProgress q
  = QueueProgress.mk (Sql.count (TaskQueue.own_rows q))
      (tally_of (Sql.case_status 0) (TaskQueue.own_rows q))
      (tally_of (Sql.case_status 1) (TaskQueue.own_rows q))
      (tally_of (Sql.case_status 2) (TaskQueue.own_rows q))
      (tally_of (Sql.case_status 3) (TaskQueue.own_rows q)).
Proof.
  unfold TaskQueue.getProgress. rewrite or_zero_Some, !or_zero_sum. reflexivity.
Qed.

Lemma tally_app e l k : tally_of e (l ++ k) = tally_of e l + tally_of e k.
Proof.
  unfold tally_of. induction l as [|r l IH]; simpl; [reflexivity|].
  rewrite IH. lia.
Qed.

Lemma tally_nonneg s rows : 0 <= tally_of (Sql.case_status s) rows.
Proof.
  induction rows as [|r rows IH]; simpl; [lia|].
  unfold Sql.case_status at 1. destruct (Row.status r =? s); lia.
Qed.

Lemma tally_all s rows :
  Forall (fun r => Row.status r = s) rows ->
  tally_of (Sql.case_status s) rows = Z.of_nat (length rows).
Proof.
  induction 1 as [|r rows Hr _ IH]; [reflexivity|].
  cbn [tally_of fold_right length]. fold (tally_of (Sql.case_status s) rows).
  rewrite IH, Nat2Z.inj_succ. unfold Sql.case_status.
  rewrite Hr, Z.eqb_refl. lia.
Qed.

End Progress.

(** ** Metadata *)

(** X1: getMetadata after setMetadata of the same key returns the value
    written and every other key is unchanged; a second setMetadata of a key
    overwrites the first; after initialize every key reads as absent; and
    inserting, claiming, marking and resetting tasks never change a metadata
    value. *)
Theorem metadata_round_trip (key value : string) (q : TaskQueue.t) :
  TaskQueue.getMetadata key (TaskQueue.setMetadata key value q) = Some value
  /\ (forall other, other <> key ->
        TaskQueue.getMetadata other (TaskQueue.setMetadata key value q)
        = TaskQueue.getMetadata other q)
  /\ (forall older,
        TaskQueue.setMetadata key value (TaskQueue.setMetadata key older q)
        = TaskQueue.setMetadata key value q)
  /\ TaskQueue.getMetadata key (TaskQueue.initialize q) = None
  /\ (forall o, task_op o ->
        TaskQueue.getMetadata key (Reach.run o q) = TaskQueue.getMetadata key q).
Proof.
  unfold TaskQueue.getMetadata, TaskQueue.setMetadata. simpl.
  repeat split.
  - apply lookup_insert_eq.
  - intros other Hne. now apply lookup_insert_ne.
  - intros older. now rewrite insert_insert_eq.
  - intros o Ho. destruct o; simpl in *; try reflexivity; try contradiction.
    unfold TaskQueue.claimNextPdf.
    destruct (TaskQueue.next_pending _); reflexivity.
Qed.


Section IsComplete.

Lemma open_count_tallies (st : string) tbl :
  Sql.count
    (Sql.select_where
       (fun r => String.eqb (Row.search_term r) st
                 && ((Row.status r =? 0) || (Row.status r =? 1))) tbl)
  = tally_of (Sql.case_status 0)
      (Sql.select_where (fun r => String.eqb (Row.search_term r) st) tbl)
    + tally_of (Sql.case_status 1)
        (Sql.select_where (fun r => String.eqb (Row.search_term r) st) tbl).
Proof.
  unfold Sql.count, Sql.select_where.
  induction tbl as [|r tbl IH]; [reflexivity|].
  cbn [List.filter].
  destruct (String.eqb (Row.search_term r) st); cbn [andb]; [|exact IH].
  cbn [tally_of fold_right].
  fold (tally_of (Sql.case_status 0)
          (List.filter (fun r => String.eqb (Row.search_term r) st) tbl)).
  fold (tally_of (Sql.case_status 1)
          (List.filter (fun r => String.eqb (Row.search_term r) st) tbl)).
  unfold Sql.case_status at 1 3.
  destruct (Z.eqb_spec (Row.status r) 0) as [E0|E0];
    destruct (Z.eqb_spec (Row.status r) 1) as [E1|E1];
    cbn [orb length]; try rewrite Nat2Z.inj_succ; lia.
Qed.

End IsComplete.

(** X2: isComplete returns true exactly when the json_fetch_complete
    metadata value is the string true and getProgress reports no pending and
    no in-progress task for the queue's search term. *)
Theorem isComplete_iff (q : TaskQueue.t) :
  TaskQueue.isComplete q = true
  <-> TaskQueue.getMetadata "json_fetch_complete" q = Some "true"
      /\ QueueProgress.pending (TaskQueue.getProgress q) = 0
      /\ QueueProgress.inProgress (TaskQueue.getProgress q) = 0.
Proof.
  rewrite getProgress_tallies. cbn [QueueProgress.pending QueueProgress.inProgress].
  unfold TaskQueue.isComplete.
  pose proof (tally_nonneg 0 (TaskQueue.own_rows q)) as H0.
  pose proof (tally_nonneg 1 (TaskQueue.own_rows q)) as H1.
  pose proof (open_count_tallies (TaskQueue.searchTerm q) (TaskQueue.pdf_tasks q))
    as Hc.
  fold (TaskQueue.own_rows q) in Hc.
  destruct (is_string (TaskQueue.getMetadata "json_fetch_complete" q) "true")
    eqn:Ef; cbn [negb].
  - apply is_string_spec in Ef. rewrite Z.eqb_eq, Hc. split.
    + intros H. repeat split; [exact Ef|lia|lia].
    + intros (_ & Ha & Hb). lia.
  - split; [discriminate|]. intros (Hf & _).
    apply is_string_spec in Hf. congruence.
Qed.

(** ** Pages already ingested *)

Section HasPage.

Lemma hasPage_iff pageNumber q :
  TaskQueue.hasPage pageNumber q = true
  <-> exists r, In r (TaskQueue.pdf_tasks q)
                /\ Row.search_term r = TaskQueue.searchTerm q
                /\ Row.page_number r = pageNumber.
Proof.
  unfold TaskQueue.hasPage, Sql.count, Sql.select_where.
  rewrite Z.ltb_lt. split.
  - intros H.
    destruct (List.filter _ (TaskQueue.pdf_tasks q)) as [|r rows] eqn:E;
      [simpl in H; lia|].
    assert (In r (List.filter
                    (fun r => String.eqb (Row.search_term r) (TaskQueue.searchTerm q)
                              && (Row.page_number r =? pageNumber))
                    (TaskQueue.pdf_tasks q))) as Hin
      by (rewrite E; left; reflexivity).
    apply filter_In in Hin as [Hin Hc].
    apply andb_true_iff in Hc as [Hs Hp].
    apply String.eqb_eq in Hs. apply Z.eqb_eq in Hp. eauto.
  - intros (r & Hin & Hs & Hp).
    assert (In r (List.filter
                    (fun r => String.eqb (Row.search_term r) (TaskQueue.searchTerm q)
                              && (Row.page_number r =? pageNumber))
                    (TaskQueue.pdf_tasks q))) as Hf.
    { apply filter_In. split; [exact Hin|].
      rewrite Hs, Hp, String.eqb_refl, Z.eqb_refl. reflexivity. }
    destruct (List.filter _ (TaskQueue.pdf_tasks q)); [contradiction|].
    simpl. lia.
Qed.

Lemma update_where_keeps_page cond set tbl r :
  (forall x, Row.search_term (set x) = Row.search_term x
             /\ Row.page_number (set x) = Row.page_number x) ->
  In r tbl ->
  exists r', In r' (Sql.update_where cond set tbl)
             /\ Row.search_term r' = Row.search_term r
             /\ Row.page_number r' = Row.page_number r.
Proof.
  intros Hset Hin. unfold Sql.update_where.
  exists (if cond r then set r else r). split.
  - apply in_map_iff. eauto.
  - destruct (cond r); [apply Hset|split; reflexivity].
Qed.

Lemma run_keeps_page o q r :
  keeps_rows o -> In r (TaskQueue.pdf_tasks q) ->
  exists r', In r' (TaskQueue.pdf_tasks (Reach.run o q))
             /\ Row.search_term r' = Row.search_term r
             /\ Row.page_number r' = Row.page_number r.
Proof.
  intros Ho Hin. destruct o; simpl in *; try contradiction.
  - destruct (insert_fold_appends now pdfs (TaskQueue.pdf_tasks q))
      as (added & -> & _).
    exists r. split; [apply in_or_app; now left|split; reflexivity].
  - unfold TaskQueue.claimNextPdf.
    destruct (TaskQueue.next_pending _); simpl; [|eauto].
    apply update_where_keeps_page; auto.
  - apply update_where_keeps_page; auto.
  - apply update_where_keeps_page; auto.
  - apply update_where_keeps_page; auto.
  - eauto.
Qed.

End HasPage.

(** X3: Once hasPage is true for a page it stays true under any sequence of
    inserts, claims, marks, resets and metadata writes; only initialize can
    make it false again. *)
Theorem hasPage_stable (pageNumber : Z) (ops : list Reach.op) (q : TaskQueue.t) :
  Forall keeps_rows ops ->
  TaskQueue.hasPage pageNumber q = true ->
  TaskQueue.hasPage pageNumber (Reach.run_all ops q) = true.
Proof.
  unfold Reach.run_all. intros Hops. revert q.
  induction Hops as [|o ops Ho _ IH]; simpl; intros q H; [exact H|].
  apply IH. apply hasPage_iff in H as (r & Hin & Hs & Hp).
  destruct (run_keeps_page o q r Ho Hin) as (r' & Hin' & Hs' & Hp').
  apply hasPage_iff. exists r'. rewrite run_searchTerm. repeat split; congruence.
Qed.

Lemma hasPage_stable_witness :
  Forall keeps_rows claim_then_finish
  /\ TaskQueue.hasPage 2 three_pending = true
  /\ TaskQueue.hasPage 2 (Reach.run_all claim_then_finish three_pending) = true.
Proof.
  assert (Forall keeps_rows claim_then_finish) as H1
    by (repeat constructor).
  assert (TaskQueue.hasPage 2 three_pending = true) as H2 by reflexivity.
  split; [exact H1|]. split; [exact H2|].
  exact (hasPage_stable 2 claim_then_finish three_pending H1 H2).
Defined.


Section OneRow.

Lemma update_where_absent cond set tbl :
  (forall r, In r tbl -> cond r = false) -> Sql.update_where cond set tbl = tbl.
Proof.
  unfold Sql.update_where. induction tbl as [|r tbl IH]; simpl; intros H;
    [reflexivity|].
  rewrite (H r) by auto. f_equal. apply IH. auto.
Qed.

(** With ids unique, an update by id rewrites one row in place. *)
Lemma update_where_id_split taskId set tbl row :
  List.NoDup (List.map Row.id tbl) -> In row tbl -> Row.id row = taskId ->
  exists before after,
    tbl = before ++ row :: after
    /\ Sql.update_where (fun r => String.eqb (Row.id r) taskId) set tbl
       = before ++ set row :: after.
Proof.
  intros Hnd Hin Hid. induction tbl as [|x tbl IH]; [contradiction|].
  simpl in Hnd. apply List.NoDup_cons_iff in Hnd as [Hx Hnd].
  destruct Hin as [->|Hin].
  - exists [], tbl. split; [reflexivity|].
    cbn [Sql.update_where List.map app]. rewrite Hid, String.eqb_refl.
    f_equal. apply update_where_absent.
    intros r Hr. apply String.eqb_neq. intros E. apply Hx.
    rewrite Hid, <- E. now apply in_map.
  - destruct (IH Hnd Hin) as (before & after & -> & Hup).
    exists (x :: before), after. split; [reflexivity|].
    cbn [Sql.update_where List.map app].
    assert (String.eqb (Row.id x) taskId = false) as ->.
    { apply String.eqb_neq. intros E. apply Hx. rewrite E, <- Hid.
      now apply in_map. }
    f_equal. exact Hup.
Qed.

Lemma own_rows_app st l k :
  Sql.select_where (fun r => String.eqb (Row.search_term r) st) (l ++ k)
  = Sql.select_where (fun r => String.eqb (Row.search_term r) st) l
    ++ Sql.select_where (fun r => String.eqb (Row.search_term r) st) k.
Proof. unfold Sql.select_where. apply filter_app. Qed.

(** Replacing one row of the queue's search term by another of that term
    moves one unit between the per-status counts. *)
Lemma progress_replace q q' before after row row' :
  TaskQueue.pdf_tasks q = before ++ row :: after ->
  TaskQueue.pdf_tasks q' = before ++ row' :: after ->
  TaskQueue.searchTerm q' = TaskQueue.searchTerm q ->
  Row.search_term row = TaskQueue.searchTerm q ->
  Row.search_term row' = TaskQueue.searchTerm q ->
  Sql.count (TaskQueue.own_rows q') = Sql.count (TaskQueue.own_rows q)
  /\ forall s,
       tally_of (Sql.case_status s) (TaskQueue.own_rows q')
       = tally_of (Sql.case_status s) (TaskQueue.own_rows q)
         - Sql.case_status s row + Sql.case_status s row'.
Proof.
  intros Hq Hq' Hst Hr Hr'. unfold TaskQueue.own_rows.
  rewrite Hq, Hq', Hst, !own_rows_app. unfold Sql.select_where at 2 4 6 8.
  cbn [List.filter]. rewrite Hr, Hr', String.eqb_refl. split.
  - unfold Sql.count. rewrite !length_app. reflexivity.
  - intros s. rewrite !tally_app. cbn [tally_of fold_right]. lia.
Qed.

End OneRow.

(** ** Marking *)

(** X4: markComplete and markFailed with an id that no row carries leave the
    queue exactly as it was. *)
Theorem mark_unknown_id (now : Z) (taskId err : string) (q : TaskQueue.t) :
  (forall r, In r (TaskQueue.pdf_tasks q) -> Row.id r <> taskId) ->
  TaskQueue.markComplete now taskId q = q
  /\ TaskQueue.markFailed now taskId err q = q.
Proof.
  intros H. unfold TaskQueue.markComplete, TaskQueue.markFailed,
    TaskQueue.with_tasks.
  rewrite !update_where_absent
    by (intros r Hr; apply String.eqb_neq, H, Hr).
  destruct q; split; reflexivity.
Qed.

Lemma mark_unknown_id_witness :
  (forall r, In r (TaskQueue.pdf_tasks three_pending) ->
             Row.id r <> "g_9_z.pdf_100")
  /\ TaskQueue.markComplete 300 "g_9_z.pdf_100" three_pending = three_pending.
Proof.
  assert (forall r, In r (TaskQueue.pdf_tasks three_pending) ->
                    Row.id r <> "g_9_z.pdf_100") as H.
  { intros r Hr. vm_compute in Hr.
    destruct Hr as [<-|[<-|[<-|[]]]]; discriminate. }
  split; [exact H|].
  exact (proj1 (mark_unknown_id 300 "g_9_z.pdf_100" "gone" three_pending H)).
Defined.

(** X5: On a queue whose rows all carry its search term and satisfy the
    table's two uniqueness constraints, a claimNextPdf that returns a task
    moves exactly one task from pending to in progress in getProgress:
    pending drops by one, inProgress grows by one, total, completed and
    failed are unchanged. *)
Theorem claim_moves_one_task
    (workerId : string) (now : Z) (q q' : TaskQueue.t) (pdf : PdfTaskRecord.t) :
  unique_rows (TaskQueue.pdf_tasks q) ->
  scoped q ->
  TaskQueue.claimNextPdf workerId now q = (Some pdf, q') ->
  let p := TaskQueue.getProgress q in
  let p' := TaskQueue.getProgress q' in
  QueueProgress.total p' = QueueProgress.total p
  /\ QueueProgress.pending p' = QueueProgress.pending p - 1
  /\ QueueProgress.inProgress p' = QueueProgress.inProgress p + 1
  /\ QueueProgress.completed p' = QueueProgress.completed p
  /\ QueueProgress.failed p' = QueueProgress.failed p.
Proof.
  intros [Hid _] Hsc Hclaim. cbn zeta.
  unfold TaskQueue.claimNextPdf in Hclaim.
  destruct (TaskQueue.next_pending (TaskQueue.pdf_tasks q)) as [low|] eqn:En;
    [|discriminate].
  injection Hclaim as _ <-.
  apply next_pending_Some in En as (Hin & Hst & _).
  destruct (update_where_id_split (Row.id low)
              (TaskQueue.set_claimed workerId now) _ low Hid Hin eq_refl)
    as (before & after & Hq & Hup).
  assert (Row.search_term low = TaskQueue.searchTerm q) as Hown.
  { unfold scoped in Hsc. rewrite Forall_forall in Hsc. now apply Hsc. }
  destruct (progress_replace q
              (TaskQueue.with_tasks q
                 (Sql.update_where
                    (fun r => String.eqb (Row.id r) (Row.id low))
                    (TaskQueue.set_claimed workerId now) (TaskQueue.pdf_tasks q)))
              before after low (TaskQueue.set_claimed workerId now low)
              Hq Hup eq_refl Hown Hown) as (Hc & Ht).
  rewrite !getProgress_tallies.
  cbn [QueueProgress.total QueueProgress.pending QueueProgress.inProgress
       QueueProgress.completed QueueProgress.failed].
  rewrite Hc, !Ht. unfold Sql.case_status. cbn [Row.status TaskQueue.set_claimed].
  unfold Pending in Hst. rewrite Hst. cbn. repeat split; lia.
Qed.

Lemma claim_moves_one_task_witness :
  unique_rows (TaskQueue.pdf_tasks three_pending)
  /\ scoped three_pending
  /\ TaskQueue.claimNextPdf "worker-1" 1300 three_pending
     = (Some claimed_a, one_claimed)
  /\ QueueProgress.total (TaskQueue.getProgress one_claimed)
     = QueueProgress.total (TaskQueue.getProgress three_pending).
Proof.
  assert (unique_rows (TaskQueue.pdf_tasks three_pending)) as H1
    by (apply (reachable_unique_rows "g" [Reach.InsertPdfs 100 _])).
  assert (scoped three_pending) as H2 by (repeat constructor).
  assert (TaskQueue.claimNextPdf "worker-1" 1300 three_pending
          = (Some claimed_a, one_claimed)) as H3 by reflexivity.
  split; [exact H1|]. split; [exact H2|]. split; [exact H3|].
  exact (proj1 (claim_moves_one_task "worker-1" 1300 three_pending one_claimed
                  claimed_a H1 H2 H3)).
Defined.

(** X6: On a table that satisfies its two uniqueness constraints, for an
    in-progress task of the queue's search term, markComplete moves exactly
    one task from in progress to completed in getProgress and markFailed
    moves exactly one from in progress to failed; the other counts and the
    total are unchanged. *)
Theorem mark_moves_one_task
    (now : Z) (taskId err : string) (q : TaskQueue.t) (row : Row.t) :
  unique_rows (TaskQueue.pdf_tasks q) ->
  In row (TaskQueue.pdf_tasks q) ->
  Row.id row = taskId ->
  Row.search_term row = TaskQueue.searchTerm q ->
  Row.status row = InProgress ->
  let p := TaskQueue.getProgress q in
  let pc := TaskQueue.getProgress (TaskQueue.markComplete now taskId q) in
  let pf := TaskQueue.getProgress (TaskQueue.markFailed now taskId err q) in
  (QueueProgress.total pc = QueueProgress.total p
   /\ QueueProgress.pending pc = QueueProgress.pending p
   /\ QueueProgress.inProgress pc = QueueProgress.inProgress p - 1
   /\ QueueProgress.completed pc = QueueProgress.completed p + 1
   /\ QueueProgress.failed pc = QueueProgress.failed p)
  /\ (QueueProgress.total pf = QueueProgress.total p
      /\ QueueProgress.pending pf = QueueProgress.pending p
      /\ QueueProgress.inProgress pf = QueueProgress.inProgress p - 1
      /\ QueueProgress.completed pf = QueueProgress.completed p
      /\ QueueProgress.failed pf = QueueProgress.failed p + 1).
Proof.
  intros [Hid _] Hin Hrow Hown Hst. cbn zeta.
  destruct (update_where_id_split taskId (TaskQueue.set_complete now) _ row
              Hid Hin Hrow) as (b1 & a1 & Hq1 & Hup1).
  destruct (update_where_id_split taskId (TaskQueue.set_failed now err) _ row
              Hid Hin Hrow) as (b2 & a2 & Hq2 & Hup2).
  destruct (progress_replace q (TaskQueue.markComplete now taskId q)
              b1 a1 row (TaskQueue.set_complete now row)
              Hq1 Hup1 eq_refl Hown Hown) as (Hc1 & Ht1).
  destruct (progress_replace q (TaskQueue.markFailed now taskId err q)
              b2 a2 row (TaskQueue.set_failed now err row)
              Hq2 Hup2 eq_refl Hown Hown) as (Hc2 & Ht2).
  rewrite !getProgress_tallies.
  cbn [QueueProgress.total QueueProgress.pending QueueProgress.inProgress
       QueueProgress.completed QueueProgress.failed].
  rewrite Hc1, Hc2, !Ht1, !Ht2. unfold Sql.case_status.
  cbn [Row.status TaskQueue.set_complete TaskQueue.set_failed].
  unfold InProgress in Hst. rewrite Hst. cbn. repeat split; lia.
Qed.

Lemma mark_moves_one_task_witness :
  unique_rows (TaskQueue.pdf_tasks one_claimed)
  /\ In claimed_row (TaskQueue.pdf_tasks one_claimed)
  /\ Row.id claimed_row = "g_1_a.pdf_100"
  /\ Row.search_term claimed_row = TaskQueue.searchTerm one_claimed
  /\ Row.status claimed_row = InProgress
  /\ QueueProgress.completed
       (TaskQueue.getProgress
          (TaskQueue.markComplete 1400 "g_1_a.pdf_100" one_claimed))
     = QueueProgress.completed (TaskQueue.getProgress one_claimed) + 1.
Proof.
  assert (unique_rows (TaskQueue.pdf_tasks one_claimed)) as H1
    by (apply (reachable_unique_rows "g"
                 [Reach.InsertPdfs 100 _; Reach.ClaimNextPdf "worker-1" 1300])).
  assert (In claimed_row (TaskQueue.pdf_tasks one_claimed)) as H2
    by (vm_compute; auto).
  assert (Row.id claimed_row = "g_1_a.pdf_100") as H3 by reflexivity.
  assert (Row.search_term claimed_row = TaskQueue.searchTerm one_claimed) as H4
    by reflexivity.
  assert (Row.status claimed_row = InProgress) as H5 by reflexivity.
  split; [exact H1|]. split; [exact H2|]. split; [exact H3|].
  split; [exact H4|]. split; [exact H5|].
  destruct (mark_moves_one_task 1400 "g_1_a.pdf_100" "HTTP 503" one_claimed
              claimed_row H1 H2 H3 H4 H5) as [(_ & _ & _ & Hc & _) _].
  exact Hc.
Defined.


Section InsertProgress.

Lemma insert_fold_appends_bounded now pdfs tbl :
  exists added,
    fold_left (TaskQueue.insert_run now) pdfs tbl = tbl ++ added
    /\ (length added <= length pdfs)%nat
    /\ Forall (fun r => Row.status r = 0) added.
Proof.
  revert tbl. induction pdfs as [|pdf pdfs IH]; intros tbl; simpl.
  - exists []. rewrite app_nil_r. repeat split; auto.
  - destruct (IH (TaskQueue.insert_run now tbl pdf)) as (added & -> & Hlen & Hst).
    destruct (insert_run_grows now tbl pdf) as [->| ->].
    + exists added. repeat split; auto.
    + exists (TaskQueue.new_row now pdf :: added). rewrite <- app_assoc.
      repeat split; simpl; auto. lia.
Qed.

Lemma filter_Forall {A} (P : A -> Prop) f (l : list A) :
  Forall P l -> Forall P (List.filter f l).
Proof.
  intros H. apply Forall_forall. intros x Hx%filter_In.
  rewrite Forall_forall in H. apply H, Hx.
Qed.

End InsertProgress.

(** X7: insertPdfs changes getProgress only by adding some number n of
    pending tasks, with n between 0 and the size of the batch: total and
    pending grow by n, and inProgress, completed and failed are unchanged. *)
Theorem insertPdfs_adds_pending (now : Z) (pdfs : list PdfTask.t) (q : TaskQueue.t) :
  let p := TaskQueue.getProgress q in
  let p' := TaskQueue.getProgress (TaskQueue.insertPdfs now pdfs q) in
  exists n,
    0 <= n <= Z.of_nat (length pdfs)
    /\ QueueProgress.total p' = QueueProgress.total p + n
    /\ QueueProgress.pending p' = QueueProgress.pending p + n
    /\ QueueProgress.inProgress p' = QueueProgress.inProgress p
    /\ QueueProgress.completed p' = QueueProgress.completed p
    /\ QueueProgress.failed p' = QueueProgress.failed p.
Proof.
  cbn zeta. rewrite !getProgress_tallies.
  cbn [QueueProgress.total QueueProgress.pending QueueProgress.inProgress
       QueueProgress.completed QueueProgress.failed].
  unfold TaskQueue.own_rows, TaskQueue.insertPdfs.
  cbn [TaskQueue.pdf_tasks TaskQueue.searchTerm TaskQueue.with_tasks].
  destruct (insert_fold_appends_bounded now pdfs (TaskQueue.pdf_tasks q))
    as (added & -> & Hlen & Hst).
  rewrite own_rows_app.
  set (mine := Sql.select_where _ added).
  assert (Forall (fun r => Row.status r = 0) mine) as Hmine
    by (apply filter_Forall; exact Hst).
  assert (length mine <= length added)%nat as Hle by apply filter_length_le.
  exists (Z.of_nat (length mine)).
  unfold Sql.count. rewrite length_app, !tally_app, Nat2Z.inj_add.
  rewrite (tally_all 0 mine Hmine).
  rewrite !(tally_absent _ mine)
    by (eapply Forall_impl; [|exact Hmine]; simpl; intros; lia).
  repeat split; lia.
Qed.

(** ** Recovery, continued *)

Section ResetProgress.

Lemma tally_cons e r rows : tally_of e (r :: rows) = e r + tally_of e rows.
Proof. reflexivity. Qed.

Lemma own_rows_update st cond set tbl :
  (forall r, Row.search_term (set r) = Row.search_term r) ->
  Sql.select_where (fun r => String.eqb (Row.search_term r) st)
    (Sql.update_where cond set tbl)
  = Sql.update_where cond set
      (Sql.select_where (fun r => String.eqb (Row.search_term r) st) tbl).
Proof.
  intros Hset. unfold Sql.select_where, Sql.update_where.
  induction tbl as [|r tbl IH]; [reflexivity|].
  cbn [List.map List.filter].
  assert (Row.search_term (if cond r then set r else r) = Row.search_term r)
    as -> by (destruct (cond r); auto).
  destruct (String.eqb (Row.search_term r) st); cbn [List.map]; now rewrite IH.
Qed.

Lemma reset_tallies q rows :
  Forall (fun r => Row.search_term r = TaskQueue.searchTerm q) rows ->
  let rows' := Sql.update_where (TaskQueue.reset_cond q) TaskQueue.set_reset rows in
  Sql.count rows' = Sql.count rows
  /\ tally_of (Sql.case_status 0) rows'
     = tally_of (Sql.case_status 0) rows + tally_of (Sql.case_status 1) rows
  /\ tally_of (Sql.case_status 1) rows' = 0
  /\ tally_of (Sql.case_status 2) rows' = tally_of (Sql.case_status 2) rows
  /\ tally_of (Sql.case_status 3) rows' = tally_of (Sql.case_status 3) rows.
Proof.
  cbn zeta. unfold Sql.count, Sql.update_where.
  induction 1 as [|r rows Hr _ (IHc & IH0 & IH1 & IH2 & IH3)];
    [repeat split|].
  cbn [List.map]. rewrite !tally_cons. cbn [length].
  rewrite IH0, IH1, IH2, IH3, !Nat2Z.inj_succ, IHc.
  unfold TaskQueue.reset_cond. rewrite Hr, String.eqb_refl, andb_true_r.
  unfold Sql.case_status.
  destruct (Z.eqb_spec (Row.status r) 1) as [E|E];
    cbn [Row.status TaskQueue.set_reset].
  - rewrite E. cbn. repeat apply conj; lia.
  - apply Z.eqb_neq in E as E'. rewrite ?E'.
    destruct (Z.eqb_spec (Row.status r) 0), (Z.eqb_spec (Row.status r) 2),
      (Z.eqb_spec (Row.status r) 3); repeat apply conj; lia.
Qed.

End ResetProgress.

(** X8: resetInProgress adds the in-progress count to the pending count and
    leaves total, completed and failed unchanged; running it twice gives the
    same queue as running it once. *)
Theorem resetInProgress_requeues (q : TaskQueue.t) :
  let p := TaskQueue.getProgress q in
  let p' := TaskQueue.getProgress (TaskQueue.resetInProgress q) in
  QueueProgress.total p' = QueueProgress.total p
  /\ QueueProgress.pending p'
     = QueueProgress.pending p + QueueProgress.inProgress p
  /\ QueueProgress.completed p' = QueueProgress.completed p
  /\ QueueProgress.failed p' = QueueProgress.failed p
  /\ TaskQueue.resetInProgress (TaskQueue.resetInProgress q)
     = TaskQueue.resetInProgress q.
Proof.
  cbn zeta. rewrite !getProgress_tallies.
  cbn [QueueProgress.total QueueProgress.pending QueueProgress.inProgress
       QueueProgress.completed QueueProgress.failed].
  assert (TaskQueue.own_rows (TaskQueue.resetInProgress q)
          = Sql.update_where (TaskQueue.reset_cond q) TaskQueue.set_reset
              (TaskQueue.own_rows q)) as ->.
  { unfold TaskQueue.own_rows, TaskQueue.resetInProgress.
    cbn [TaskQueue.pdf_tasks TaskQueue.searchTerm TaskQueue.with_tasks].
    apply own_rows_update. reflexivity. }
  destruct (reset_tallies q (TaskQueue.own_rows q)) as (Hc & H0 & _ & H2 & H3).
  { unfold TaskQueue.own_rows, Sql.select_where. apply Forall_forall.
    intros r Hr%filter_In. destruct Hr as [_ Hr]. now apply String.eqb_eq. }
  repeat split; try assumption.
  unfold TaskQueue.resetInProgress, TaskQueue.with_tasks.
  cbn [TaskQueue.pdf_tasks TaskQueue.searchTerm TaskQueue.metadata].
  f_equal. unfold Sql.update_where. rewrite map_map.
  apply map_ext. intros r.
  change (TaskQueue.reset_cond (TaskQueue.mk (TaskQueue.searchTerm q) _ _))
    with (TaskQueue.reset_cond q).
  destruct (TaskQueue.reset_cond q r) eqn:Ec.
  - unfold TaskQueue.reset_cond. reflexivity.
  - rewrite Ec. reflexivity.
Qed.


Section NoDoubleClaim.

Lemma update_where_taken taskId cond set tbl :
  (forall r, Row.id (set r) = Row.id r) ->
  (forall r, Row.status (set r) <> Pending) ->
  taken taskId tbl -> taken taskId (Sql.update_where cond set tbl).
Proof.
  intros Hid Hst [(r & Hin & Hr) Hnot]. unfold Sql.update_where. split.
  - exists (if cond r then set r else r). split.
    + apply in_map_iff. eauto.
    + destruct (cond r); [rewrite Hid|]; exact Hr.
  - intros x Hx Hxid. apply in_map_iff in Hx as (y & <- & Hy).
    destruct (cond y); [apply Hst|].
    apply Hnot; assumption.
Qed.

Lemma insert_or_ignore_taken taskId new tbl :
  taken taskId tbl -> taken taskId (Sql.insert_or_ignore new tbl).
Proof.
  intros [(r & Hin & Hr) Hnot]. unfold Sql.insert_or_ignore.
  destruct (existsb (Sql.conflicts new) tbl) eqn:E; [split; eauto|].
  split.
  - exists r. split; [apply in_or_app; now left|exact Hr].
  - intros x Hx Hxid. apply in_app_or in Hx as [Hx|[<-|[]]]; [now apply Hnot|].
    exfalso.
    assert (existsb (Sql.conflicts new) tbl = true); [|congruence].
    apply existsb_exists. exists r. split; [exact Hin|].
    apply conflicts_spec. left. congruence.
Qed.

Lemma run_taken taskId o q :
  keeps_claims o ->
  taken taskId (TaskQueue.pdf_tasks q) ->
  taken taskId (TaskQueue.pdf_tasks (Reach.run o q)).
Proof.
  intros Ho H. destruct o; simpl in *; try contradiction; try exact H.
  - revert H. generalize (TaskQueue.pdf_tasks q).
    induction pdfs as [|pdf pdfs IH]; simpl; intros tbl H; [exact H|].
    apply IH. now apply insert_or_ignore_taken.
  - unfold TaskQueue.claimNextPdf.
    destruct (TaskQueue.next_pending _); simpl; [|exact H].
    apply update_where_taken; auto; intros r; simpl; discriminate.
  - apply update_where_taken; auto; intros r; simpl; discriminate.
  - apply update_where_taken; auto; intros r; simpl; discriminate.
Qed.

End NoDoubleClaim.

(** X9: A task handed out by claimNextPdf is never handed out again by a
    later claimNextPdf, whatever inserts, claims, marks and metadata writes
    happen in between, as long as neither resetInProgress nor initialize
    runs. *)
Theorem no_double_claim
    (workerId other : string) (now later : Z) (ops : list Reach.op)
    (q q1 q2 : TaskQueue.t) (first second : PdfTaskRecord.t) :
  TaskQueue.claimNextPdf workerId now q = (Some first, q1) ->
  Forall keeps_claims ops ->
  TaskQueue.claimNextPdf other later (Reach.run_all ops q1) = (Some second, q2) ->
  PdfTaskRecord.id second <> PdfTaskRecord.id first.
Proof.
  intros Hc1 Hops Hc2.
  unfold TaskQueue.claimNextPdf in Hc1.
  destruct (TaskQueue.next_pending (TaskQueue.pdf_tasks q)) as [low|] eqn:En;
    [|discriminate].
  injection Hc1 as <- <-.
  apply next_pending_Some in En as (Hin & _ & _).
  assert (taken (Row.id low)
            (TaskQueue.pdf_tasks
               (Reach.run_all ops
                  (TaskQueue.with_tasks q
                     (Sql.update_where
                        (fun r => String.eqb (Row.id r) (Row.id low))
                        (TaskQueue.set_claimed workerId now)
                        (TaskQueue.pdf_tasks q)))))) as [_ Hnot].
  { unfold Reach.run_all.
    match goal with |- taken _ (TaskQueue.pdf_tasks (fold_left _ _ ?q0)) =>
      assert (taken (Row.id low) (TaskQueue.pdf_tasks q0)) as H0;
      [|revert H0; generalize q0] end.
    - cbn [TaskQueue.pdf_tasks TaskQueue.with_tasks]. split.
      + exists (TaskQueue.set_claimed workerId now low). split; [|reflexivity].
        unfold Sql.update_where. apply in_map_iff. exists low.
        rewrite String.eqb_refl. auto.
      + intros r Hr Hid. unfold Sql.update_where in Hr.
        apply in_map_iff in Hr as (x & <- & Hx).
        destruct (String.eqb_spec (Row.id x) (Row.id low)) as [E|E];
          [simpl; discriminate|contradiction].
    - clear -Hops. induction Hops as [|o ops Ho _ IH]; simpl; intros q0 H0;
        [exact H0|].
      apply IH. now apply run_taken. }
  unfold TaskQueue.claimNextPdf in Hc2.
  destruct (TaskQueue.next_pending _) as [low2|] eqn:En2; [|discriminate].
  injection Hc2 as <- _.
  apply next_pending_Some in En2 as (Hin2 & Hst2 & _).
  cbn [PdfTaskRecord.id TaskQueue.claimed_record].
  intros E. exact (Hnot low2 Hin2 E Hst2).
Qed.

Lemma no_double_claim_witness :
  TaskQueue.claimNextPdf "worker-1" 1300 three_pending
  = (Some claimed_a, one_claimed)
  /\ Forall keeps_claims [Reach.MarkComplete 1400 "g_1_a.pdf_100"]
  /\ TaskQueue.claimNextPdf "worker-2" 1500
       (Reach.run_all [Reach.MarkComplete 1400 "g_1_a.pdf_100"] one_claimed)
     = (Some claimed_b,
        snd (TaskQueue.claimNextPdf "worker-2" 1500
               (Reach.run_all [Reach.MarkComplete 1400 "g_1_a.pdf_100"]
                  one_claimed)))
  /\ PdfTaskRecord.id claimed_b <> PdfTaskRecord.id claimed_a.
Proof.
  assert (TaskQueue.claimNextPdf "worker-1" 1300 three_pending
          = (Some claimed_a, one_claimed)) as H1 by reflexivity.
  assert (Forall keeps_claims [Reach.MarkComplete 1400 "g_1_a.pdf_100"]) as H2
    by (repeat constructor).
  assert (TaskQueue.claimNextPdf "worker-2" 1500
            (Reach.run_all [Reach.MarkComplete 1400 "g_1_a.pdf_100"] one_claimed)
          = (Some claimed_b,
             snd (TaskQueue.claimNextPdf "worker-2" 1500
                    (Reach.run_all [Reach.MarkComplete 1400 "g_1_a.pdf_100"]
                       one_claimed)))) as H3 by reflexivity.
  split; [exact H1|]. split; [exact H2|]. split; [exact H3|].
  exact (no_double_claim "worker-1" "worker-2" 1300 1500 _ three_pending
           one_claimed _ claimed_a claimed_b H1 H2 H3).
Defined.

(** ** Failed tasks *)

Section OrderBy.

Lemma order_insert_perm r s : Permutation (r :: s) (Sql.order_insert r s).
Proof.
  induction s as [|x s IH]; simpl; [reflexivity|].
  destruct (Sql.order_le r x); [reflexivity|].
  rewrite perm_swap. now constructor.
Qed.

Lemma order_by_perm rows : Permutation rows (Sql.order_by_page_name rows).
Proof.
  unfold Sql.order_by_page_name.
  induction rows as [|r rows IH]; simpl; [constructor|].
  rewrite <- order_insert_perm. now constructor.
Qed.

Lemma order_insert_sorted r s :
  Sorted lowest_first s -> Sorted lowest_first (Sql.order_insert r s).
Proof.
  induction 1 as [|x s Hs IH Hhd]; simpl; [repeat constructor|].
  destruct (Sql.order_le r x) eqn:E.
  - constructor; [now constructor|]. constructor. now apply order_le_spec.
  - constructor; [exact IH|].
    apply order_le_total, order_le_spec in E.
    destruct s as [|y s]; simpl; [now constructor|].
    destruct (Sql.order_le r y); constructor; [exact E|].
    now inversion Hhd.
Qed.

Lemma order_by_sorted rows :
  StronglySorted lowest_first (Sql.order_by_page_name rows).
Proof.
  apply Sorted_StronglySorted.
  - intros a b c Hab%order_le_spec Hbc%order_le_spec. apply order_le_spec.
    eapply order_le_trans; eassumption.
  - unfold Sql.order_by_page_name.
    induction rows as [|r rows IH]; simpl; [constructor|].
    now apply order_insert_sorted.
Qed.

End OrderBy.

(** X10: getFailedTasks returns exactly the failed rows of the queue's
    search term, each once, converted by rowToTaskRecord and ordered by page
    number then name; their number equals the failed count of getProgress. *)
Theorem getFailedTasks_lists_failed (q : TaskQueue.t) :
  exists rows,
    TaskQueue.getFailedTasks q = List.map TaskQueue.rowToTaskRecord rows
    /\ Permutation rows
         (List.filter (fun r => Row.status r =? 3) (TaskQueue.own_rows q))
    /\ StronglySorted lowest_first rows
    /\ Z.of_nat (length (TaskQueue.getFailedTasks q))
       = QueueProgress.failed (TaskQueue.getProgress q).
Proof.
  exists (Sql.order_by_page_name
            (Sql.select_where (TaskQueue.failed_cond q) (TaskQueue.pdf_tasks q))).
  assert (Sql.select_where (TaskQueue.failed_cond q) (TaskQueue.pdf_tasks q)
          = List.filter (fun r => Row.status r =? 3) (TaskQueue.own_rows q))
    as Hsel.
  { unfold Sql.select_where, TaskQueue.own_rows, TaskQueue.failed_cond,
      Sql.select_where.
    induction (TaskQueue.pdf_tasks q) as [|r tbl IH]; [reflexivity|].
    cbn [List.filter].
    destruct (String.eqb (Row.search_term r) (TaskQueue.searchTerm q));
      cbn [andb List.filter]; [|exact IH].
    destruct (Row.status r =? 3); now rewrite IH. }
  split; [reflexivity|]. split; [|split].
  - rewrite <- Hsel. symmetry. apply order_by_perm.
  - apply order_by_sorted.
  - unfold TaskQueue.getFailedTasks. rewrite length_map.
    rewrite <- (Permutation_length (order_by_perm _)), Hsel.
    rewrite getProgress_tallies. cbn [QueueProgress.failed]. clear Hsel.
    induction (TaskQueue.own_rows q) as [|r rows IH]; [reflexivity|].
    cbn [List.filter]. rewrite tally_cons. unfold Sql.case_status at 1.
    destruct (Row.status r =? 3); cbn [length];
      rewrite ?Nat2Z.inj_succ, IH; lia.
Qed.



(** * Further properties of the worker *)

Section Regex.

Lemma starts_with_ci_iff pat s :
  Js.starts_with_ci pat s = true
  <-> exists m rest, s = m +:+ rest /\ upper m = upper pat.
Proof.
  revert s. induction pat as [|p pat IH]; intros s; simpl.
  - split; [|reflexivity]. intros _. exists "", s. split; reflexivity.
  - destruct s as [|c s].
    + split; [discriminate|]. intros (m & rest & Hs & Hm).
      destruct m; discriminate.
    + rewrite andb_true_iff, IH. split.
      * intros (Hc & m & rest & -> & Hm).
        exists (String c m), rest. split; [reflexivity|]. simpl.
        apply Ascii.eqb_eq in Hc. congruence.
      * intros (m & rest & Hs & Hm).
        destruct m as [|c' m]; [discriminate|].
        simpl in Hs, Hm. injection Hs as -> ->. injection Hm as Hc Hm.
        split; [apply Ascii.eqb_eq; congruence|].
        exists m, rest. split; [reflexivity|exact Hm].
Qed.

Lemma test_ci_iff pat s :
  Js.test_ci pat s = true
  <-> exists before m after, s = before +:+ m +:+ after /\ upper m = upper pat.
Proof.
  induction s as [|c s IH].
  - cbn [Js.test_ci]. rewrite orb_false_r, starts_with_ci_iff. split.
    + intros (m & rest & Hs & Hm). exists "", m, rest. split; assumption.
    + intros (before & m & after & Hs & Hm).
      destruct before as [|c before]; [|discriminate Hs].
      exists m, after. split; assumption.
  - cbn [Js.test_ci]. rewrite orb_true_iff, starts_with_ci_iff, IH. split.
    + intros [(m & rest & Hs & Hm)|(before & m & after & -> & Hm)].
      * exists "", m, rest. split; assumption.
      * exists (String c before), m, after. split; [reflexivity|assumption].
    + intros (before & m & after & Hs & Hm).
      destruct before as [|c' before].
      * left. exists m, after. split; assumption.
      * right. injection Hs as -> ->.
        exists before, m, after. split; [reflexivity|assumption].
Qed.

End Regex.

(** X11: isDatabaseLocked is true exactly for a thrown value that is an
    Error whose message contains, anywhere and in any mix of upper and lower
    case, the phrase database is locked. *)
Theorem isDatabaseLocked_iff (error : Js.Thrown) :
  Worker.isDatabaseLocked error = true
  <-> Js.instanceofError error = true
      /\ exists before phrase after,
           Js.message error = Some (before +:+ phrase +:+ after)
           /\ upper phrase = "DATABASE IS LOCKED".
Proof.
  unfold Worker.isDatabaseLocked. rewrite andb_true_iff.
  destruct (Js.message error) as [m|].
  - rewrite test_ci_iff. split.
    + intros (He & before & phrase & after & -> & Hp). split; [exact He|].
      exists before, phrase, after. split; [reflexivity|exact Hp].
    + intros (He & before & phrase & after & [= ->] & Hp). split; [exact He|].
      exists before, phrase, after. split; [reflexivity|exact Hp].
  - split; [intros [_ H]; discriminate|].
    intros (_ & before & phrase & after & H & _). discriminate.
Qed.


Section ResultCounts.
Import Worker.

(** A retried mutation touches only the queue, the clock, the lock schedule
    and the sleep log. *)
Lemma retry_frame {A} (f : Z -> TaskQueue.t -> A * TaskQueue.t)
    fuel attempt w o w1 :
  withDbLockRetry_loop fuel (mutation f) attempt w = (o, w1) ->
  downloads w1 = downloads w /\ result w1 = result w
  /\ consecutiveErrors w1 = consecutiveErrors w.
Proof.
  revert attempt w. induction fuel as [|fuel IH]; intros attempt w H.
  - injection H as <- <-. auto.
  - destruct (locked w) as [|[|] l] eqn:El.
    + rewrite retry_step_free in H by (rewrite El; reflexivity).
      injection H as <- <-. auto.
    + rewrite (retry_step_locked f fuel attempt w l El) in H.
      destruct (attempt + 1 >=? 5).
      * injection H as <- <-. auto.
      * apply IH in H. exact H.
    + rewrite retry_step_free in H by (rewrite El; reflexivity).
      injection H as <- <-. auto.
Qed.

Lemma retry_finishes {A} (f : Z -> TaskQueue.t -> A * TaskQueue.t) w :
  fst (withDbLockRetry (mutation f) w) <> Unfinished.
Proof.
  unfold withDbLockRetry.
  assert (forall fuel attempt w, attempt < 5 ->
            (Z.to_nat (5 - attempt) <= fuel)%nat ->
            fst (withDbLockRetry_loop fuel (mutation f) attempt w) <> Unfinished)
    as H; [|apply H; simpl; lia].
  clear w. induction fuel as [|fuel IH]; intros attempt w Ha Hf; [lia|].
  destruct (locked w) as [|[|] l] eqn:El.
  - rewrite retry_step_free by (rewrite El; reflexivity). discriminate.
  - rewrite (retry_step_locked f fuel attempt w l El).
    destruct (Z.geb_spec (attempt + 1) 5); [discriminate|].
    apply IH; lia.
  - rewrite retry_step_free by (rewrite El; reflexivity). discriminate.
Qed.

(** What one pass does to the counts, however it ends. *)
Lemma iteration_counts workerId w o w' :
  settled (result w) ->
  iteration workerId w = (o, w') ->
  match o with
  | Returns _ => settled (result w')
  | Throws _ =>
      settled (result w')
      \/ settled (mkResult (Worker.workerId (result w'))
                    (pdfsProcessed (result w') - 1)
                    (pdfsSucceeded (result w')) (pdfsFailed (result w'))
                    (errors (result w')))
  | Unfinished => False
  end
  /\ Worker.workerId (result w') = Worker.workerId (result w).
Proof.
  intros Hs H. unfold iteration, bind in H.
  destruct (withDbLockRetry (claimNextPdf workerId) w) as [o1 w1] eqn:Hclaim.
  pose proof (retry_finishes
                (fun now q => TaskQueue.claimNextPdf workerId now q) w) as Hfin.
  change (withDbLockRetry (mutation _) w)
    with (withDbLockRetry (claimNextPdf workerId) w) in Hfin.
  rewrite Hclaim in Hfin. simpl in Hfin.
  unfold withDbLockRetry in Hclaim.
  apply retry_frame in Hclaim as (_ & Hr1 & _).
  destruct o1 as [[pdf|]|e|]; [| | |contradiction].
  - unfold modify in H.
    destruct (download_returns pdf (set_result (count_processed (result w1)) w1))
      as (success & lastError & w2 & Hd & _ & _ & Hr2 & _).
    rewrite Hd in H. cbn [result set_result] in Hr2.
    destruct success.
    + destruct (withDbLockRetry (markComplete (PdfTaskRecord.id pdf)) w2)
        as [o3 w3] eqn:Hm.
      pose proof (retry_finishes
                    (fun now q => (tt, TaskQueue.markComplete now
                                         (PdfTaskRecord.id pdf) q)) w2) as Hfin3.
      change (withDbLockRetry (mutation _) w2)
        with (withDbLockRetry (markComplete (PdfTaskRecord.id pdf)) w2) in Hfin3.
      rewrite Hm in Hfin3. simpl in Hfin3.
      unfold withDbLockRetry in Hm. apply retry_frame in Hm as (_ & Hr3 & _).
      destruct Hs as (Hs0 & Hf0 & Hp & He).
      destruct o3 as [[]|e|]; [| |contradiction].
      * unfold ret in H. injection H as <- <-.
        cbn [result set_result]. rewrite Hr3, Hr2, Hr1.
        unfold settled. simpl. repeat split; lia.
      * injection H as <- <-. rewrite Hr3, Hr2, Hr1. split; [|reflexivity].
        right. unfold settled. simpl. repeat split; lia.
    + destruct (withDbLockRetry
                  (markFailed (PdfTaskRecord.id pdf) lastError) w2)
        as [o3 w3] eqn:Hm.
      pose proof (retry_finishes
                    (fun now q => (tt, TaskQueue.markFailed now
                                         (PdfTaskRecord.id pdf) lastError q))
                    w2) as Hfin3.
      change (withDbLockRetry (mutation _) w2)
        with (withDbLockRetry (markFailed (PdfTaskRecord.id pdf) lastError) w2)
        in Hfin3.
      rewrite Hm in Hfin3. simpl in Hfin3.
      unfold withDbLockRetry in Hm. apply retry_frame in Hm as (_ & Hr3 & _).
      destruct Hs as (Hs0 & Hf0 & Hp & He).
      destruct o3 as [[]|e|]; [| |contradiction].
      * cbn [consecutiveErrors set_result set_consecutiveErrors] in H.
        assert (o = Returns Break \/ o = Returns Continue) as Ho
          by (destruct (_ >=? 5); injection H as <- _; auto).
        assert (w' = set_consecutiveErrors (consecutiveErrors w3 + 1)
                       (set_result
                          (count_failed
                             (PdfTaskRecord.pdfName pdf +:+ ": " +:+ lastError)
                             (result w3)) w3)) as ->
          by (destruct (_ >=? 5); injection H as _ <-; reflexivity).
        cbn [result set_result set_consecutiveErrors].
        rewrite Hr3, Hr2, Hr1.
        assert (settled (count_failed
                           (PdfTaskRecord.pdfName pdf +:+ ": " +:+ lastError)
                           (count_processed (result w)))) as Hset.
        { unfold settled. simpl. rewrite length_app, Nat2Z.inj_add. simpl.
          repeat split; lia. }
        destruct Ho as [-> | ->]; split; auto.
      * injection H as <- <-. rewrite Hr3, Hr2, Hr1. split; [|reflexivity].
        right. unfold settled. simpl. repeat split; lia.
  - unfold getMetadata, getProgress in H.
    destruct (is_string _ "true").
    + unfold ret in H. injection H as <- <-. rewrite Hr1. auto.
    + unfold sleep, ret in H. injection H as <- <-. simpl. rewrite Hr1. auto.
  - injection H as <- <-. rewrite Hr1. auto.
Qed.

End ResultCounts.


Section LoopCounts.
Import Worker.

Lemma loop_counts fuel workerId w o w' :
  settled (result w) ->
  worker_loop fuel workerId w = (o, w') ->
  match o with
  | Returns _ => settled (result w')
  | Throws _ =>
      settled (result w')
      \/ settled (mkResult (Worker.workerId (result w'))
                    (pdfsProcessed (result w') - 1)
                    (pdfsSucceeded (result w')) (pdfsFailed (result w'))
                    (errors (result w')))
  | Unfinished => True
  end
  /\ Worker.workerId (result w') = Worker.workerId (result w).
Proof.
  revert w. induction fuel as [|fuel IH]; intros w Hs H.
  - injection H as <- <-. auto.
  - cbn [worker_loop] in H. unfold bind in H.
    destruct (iteration workerId w) as [o1 w1] eqn:Hit.
    destruct (iteration_counts workerId w o1 w1 Hs Hit) as (H1 & Hid).
    destruct o1 as [[|]|e|]; [| | |contradiction].
    + unfold ret in H. injection H as <- <-. auto.
    + destruct (IH w1 H1 H) as (H2 & Hid2). split; [exact H2|congruence].
    + injection H as <- <-. auto.
Qed.

End LoopCounts.

(** X12: Whenever runWorker returns, its result carries the worker's id, the
    succeeded and failed counts are non-negative, pdfsProcessed exceeds
    succeeded plus failed by at most one, the error list has one entry per
    failed task plus at most one more (present when a task was counted as
    processed but neither outcome was recorded), and the process exit code
    is 0 exactly when pdfsFailed is 0. *)
Theorem runWorker_counts
    (fuel : nat) (workerId : string) (w w' : Worker.World)
    (r : Worker.WorkerResult) :
  Worker.runWorker fuel workerId w = (Worker.Returns r, w') ->
  Worker.workerId r = workerId
  /\ 0 <= Worker.pdfsSucceeded r /\ 0 <= Worker.pdfsFailed r
  /\ Worker.pdfsSucceeded r + Worker.pdfsFailed r <= Worker.pdfsProcessed r
     <= Worker.pdfsSucceeded r + Worker.pdfsFailed r + 1
  /\ Worker.pdfsFailed r <= Z.of_nat (length (Worker.errors r))
     <= Worker.pdfsFailed r + 1
  /\ (Worker.pdfsProcessed r = Worker.pdfsSucceeded r + Worker.pdfsFailed r + 1 ->
      Z.of_nat (length (Worker.errors r)) = Worker.pdfsFailed r + 1)
  /\ (Worker.exit_code r = 0 <-> Worker.pdfsFailed r = 0).
Proof.
  unfold Worker.runWorker. intros H.
  set (w0 := Worker.set_consecutiveErrors 0 _) in H.
  assert (settled (Worker.result w0)) as H0
    by (unfold settled; simpl; repeat split; lia).
  destruct (Worker.worker_loop fuel workerId w0) as [o w1] eqn:Hloop.
  destruct (loop_counts fuel workerId w0 o w1 H0 Hloop) as (Hc & Hid).
  assert (forall x, 0 <= Worker.pdfsFailed x ->
            (Worker.exit_code x = 0 <-> Worker.pdfsFailed x = 0)) as Hexit.
  { intros x Hx. unfold Worker.exit_code.
    destruct (Z.gtb_spec (Worker.pdfsFailed x) 0); split; intros; lia. }
  destruct o as [[]|e|]; [| |discriminate].
  - injection H as <- <-. destruct Hc as (Hs & Hf & Hp & He).
    repeat split; try lia; try exact Hid; apply Hexit; exact Hf.
  - injection H as <- <-.
    cbn [Worker.result Worker.set_result Worker.push_error Worker.workerId
         Worker.pdfsProcessed Worker.pdfsSucceeded Worker.pdfsFailed
         Worker.errors].
    rewrite length_app. cbn [length].
    destruct Hc as [(Hs & Hf & Hp & He)|(Hs & Hf & Hp & He)];
      cbn [Worker.pdfsProcessed Worker.pdfsSucceeded Worker.pdfsFailed
           Worker.errors] in *;
      (split; [exact Hid|]);
      (split; [lia|]); (split; [lia|]); (split; [lia|]); (split; [lia|]);
      (split; [lia|]);
      exact (Hexit (Worker.push_error (Worker.catch_entry e) (Worker.result w1))
               Hf).
Qed.

Lemma runWorker_counts_witness :
  Worker.runWorker 4 "worker-1" lone_worker
  = (Worker.Returns (Worker.mkResult "worker-1" 3 3 0 []),
     snd (Worker.runWorker 4 "worker-1" lone_worker))
  /\ Worker.workerId (Worker.mkResult "worker-1" 3 3 0 []) = "worker-1".
Proof.
  assert (Worker.runWorker 4 "worker-1" lone_worker
          = (Worker.Returns (Worker.mkResult "worker-1" 3 3 0 []),
             snd (Worker.runWorker 4 "worker-1" lone_worker))) as H
    by (vm_compute; reflexivity).
  split; [exact H|].
  exact (proj1 (runWorker_counts 4 "worker-1" lone_worker _ _ H)).
Defined.

(** X13: If the database is locked at each of the worker's first five calls,
    runWorker stops without processing anything: it returns zero counts with
    the single error entry Queue busy: database is locked, leaves the queue
    untouched, has slept 300, 600, 900 and 1200 ms between the attempts, and
    the exit code is still 0. *)
Theorem runWorker_stops_when_locked
    (fuel : nat) (workerId : string) (w : Worker.World) (rest : list bool) :
  Worker.locked w = [true; true; true; true; true] ++ rest ->
  exists w',
    Worker.runWorker (S fuel) workerId w
    = (Worker.Returns
         (Worker.mkResult workerId 0 0 0 ["Queue busy: database is locked"]),
       w')
    /\ Worker.queue w' = Worker.queue w
    /\ Worker.slept w' = [1200; 900; 600; 300] ++ Worker.slept w
    /\ Worker.locked w' = rest
    /\ Worker.exit_code
         (Worker.mkResult workerId 0 0 0 ["Queue busy: database is locked"]) = 0.
Proof.
  intros Hl. unfold Worker.runWorker.
  cbn [Worker.worker_loop]. unfold Worker.iteration at 1, Worker.bind at 1 2.
  unfold Worker.withDbLockRetry at 1, Worker.claimNextPdf.
  erewrite retry_step_locked by (cbn; exact Hl). cbn [Z.add Z.geb Z.compare].
  change (0 + 1 >=? 5) with false. cbv iota.
  do 3 (erewrite retry_step_locked by (cbn; reflexivity);
        match goal with |- context [?a >=? 5] =>
          let b := eval vm_compute in (a >=? 5) in change (a >=? 5) with b end;
        cbv iota).
  erewrite retry_step_locked by (cbn; reflexivity).
  match goal with |- context [?a >=? 5] =>
    let b := eval vm_compute in (a >=? 5) in change (a >=? 5) with b end.
  cbv iota.
  eexists. split; [reflexivity|]. cbn. repeat split.
Qed.

Lemma runWorker_stops_when_locked_witness :
  Worker.locked always_locked = [true; true; true; true; true] ++ []
  /\ exists w',
       Worker.runWorker 1 "worker-1" always_locked
       = (Worker.Returns
            (Worker.mkResult "worker-1" 0 0 0
               ["Queue busy: database is locked"]), w')
       /\ Worker.queue w' = Worker.queue always_locked.
Proof.
  assert (Worker.locked always_locked = [true; true; true; true; true] ++ [])
    as H by reflexivity.
  split; [exact H|].
  destruct (runWorker_stops_when_locked 0 "worker-1" always_locked [] H)
    as (w' & Hrun & Hq & _).
  exists w'. split; [exact Hrun|exact Hq].
Defined.


Section Drain.
Import Worker.

(** A pass with a pending row, a free database and a download that
    succeeds. *)
Lemma iteration_completes workerId w low :
  locked w = [] -> downloads w = [] ->
  TaskQueue.next_pending (TaskQueue.pdf_tasks (queue w)) = Some low ->
  iteration workerId w
  = (Returns Continue,
     mkWorld
       (TaskQueue.markComplete (clock w) (Row.id low)
          (snd (TaskQueue.claimNextPdf workerId (clock w) (queue w))))
       (clock w) [] [] (slept w)
       (count_succeeded (count_processed (result w))) 0).
Proof.
  intros Hl Hd En.
  unfold iteration, bind, withDbLockRetry, Worker.claimNextPdf.
  rewrite retry_step_free by (rewrite Hl; reflexivity).
  unfold TaskQueue.claimNextPdf. rewrite En. cbn [fst snd].
  unfold modify, download. cbn [download_loop].
  change (1 <=? 3) with true. cbv iota.
  unfold downloadPdf.
  cbn [downloads set_result set_queue set_locked]. rewrite Hd.
  unfold Worker.markComplete.
  rewrite retry_step_free by (cbn; rewrite Hl; reflexivity).
  cbn. rewrite Hl. reflexivity.
Qed.

(** A pass with nothing pending, once ingestion is flagged complete. *)
Lemma iteration_stops workerId w :
  locked w = [] ->
  TaskQueue.next_pending (TaskQueue.pdf_tasks (queue w)) = None ->
  TaskQueue.getMetadata "json_fetch_complete" (queue w) = Some "true" ->
  exists w', iteration workerId w = (Returns Break, w')
             /\ queue w' = queue w /\ result w' = result w
             /\ slept w' = slept w /\ clock w' = clock w.
Proof.
  intros Hl En Hf.
  unfold iteration, bind, withDbLockRetry, Worker.claimNextPdf.
  rewrite retry_step_free by (rewrite Hl; reflexivity).
  unfold TaskQueue.claimNextPdf. rewrite En. cbn [fst snd].
  unfold getMetadata, getProgress. cbn [queue set_queue]. rewrite Hf.
  cbn. eexists. split; [reflexivity|]. cbn. auto.
Qed.

Lemma pending_rows_none tbl :
  pending_rows tbl = [] <-> TaskQueue.next_pending tbl = None.
Proof.
  rewrite next_pending_None. unfold pending_rows, Pending. split.
  - intros H r Hr E.
    assert (In r (List.filter (fun r => Row.status r =? 0) tbl)) as Hin
      by (apply filter_In; split; [exact Hr|now apply Z.eqb_eq]).
    rewrite H in Hin. exact Hin.
  - intros H. destruct (List.filter _ tbl) as [|r rows] eqn:E; [reflexivity|].
    assert (In r (List.filter (fun r => Row.status r =? 0) tbl)) as Hin
      by (rewrite E; left; reflexivity).
    apply filter_In in Hin as [Hin Hs]. apply Z.eqb_eq in Hs.
    exfalso. exact (H r Hin Hs).
Qed.

(** Claiming and completing the next pending row rewrites that row alone. *)
Lemma claim_complete_split workerId now later tbl low :
  List.NoDup (List.map Row.id tbl) ->
  TaskQueue.next_pending tbl = Some low ->
  exists before after,
    tbl = before ++ low :: after
    /\ Sql.update_where (fun r => String.eqb (Row.id r) (Row.id low))
         (TaskQueue.set_complete later)
         (Sql.update_where (fun r => String.eqb (Row.id r) (Row.id low))
            (TaskQueue.set_claimed workerId now) tbl)
       = before
         ++ TaskQueue.set_complete later (TaskQueue.set_claimed workerId now low)
         :: after.
Proof.
  intros Hnd En. apply next_pending_Some in En as (Hin & _ & _).
  destruct (update_where_id_split (Row.id low)
              (TaskQueue.set_claimed workerId now) tbl low Hnd Hin eq_refl)
    as (before & after & Htbl & Hup).
  exists before, after. split; [exact Htbl|]. rewrite Hup.
  assert (List.NoDup
            (List.map Row.id
               (before ++ TaskQueue.set_claimed workerId now low :: after)))
    as Hnd1.
  { rewrite Htbl in Hnd. rewrite map_app in *. exact Hnd. }
  destruct (update_where_id_split (Row.id low) (TaskQueue.set_complete later)
              _ (TaskQueue.set_claimed workerId now low) Hnd1
              (in_elt _ _ _) eq_refl) as (b2 & a2 & Heq & Hup2).
  rewrite Hup2. clear Hup2 Hup.
  (* the two splittings coincide, ids being unique *)
  assert (b2 = before /\ a2 = after) as [-> ->]; [|reflexivity].
  clear -Heq Hnd1. revert b2 Heq.
  induction before as [|x before IH]; intros b2 Heq.
  - destruct b2 as [|y b2]; [injection Heq as <-; auto|].
    exfalso. simpl in Heq. injection Heq as <- Heq.
    simpl in Hnd1. apply List.NoDup_cons_iff in Hnd1 as [Hx _].
    apply Hx. rewrite Heq, map_app. apply in_or_app. right. left. reflexivity.
  - destruct b2 as [|y b2].
    + exfalso. simpl in Heq. injection Heq as -> Heq.
      simpl in Hnd1. apply List.NoDup_cons_iff in Hnd1 as [Hx _].
      apply Hx. rewrite map_app. apply in_or_app. right. left. reflexivity.
    + simpl in Heq. injection Heq as <- Heq.
      simpl in Hnd1. apply List.NoDup_cons_iff in Hnd1 as [_ Hnd1].
      destruct (IH Hnd1 b2 Heq) as [-> ->]. auto.
Qed.

End Drain.


Section DrainLoop.
Import Worker.

Lemma drained_row_settled workerId r :
  Row.status r <> 0 -> forall r', drained_row workerId r r' -> r' = r.
Proof.
  intros H r'. unfold drained_row.
  destruct (Z.eqb_spec (Row.status r) 0); [contradiction|auto].
Qed.

Lemma drained_refl workerId tbl :
  pending_rows tbl = [] -> Forall2 (drained_row workerId) tbl tbl.
Proof.
  unfold pending_rows. induction tbl as [|r tbl IH]; simpl; [constructor|].
  destruct (Row.status r =? 0) eqn:E; [discriminate|].
  intros H. constructor; [|auto]. unfold drained_row. now rewrite E.
Qed.

Lemma pending_rows_app l k : pending_rows (l ++ k) = pending_rows l ++ pending_rows k.
Proof. apply filter_app. Qed.

Lemma loop_drains workerId n :
  forall fuel w,
    locked w = [] -> downloads w = [] ->
    TaskQueue.getMetadata "json_fetch_complete" (queue w) = Some "true" ->
    List.NoDup (List.map Row.id (TaskQueue.pdf_tasks (queue w))) ->
    length (pending_rows (TaskQueue.pdf_tasks (queue w))) = n ->
    (n < fuel)%nat ->
    exists w',
      worker_loop fuel workerId w = (Returns tt, w')
      /\ Forall2 (drained_row workerId) (TaskQueue.pdf_tasks (queue w))
           (TaskQueue.pdf_tasks (queue w'))
      /\ result w'
         = mkResult (Worker.workerId (result w))
             (pdfsProcessed (result w) + Z.of_nat n)
             (pdfsSucceeded (result w) + Z.of_nat n)
             (pdfsFailed (result w)) (errors (result w))
      /\ clock w' = clock w /\ slept w' = slept w.
Proof.
  induction n as [|n IH]; intros fuel w Hl Hd Hf Hnd Hn Hfuel.
  - destruct fuel as [|fuel]; [lia|].
    apply length_zero_iff_nil in Hn. apply pending_rows_none in Hn as En.
    destruct (iteration_stops workerId w Hl En Hf)
      as (w' & Hit & Hq & Hr & Hs & Hc).
    exists w'. cbn [worker_loop]. unfold bind. rewrite Hit. unfold ret.
    split; [reflexivity|]. rewrite Hq, Hr, Hs, Hc.
    repeat split; [now apply drained_refl|].
    destruct (result w); simpl; f_equal; lia.
  - destruct fuel as [|fuel]; [lia|].
    destruct (TaskQueue.next_pending (TaskQueue.pdf_tasks (queue w)))
      as [low|] eqn:En;
      [|apply pending_rows_none in En; rewrite En in Hn; discriminate].
    pose proof (iteration_completes workerId w low Hl Hd En) as Hit.
    destruct (claim_complete_split workerId (clock w) (clock w) _ low Hnd En)
      as (before & after & Htbl & Hup).
    apply next_pending_Some in En as Hlow. destruct Hlow as (_ & Hst & _).
    set (low2 := TaskQueue.set_complete (clock w)
                   (TaskQueue.set_claimed workerId (clock w) low)) in *.
    set (w1 := mkWorld _ _ _ _ _ _ _) in Hit.
    assert (TaskQueue.pdf_tasks (queue w1) = before ++ low2 :: after) as Htbl1.
    { unfold w1. cbn [queue]. unfold TaskQueue.claimNextPdf. rewrite En.
      cbn [snd TaskQueue.markComplete TaskQueue.pdf_tasks TaskQueue.with_tasks].
      exact Hup. }
    destruct (IH fuel w1) as (w' & Hloop & Hrows & Hres & Hclk & Hsl).
    + reflexivity.
    + reflexivity.
    + unfold w1. cbn [queue]. unfold TaskQueue.claimNextPdf. rewrite En.
      exact Hf.
    + rewrite Htbl1. rewrite Htbl in Hnd. rewrite map_app in *. exact Hnd.
    + rewrite Htbl1. rewrite Htbl in Hn.
      rewrite pending_rows_app in *. unfold pending_rows in *.
      cbn [List.filter] in *. unfold Pending in Hst. rewrite Hst in Hn.
      cbn in Hn. rewrite length_app in *. cbn [length] in Hn.
      change (Row.status low2 =? 0) with false. cbn iota. lia.
    + lia.
    + exists w'. cbn [worker_loop]. unfold bind. rewrite Hit.
      split; [exact Hloop|]. split; [|split; [|split]].
      * rewrite Htbl. rewrite Htbl1 in Hrows.
        apply Forall2_app_inv_l in Hrows as (bF & rest & Hb & Hrest & ->).
        inversion Hrest as [|? rF ? aF Hlow Ha]; subst.
        apply Forall2_app; [|constructor; [|exact Ha]].
        -- clear -Hb. induction Hb; constructor; auto.
        -- apply (drained_row_settled workerId low2) in Hlow;
             [|simpl; discriminate].
           subst rF. unfold drained_row. unfold Pending in Hst.
           rewrite Hst. cbn. repeat split.
      * rewrite Hres. unfold w1. cbn. f_equal; lia.
      * rewrite Hclk. reflexivity.
      * rewrite Hsl. reflexivity.
Qed.

End DrainLoop.

(** X14: A worker alone on a queue with unique task ids whose ingestion is
    flagged complete, with the database never locked and every download
    succeeding, returns after completing every pending task: processed and
    succeeded equal the number of tasks that were pending, failed is 0, no
    error is recorded, every formerly pending row is completed under this
    worker's id with no error and with its id, search term, page, name,
    address, size, retry count and creation time kept, every other row is
    unchanged, and the worker never sleeps. *)
Theorem runWorker_drains_pending
    (fuel : nat) (workerId : string) (w : Worker.World) :
  Worker.locked w = [] -> Worker.downloads w = [] ->
  TaskQueue.getMetadata "json_fetch_complete" (Worker.queue w) = Some "true" ->
  List.NoDup (List.map Row.id (TaskQueue.pdf_tasks (Worker.queue w))) ->
  (length (pending_rows (TaskQueue.pdf_tasks (Worker.queue w))) < fuel)%nat ->
  let n := Z.of_nat (length (pending_rows (TaskQueue.pdf_tasks (Worker.queue w)))) in
  exists w',
    Worker.runWorker fuel workerId w
    = (Worker.Returns (Worker.mkResult workerId n n 0 []), w')
    /\ Forall2 (drained_row workerId) (TaskQueue.pdf_tasks (Worker.queue w))
         (TaskQueue.pdf_tasks (Worker.queue w'))
    /\ pending_rows (TaskQueue.pdf_tasks (Worker.queue w')) = []
    /\ Worker.slept w' = Worker.slept w
    /\ Worker.exit_code (Worker.mkResult workerId n n 0 []) = 0.
Proof.
  intros Hl Hd Hf Hnd Hfuel n. unfold Worker.runWorker.
  set (w0 := Worker.set_consecutiveErrors 0 _).
  destruct (loop_drains workerId _ fuel w0 Hl Hd Hf Hnd eq_refl Hfuel)
    as (w' & Hloop & Hrows & Hres & _ & Hsl).
  rewrite Hloop. exists w'. rewrite Hres. cbn.
  split; [reflexivity|]. split; [exact Hrows|]. split; [|split; [exact Hsl|]].
  - clear -Hrows. cbn [Worker.queue Worker.set_consecutiveErrors
                       Worker.set_result] in Hrows.
    induction Hrows as [|r r' tbl tbl' Hr _ IH]; [reflexivity|].
    unfold pending_rows in *. cbn [List.filter]. rewrite IH.
    unfold drained_row in Hr.
    destruct (Z.eqb_spec (Row.status r) 0) as [E|E].
    + destruct Hr as (-> & _). reflexivity.
    + subst r'. apply Z.eqb_neq in E. now rewrite E.
  - reflexivity.
Qed.

Lemma runWorker_drains_pending_witness :
  Worker.locked lone_worker = []
  /\ Worker.downloads lone_worker = []
  /\ TaskQueue.getMetadata "json_fetch_complete" (Worker.queue lone_worker)
     = Some "true"
  /\ List.NoDup (List.map Row.id (TaskQueue.pdf_tasks (Worker.queue lone_worker)))
  /\ (length (pending_rows (TaskQueue.pdf_tasks (Worker.queue lone_worker)))
      < 4)%nat
  /\ exists w',
       Worker.runWorker 4 "worker-1" lone_worker
       = (Worker.Returns (Worker.mkResult "worker-1" 3 3 0 []), w')
       /\ pending_rows (TaskQueue.pdf_tasks (Worker.queue w')) = [].
Proof.
  assert (Worker.locked lone_worker = []) as H1 by reflexivity.
  assert (Worker.downloads lone_worker = []) as H2 by reflexivity.
  assert (TaskQueue.getMetadata "json_fetch_complete" (Worker.queue lone_worker)
          = Some "true") as H3 by reflexivity.
  assert (List.NoDup
            (List.map Row.id (TaskQueue.pdf_tasks (Worker.queue lone_worker))))
    as H4
    by (apply (reachable_unique_rows "g"
                 [Reach.InsertPdfs 100 _;
                  Reach.SetMetadata "json_fetch_complete" "true"])).
  assert (length (pending_rows (TaskQueue.pdf_tasks (Worker.queue lone_worker)))
          < 4)%nat as H5 by (vm_compute; lia).
  split; [exact H1|]. split; [exact H2|]. split; [exact H3|].
  split; [exact H4|]. split; [exact H5|].
  destruct (runWorker_drains_pending 4 "worker-1" lone_worker H1 H2 H3 H4 H5)
    as (w' & Hrun & _ & Hnone & _).
  exists w'. split; [exact Hrun|exact Hnone].
Defined.



(** * Further properties of the worker pool *)

Section PoolMore.
Import WorkerPool.

Lemma deliver_workers events p :
  workers (deliver events p) = workers p ∖ event_ids events.
Proof.
  unfold deliver, event_ids. revert p.
  induction events as [|e events IH]; intros p; simpl.
  - set_solver.
  - rewrite IH. destruct e; simpl; set_solver.
Qed.

Lemma event_ids_app l k : event_ids (l ++ k) = event_ids l ∪ event_ids k.
Proof. unfold event_ids. rewrite map_app. set_solver. Qed.

Lemma handle_disjoint e p :
  workers p ## dom (results p) ->
  workers (handle e p) ## dom (results (handle e p)).
Proof.
  destruct e; simpl; rewrite dom_insert_L; set_solver.
Qed.

Lemma deliver_disjoint events p :
  workers p ## dom (results p) ->
  workers (deliver events p) ## dom (results (deliver events p)).
Proof.
  unfold deliver. revert p.
  induction events as [|e events IH]; simpl; intros p Hp; auto.
  apply IH. now apply handle_disjoint.
Qed.

Lemma deliver_clean events p :
  Forall closes_without_code events ->
  map_Forall (fun _ x => code x = 0) (results p) ->
  map_Forall (fun _ x => code x = 0) (results (deliver events p)).
Proof.
  unfold deliver. intros H. revert p.
  induction H as [|e events He _ IH]; simpl; intros p Hp; auto.
  apply IH. destruct e as [id c s|id]; simpl in *; [|contradiction].
  apply map_Forall_insert_2; auto.
  destruct He as [-> | ->]; reflexivity.
Qed.

Lemma wait_clean ticks p r p' :
  Forall closes_without_code (concat ticks) ->
  map_Forall (fun _ x => code x = 0) (results p) ->
  waitForCompletion ticks p = Some (r, p') ->
  map_Forall (fun _ x => code x = 0) (results p').
Proof.
  revert p. induction ticks as [|events ticks IH]; intros p Hev Hp H; simpl in H.
  - case_bool_decide; [|discriminate]. now injection H as <- <-.
  - case_bool_decide.
    + now injection H as <- <-.
    + simpl in Hev. apply Forall_app in Hev as [Hev1 Hev2].
      apply IH in H; auto using deliver_clean.
Qed.

Lemma no_failed_entries (m : gmap string exit) :
  map_Forall (fun _ x => code x = 0) m ->
  List.filter (fun kv => negb (code (snd kv) =? 0)) (map_to_list m) = [].
Proof.
  intros H. apply map_Forall_to_list in H.
  induction H as [|kv l Hkv _ IH]; [reflexivity|].
  simpl. destruct kv as [k x]. simpl in *. rewrite Hkv. simpl. exact IH.
Qed.

End PoolMore.

(** X15: waitForCompletion returns exactly when every worker still active at
    the call emits a close or error event during the wait; a single active
    worker that never emits one keeps it polling for ever. *)
Theorem waitForCompletion_returns_iff
    (ticks : list (list WorkerPool.event)) (p : WorkerPool.t) :
  is_Some (WorkerPool.waitForCompletion ticks p)
  <-> WorkerPool.workers p ⊆ event_ids (concat ticks).
Proof.
  revert p. induction ticks as [|events ticks IH]; intros p; simpl.
  - case_bool_decide as Hsz.
    + apply size_empty_inv, leibniz_equiv in Hsz. rewrite Hsz.
      split; [set_solver|eauto].
    + split; [intros [x Hx]; discriminate|].
      intros Hsub. exfalso. apply Hsz.
      assert (WorkerPool.workers p = ∅) as -> by (unfold event_ids in Hsub; set_solver).
      apply size_empty.
  - case_bool_decide as Hsz.
    + apply size_empty_inv, leibniz_equiv in Hsz. rewrite Hsz.
      split; [set_solver|eauto].
    + rewrite IH, deliver_workers, event_ids_app.
      split; intros H x Hx.
      * destruct (decide (x ∈ event_ids events)); set_solver.
      * set_solver.
Qed.

(** X16: After start, and after any close and error events of spawned
    workers, the number of active workers plus the number of recorded
    results equals the number of workers spawned; no worker is both active
    and recorded, and the active workers are the spawned ones that have
    emitted no event yet.  For an integer count the number spawned is the
    count clamped to 1..10, which is also workerCount; for a count that is
    NaN, workerCount is NaN and no worker is spawned. *)
Theorem active_plus_recorded
    (count : Js.number) (events : list WorkerPool.event) :
  let p0 := WorkerPool.start (WorkerPool.create count) in
  let p := WorkerPool.deliver events p0 in
  Forall (fun e => WorkerPool.event_worker e ∈ WorkerPool.workers p0) events ->
  (WorkerPool.getActiveWorkerCount p + size (WorkerPool.results p))%nat
  = WorkerPool.getActiveWorkerCount p0
  /\ WorkerPool.workers p ## dom (WorkerPool.results p)
  /\ WorkerPool.workers p = WorkerPool.workers p0 ∖ event_ids events
  /\ WorkerPool.workerCount p = WorkerPool.workerCount p0
  /\ match count with
     | Js.Int n =>
         WorkerPool.workerCount p0 = Js.Int (Z.max 1 (Z.min 10 n))
         /\ Z.of_nat (WorkerPool.getActiveWorkerCount p0)
            = Z.max 1 (Z.min 10 n)
         /\ 1 <= Z.of_nat (WorkerPool.getActiveWorkerCount p0) <= 10
     | Js.NaN =>
         WorkerPool.workerCount p0 = Js.NaN
         /\ WorkerPool.getActiveWorkerCount p0 = 0%nat
     end.
Proof.
  intros p0 p Hev. unfold WorkerPool.getActiveWorkerCount.
  destruct (start_spec count) as (Hc & Hr & Hw). fold p0 in Hc, Hr, Hw.
  assert (accounted (WorkerPool.workers p0) p0) as Hp0.
  { unfold accounted. rewrite Hr, dom_empty_L. set_solver. }
  assert (WorkerPool.workers p0 ## dom (WorkerPool.results p0)) as Hd0.
  { rewrite Hr, dom_empty_L. set_solver. }
  pose proof (deliver_accounted _ _ _ Hev Hp0) as Hacc. fold p in Hacc.
  pose proof (deliver_disjoint events p0 Hd0) as Hdis. fold p in Hdis.
  unfold accounted in Hacc.
  split; [|split; [|split; [|split]]].
  - transitivity (size (WorkerPool.workers p ∪ dom (WorkerPool.results p))).
    + rewrite size_union by exact Hdis. rewrite size_dom. reflexivity.
    + rewrite Hacc. reflexivity.
  - exact Hdis.
  - apply deliver_workers.
  - apply deliver_workerCount.
  - rewrite Hc, Hw, worker_names_size. destruct count as [n|]; simpl.
    + split; [reflexivity|]. split; lia.
    + split; reflexivity.
Qed.

Lemma active_plus_recorded_witness :
  Forall (fun e => WorkerPool.event_worker e ∈ WorkerPool.workers pool_of_two)
    early_events
  /\ (WorkerPool.getActiveWorkerCount (WorkerPool.deliver early_events pool_of_two)
      + size (WorkerPool.results (WorkerPool.deliver early_events pool_of_two)))%nat
     = WorkerPool.getActiveWorkerCount pool_of_two.
Proof.
  assert (Forall (fun e => WorkerPool.event_worker e
                           ∈ WorkerPool.workers pool_of_two) early_events)
    as H.
  { repeat constructor; apply bool_decide_unpack; vm_compute; exact I. }
  split; [exact H|].
  exact (proj1 (active_plus_recorded (Js.Int 2) early_events H)).
Defined.

(** X17: A worker whose close event carries no exit code, as when it is
    ended by a signal, is recorded with code 0: for a started pool, if every
    event comes from a spawned worker and is a close with code 0 or with no
    code, then when waitForCompletion returns it reports failedWorkers = 0
    and as many completed workers as were spawned, which for an integer
    count is totalWorkers. *)
Theorem signal_exit_counts_completed
    (count : Js.number) (before : list WorkerPool.event)
    (ticks : list (list WorkerPool.event))
    (r : WorkerPool.WorkerPoolResult) (p' : WorkerPool.t) :
  let p0 := WorkerPool.start (WorkerPool.create count) in
  Forall (fun e => WorkerPool.event_worker e ∈ WorkerPool.workers p0)
    (before ++ concat ticks) ->
  Forall closes_without_code (before ++ concat ticks) ->
  WorkerPool.waitForCompletion ticks (WorkerPool.deliver before p0) = Some (r, p') ->
  WorkerPool.failedWorkers r = 0
  /\ WorkerPool.completedWorkers r
     = Z.of_nat (WorkerPool.getActiveWorkerCount p0)
  /\ map_Forall (fun _ x => WorkerPool.code x = 0) (WorkerPool.results p')
  /\ match count with
     | Js.Int n =>
         WorkerPool.totalWorkers r = Js.Int (WorkerPool.completedWorkers r)
     | Js.NaN =>
         WorkerPool.totalWorkers r = Js.NaN
         /\ WorkerPool.completedWorkers r = 0
     end.
Proof.
  intros p0 Hev Hclean Hwait.
  destruct (wait_accounts count before ticks r p' Hev Hwait)
    as (Ht & Hdom & Hsize & _ & Hf & Hsum).
  fold p0 in Hdom, Hsize, Hsum.
  apply Forall_app in Hclean as [Hc1 Hc2].
  destruct (start_spec count) as (_ & Hr & _). fold p0 in Hr.
  assert (map_Forall (fun _ x => WorkerPool.code x = 0) (WorkerPool.results p'))
    as Hzero.
  { apply (wait_clean ticks (WorkerPool.deliver before p0) r p'); auto.
    apply deliver_clean; auto. rewrite Hr. apply map_Forall_empty. }
  rewrite (no_failed_entries _ Hzero) in Hf. simpl in Hf.
  unfold WorkerPool.getActiveWorkerCount.
  split; [exact Hf|]. split; [lia|]. split; [exact Hzero|].
  rewrite Hsize in Hsum.
  destruct count as [n|]; simpl in Ht, Hsum.
  - rewrite Ht. f_equal. lia.
  - split; [exact Ht|]. lia.
Qed.

Lemma signal_exit_counts_completed_witness :
  Forall (fun e => WorkerPool.event_worker e ∈ WorkerPool.workers pool_of_two)
    (signalled_first ++ concat then_clean)
  /\ Forall closes_without_code (signalled_first ++ concat then_clean)
  /\ WorkerPool.waitForCompletion then_clean
       (WorkerPool.deliver signalled_first pool_of_two)
     = Some (WorkerPool.mkResult (Js.Int 2) 2 0, pool_after_signal)
  /\ WorkerPool.failedWorkers (WorkerPool.mkResult (Js.Int 2) 2 0) = 0.
Proof.
  assert (Forall (fun e => WorkerPool.event_worker e
                           ∈ WorkerPool.workers pool_of_two)
            (signalled_first ++ concat then_clean)) as H1.
  { repeat constructor; apply bool_decide_unpack; vm_compute; exact I. }
  assert (Forall closes_without_code (signalled_first ++ concat then_clean))
    as H2.
  { simpl. constructor; [left; reflexivity|].
    constructor; [right; reflexivity|]. constructor. }
  assert (WorkerPool.waitForCompletion then_clean
            (WorkerPool.deliver signalled_first pool_of_two)
          = Some (WorkerPool.mkResult (Js.Int 2) 2 0, pool_after_signal)) as H3
    by (vm_compute; reflexivity).
  split; [exact H1|]. split; [exact H2|]. split; [exact H3|].
  exact (proj1 (signal_exit_counts_completed (Js.Int 2) signalled_first
                  then_clean (WorkerPool.mkResult (Js.Int 2) 2 0)
                  pool_after_signal H1 H2 H3)).
Defined.

(** * Properties of the coordinator *)

Section Extraction.
Import Coordinator.

Lemma string_app_length a b :
  String.length (a +:+ b) = (String.length a + String.length b)%nat.
Proof. induction a as [|x a IH]; simpl; [reflexivity|]. now rewrite IH. Qed.

Lemma string_app_inv_tail a b c : a +:+ c = b +:+ c -> a = b.
Proof.
  revert b. induction a as [|x a IH]; intros [|y b] H; simpl in H.
  - reflexivity.
  - apply (f_equal String.length) in H.
    rewrite !string_app_length in H. simpl in H. lia.
  - apply (f_equal String.length) in H.
    rewrite !string_app_length in H. simpl in H. lia.
  - injection H as -> H. f_equal. now apply IH.
Qed.

Lemma task_id_name searchTerm pageNumber timestamp a b :
  task_id searchTerm pageNumber a timestamp
  = task_id searchTerm pageNumber b timestamp -> a = b.
Proof.
  unfold task_id. intros H.
  do 4 apply String.app_inj in H.
  now apply string_app_inv_tail in H.
Qed.

Lemma truthy_spec v : truthy v = true <-> exists x, v = Some x /\ x <> "".
Proof.
  destruct v as [x|]; simpl.
  - rewrite negb_true_iff. split.
    + intros H. exists x. split; [reflexivity|]. now apply String.eqb_neq.
    + intros (y & [= <-] & Hy). now apply String.eqb_neq.
  - split; [discriminate|]. intros (x & H & _). discriminate.
Qed.

Lemma extract_hit_spec searchTerm pageNumber timestamp hit pdf :
  In pdf (extract_hit searchTerm pageNumber timestamp hit)
  <-> exists name uri size,
        hit = Some (mkSource (Some name) (Some uri) size)
        /\ name <> "" /\ uri <> ""
        /\ pdf = PdfTask.mk (task_id searchTerm pageNumber name timestamp)
                   searchTerm pageNumber name uri (number_or size 0).
Proof.
  unfold extract_hit. split.
  - destruct hit as [[name uri size]|]; [|intros []]. cbn.
    destruct (truthy name) eqn:Hn; [|intros []].
    destruct (truthy uri) eqn:Hu; [|intros []].
    apply truthy_spec in Hn as (n & -> & Hn).
    apply truthy_spec in Hu as (u & -> & Hu).
    cbn. intros [<-|[]]. exists n, u, size. auto.
  - intros (name & uri & size & -> & Hn & Hu & ->).
    cbn [ORIGIN_FILE_NAME ORIGIN_FILE_URI fileSize].
    assert (truthy (Some name) = true) as -> by (apply truthy_spec; eauto).
    assert (truthy (Some uri) = true) as -> by (apply truthy_spec; eauto).
    cbn. auto.
Qed.

Lemma extract_hit_length searchTerm pageNumber timestamp hit :
  (length (extract_hit searchTerm pageNumber timestamp hit) <= 1)%nat.
Proof.
  unfold extract_hit. destruct hit as [[[n|] [u|] size]|]; cbn; try lia;
    destruct (_ && _); cbn; lia.
Qed.

Lemma extract_spec searchTerm data pageNumber timestamp pdf :
  In pdf (extractPdfsFromJson searchTerm data pageNumber timestamp)
  <-> exists name uri size,
        In (Some (mkSource (Some name) (Some uri) size)) (hits_of data)
        /\ name <> "" /\ uri <> ""
        /\ pdf = PdfTask.mk (task_id searchTerm pageNumber name timestamp)
                   searchTerm pageNumber name uri (number_or size 0).
Proof.
  unfold extractPdfsFromJson. fold (hits_of data).
  rewrite in_concat. split.
  - intros (l & Hl & Hpdf). apply in_map_iff in Hl as (hit & <- & Hhit).
    apply extract_hit_spec in Hpdf as (n & u & sz & -> & Hn & Hu & ->).
    exists n, u, sz. auto.
  - intros (n & u & sz & Hin & Hn & Hu & ->).
    eexists. split; [apply in_map, Hin|].
    apply extract_hit_spec. exists n, u, sz. auto.
Qed.

Lemma extract_length searchTerm data pageNumber timestamp :
  (length (extractPdfsFromJson searchTerm data pageNumber timestamp)
   <= length (hits_of data))%nat.
Proof.
  unfold extractPdfsFromJson. fold (hits_of data).
  induction (hits_of data) as [|hit l IH]; simpl; [lia|].
  rewrite length_app.
  pose proof (extract_hit_length searchTerm pageNumber timestamp hit). lia.
Qed.

End Extraction.

(** X18: extractPdfsFromJson returns one task for each hit that has a
    non-empty ORIGIN_FILE_NAME and a non-empty ORIGIN_FILE_URI, and nothing
    else: the task carries the coordinator's search term, the given page
    number, that name and address, the file size or 0 when missing, and the
    id searchTerm_page_name_timestamp; there are at most as many tasks as
    hits, and two tasks of one call have the same id exactly when they have
    the same name. *)
Theorem extractPdfsFromJson_tasks
    (searchTerm : string) (data : Coordinator.JusticeGovJson)
    (pageNumber timestamp : Z) :
  let pdfs := Coordinator.extractPdfsFromJson searchTerm data pageNumber
                timestamp in
  (forall pdf, In pdf pdfs <->
     exists name uri size,
       In (Some (Coordinator.mkSource (Some name) (Some uri) size))
         (hits_of data)
       /\ name <> "" /\ uri <> ""
       /\ pdf = PdfTask.mk
                  (Coordinator.task_id searchTerm pageNumber name timestamp)
                  searchTerm pageNumber name uri
                  (Coordinator.number_or size 0))
  /\ (length pdfs <= length (hits_of data))%nat
  /\ (forall a b, In a pdfs -> In b pdfs ->
        (PdfTask.id a = PdfTask.id b <-> PdfTask.pdfName a = PdfTask.pdfName b)).
Proof.
  cbn zeta. split; [|split].
  - intros pdf. apply extract_spec.
  - apply extract_length.
  - intros a b Ha Hb.
    apply extract_spec in Ha as (n1 & u1 & s1 & _ & _ & _ & ->).
    apply extract_spec in Hb as (n2 & u2 & s2 & _ & _ & _ & ->).
    simpl. split.
    + apply task_id_name.
    + now intros ->.
Qed.

Section Resume.
Import Coordinator.

Lemma reset_progress q :
  TaskQueue.getProgress (TaskQueue.resetInProgress q)
  = QueueProgress.mk
      (QueueProgress.total (TaskQueue.getProgress q))
      (QueueProgress.pending (TaskQueue.getProgress q)
       + QueueProgress.inProgress (TaskQueue.getProgress q))
      0
      (QueueProgress.completed (TaskQueue.getProgress q))
      (QueueProgress.failed (TaskQueue.getProgress q)).
Proof.
  rewrite !getProgress_tallies.
  cbn [QueueProgress.total QueueProgress.pending QueueProgress.inProgress
       QueueProgress.completed QueueProgress.failed].
  assert (TaskQueue.own_rows (TaskQueue.resetInProgress q)
          = Sql.update_where (TaskQueue.reset_cond q) TaskQueue.set_reset
              (TaskQueue.own_rows q)) as ->.
  { unfold TaskQueue.own_rows, TaskQueue.resetInProgress.
    cbn [TaskQueue.pdf_tasks TaskQueue.searchTerm TaskQueue.with_tasks].
    apply own_rows_update. reflexivity. }
  destruct (reset_tallies q (TaskQueue.own_rows q)) as (-> & -> & -> & -> & ->).
  { unfold TaskQueue.own_rows, Sql.select_where. apply Forall_forall.
    intros r Hr%filter_In. destruct Hr as [_ Hr]. now apply String.eqb_eq. }
  reflexivity.
Qed.

End Resume.

(** X19: checkResume leaves no task in progress unless it aborts; it aborts
    only when both prompts are answered no, and then the queue is untouched;
    it resumes only for an existing queue with something completed or in
    progress, keeping metadata, total, completed and failed and turning
    in-progress tasks into pending ones; a fresh start empties both tables;
    and an existing queue with nothing completed and nothing in progress is
    wiped without asking. *)
Theorem checkResume_outcomes
    (fresh exists_ shouldResume confirmFresh : bool) (q : TaskQueue.t) :
  let action := fst (Coordinator.checkResume fresh exists_ shouldResume
                       confirmFresh q) in
  let q' := snd (Coordinator.checkResume fresh exists_ shouldResume
                   confirmFresh q) in
  let p := TaskQueue.getProgress q in
  let p' := TaskQueue.getProgress q' in
  (action <> Coordinator.Abort -> QueueProgress.inProgress p' = 0)
  /\ (action = Coordinator.Abort ->
        q' = q /\ shouldResume = false /\ confirmFresh = false)
  /\ (action = Coordinator.Resume ->
        fresh = false /\ exists_ = true /\ shouldResume = true
        /\ (QueueProgress.completed p <> 0 \/ QueueProgress.inProgress p <> 0)
        /\ TaskQueue.metadata q' = TaskQueue.metadata q
        /\ QueueProgress.total p' = QueueProgress.total p
        /\ QueueProgress.pending p'
           = QueueProgress.pending p + QueueProgress.inProgress p
        /\ QueueProgress.completed p' = QueueProgress.completed p
        /\ QueueProgress.failed p' = QueueProgress.failed p)
  /\ (action = Coordinator.Fresh ->
        TaskQueue.pdf_tasks q' = [] /\ TaskQueue.metadata q' = ∅)
  /\ (QueueProgress.completed p = 0 -> QueueProgress.inProgress p = 0 ->
        action = Coordinator.Fresh).
Proof.
  cbn zeta. unfold Coordinator.checkResume.
  destruct (fresh || negb exists_) eqn:Ef.
  { cbn [fst snd]. repeat split; try discriminate; reflexivity. }
  apply orb_false_iff in Ef as [-> Hex]. apply negb_false_iff in Hex as ->.
  destruct ((QueueProgress.completed (TaskQueue.getProgress q) =? 0)
            && (QueueProgress.inProgress (TaskQueue.getProgress q) =? 0))
    eqn:Eempty.
  { cbn [fst snd]. repeat split; try discriminate; reflexivity. }
  assert (QueueProgress.completed (TaskQueue.getProgress q) <> 0
          \/ QueueProgress.inProgress (TaskQueue.getProgress q) <> 0) as Hsome.
  { apply andb_false_iff in Eempty as [E|E]; apply Z.eqb_neq in E; auto. }
  destruct shouldResume.
  { cbn [fst snd]. rewrite reset_progress.
    cbn [QueueProgress.total QueueProgress.pending QueueProgress.inProgress
         QueueProgress.completed QueueProgress.failed].
    repeat split; try discriminate; auto.
    intros Hc Hi. destruct Hsome; contradiction. }
  destruct confirmFresh; cbn [negb fst snd].
  - repeat split; try discriminate; reflexivity.
  - repeat split; try discriminate; try reflexivity.
    + intros H. now contradiction H.
    + intros Hc Hi. destruct Hsome; contradiction.
Qed.

(** X25: For a non-negative duration, formatDuration shows hours, minutes
    below 60 and seconds below 60 that add up to the whole seconds of the
    duration, leaving out the hours when they are 0 and also the minutes
    when both are 0. *)
Theorem formatDuration_parts (ms : Z) :
  0 <= ms ->
  exists hours minutes seconds,
    0 <= hours /\ 0 <= minutes < 60 /\ 0 <= seconds < 60
    /\ hours * 3600 + minutes * 60 + seconds = ms / 1000
    /\ Coordinator.formatDuration ms
       = if 0 <? hours then
           pretty hours +:+ "h " +:+ pretty minutes +:+ "m "
           +:+ pretty seconds +:+ "s"
         else if 0 <? minutes then
           pretty minutes +:+ "m " +:+ pretty seconds +:+ "s"
         else pretty seconds +:+ "s".
Proof.
  intros Hms. unfold Coordinator.formatDuration. cbn zeta.
  set (s := ms / 1000). set (m := s / 60). set (h := m / 60).
  assert (0 <= s) by (apply Z.div_pos; lia).
  assert (0 <= m) by (apply Z.div_pos; lia).
  assert (0 <= h) by (apply Z.div_pos; lia).
  rewrite !Z.rem_mod_nonneg by lia.
  pose proof (Z.mod_pos_bound s 60 ltac:(lia)).
  pose proof (Z.mod_pos_bound m 60 ltac:(lia)).
  pose proof (Z.div_mod s 60 ltac:(lia)).
  pose proof (Z.div_mod m 60 ltac:(lia)).
  exists h, (m mod 60), (s mod 60).
  split; [lia|]. split; [lia|]. split; [lia|]. split; [unfold h, m in *; lia|].
  destruct (0 <? h) eqn:Eh; [reflexivity|].
  apply Z.ltb_ge in Eh. assert (h = 0) as Hh0 by lia.
  assert (m mod 60 = m) as -> by (unfold h in Hh0; lia).
  destruct (0 <? m) eqn:Em; [reflexivity|].
  apply Z.ltb_ge in Em.
  assert (s mod 60 = s) as -> by (unfold m in *; lia).
  reflexivity.
Qed.

Lemma formatDuration_parts_witness :
  0 <= 3723000
  /\ exists hours minutes seconds,
       0 <= hours /\ 0 <= minutes < 60 /\ 0 <= seconds < 60
       /\ hours * 3600 + minutes * 60 + seconds = 3723000 / 1000.
Proof.
  assert (0 <= 3723000) as H by lia.
  split; [exact H|].
  destruct (formatDuration_parts 3723000 H)
    as (h & m & s & Hh & Hm & Hs & Hsum & _).
  exists h, m, s. auto.
Defined.


Section Producer.
Import Coordinator.

Lemma produced_refl first last endPage c : produced first last endPage c c.
Proof.
  unfold produced. repeat split.
  - exists []. split; [now rewrite app_nil_r|constructor].
  - exists [], []. simpl. repeat split; try constructor. lia.
Qed.

Lemma hasPage_grows page q q' added :
  TaskQueue.searchTerm q' = TaskQueue.searchTerm q ->
  TaskQueue.pdf_tasks q' = TaskQueue.pdf_tasks q ++ added ->
  TaskQueue.hasPage page q' = false -> TaskQueue.hasPage page q = false.
Proof.
  intros Hs Ht Hf. destruct (TaskQueue.hasPage page q) eqn:E; [|reflexivity].
  apply hasPage_iff in E as (r & Hin & Hr & Hp).
  assert (TaskQueue.hasPage page q' = true) as H; [|congruence].
  apply hasPage_iff. exists r. rewrite Ht, Hs. split; [|auto].
  apply in_or_app. auto.
Qed.

Lemma produced_row_weaken s a b a' b' r :
  a' <= a -> b <= b' -> produced_row s a b r -> produced_row s a' b' r.
Proof. unfold produced_row. intuition lia. Qed.

Lemma produced_trans first mid last endPage c c1 c2 :
  first <= mid -> mid - 1 <= last ->
  produced first (mid - 1) endPage c c1 -> produced mid last endPage c1 c2 ->
  produced first last endPage c c2.
Proof.
  intros Hfm Hml (Hs1 & Hp1 & Hd1 & Hq1 & Hm1 & (add1 & Ht1 & Ha1)
              & (pg1 & np1 & Hf1 & Hn1 & Hb1 & Hsl1 & Hz1 & Hl1 & Hc1))
    (Hs2 & Hp2 & Hd2 & Hq2 & Hm2 & (add2 & Ht2 & Ha2)
     & (pg2 & np2 & Hf2 & Hn2 & Hb2 & Hsl2 & Hz2 & Hl2 & Hc2)).
  unfold produced.
  split; [congruence|]. split; [congruence|]. split; [congruence|].
  split; [congruence|]. split; [congruence|]. split.
  - exists (add1 ++ add2). split; [rewrite Ht2, Ht1, app_assoc; reflexivity|].
    apply Forall_app. split.
    + eapply Forall_impl; [|exact Ha1]. intros r.
      apply produced_row_weaken; lia.
    + rewrite Hs1 in Ha2. eapply Forall_impl; [|exact Ha2]. intros r.
      apply produced_row_weaken; lia.
  - exists (pg2 ++ pg1), (np2 ++ np1).
    split; [rewrite Hf2, Hf1, app_assoc; reflexivity|].
    split.
    { apply List.NoDup_app; [exact Hn2|exact Hn1|].
      intros p H2 H1.
      rewrite Forall_forall in Hb1, Hb2.
      apply Hb1 in H1. apply Hb2 in H2. lia. }
    split.
    { apply Forall_app. split.
      - eapply Forall_impl; [|exact Hb2]. intros p [Hp Hh]. split; [lia|].
        eapply hasPage_grows; eauto.
      - eapply Forall_impl; [|exact Hb1]. intros p [Hp Hh]. split; [lia|auto]. }
    split; [rewrite Hsl2, Hsl1, app_assoc; reflexivity|].
    split; [apply Forall_app; auto|].
    split.
    { rewrite filter_app, !length_app. lia. }
    rewrite Hc2, Hc1, length_app. lia.
Qed.

Lemma produce_page_produced page endPage fetch c :
  produced page page endPage c (fst (produce_page page endPage fetch c)).
Proof.
  unfold produce_page.
  destruct (TaskQueue.hasPage page (queue c)) eqn:Hhas.
  { cbn [fst]. apply produced_refl. }
  assert (produced page page endPage c (log_fetch page c)) as Hlog.
  { unfold produced. cbn. repeat split.
    + exists []. split; [now rewrite app_nil_r|constructor].
    + exists [page], []. cbn. repeat split; try lia.
      * constructor; [intros []|constructor].
      * constructor; [|constructor]. split; [lia|exact Hhas].
      * constructor. }
  destruct (fetch page) as [data| |]; cbn [fst]; [|exact Hlog..].
  clear Hlog.
  cbn [searchTerm clock queue log_fetch set_queue].
  set (pdfs := extractPdfsFromJson (searchTerm c) data page (clock c)).
  destruct (insert_fold_appends (clock c) pdfs (TaskQueue.pdf_tasks (queue c)))
    as (added & Hadd & Hrows).
  assert (Forall (produced_row (searchTerm c) page page) added) as Hprod.
  { eapply Forall_impl; [|exact Hrows].
    intros r (pdf & Hin & ->).
    apply extract_spec in Hin as (n & u & sz & _ & Hn & Hu & ->).
    unfold produced_row. cbn. repeat split; auto; lia. }
  destruct (Z.ltb_spec page endPage) as [Hlt|Hge].
  - unfold produced. cbn. repeat split.
    + exists added. split; [exact Hadd|exact Hprod].
    + exists [page], [1000]. cbn. repeat split; try lia.
      * constructor; [intros []|constructor].
      * constructor; [|constructor]. split; [lia|exact Hhas].
      * repeat constructor.
      * destruct (Z.ltb_spec page endPage); simpl; lia.
  - unfold produced. cbn. repeat split.
    + exists added. split; [exact Hadd|exact Hprod].
    + exists [page], []. cbn. repeat split; try lia.
      * constructor; [intros []|constructor].
      * constructor; [|constructor]. split; [lia|exact Hhas].
      * constructor.
Qed.


Lemma produce_from_produced rounds : forall page endPage fetch n c,
  page - 1 <= endPage ->
  produced page endPage endPage c
    (fst (produce_from rounds page endPage fetch n c))
  /\ n <= snd (produce_from rounds page endPage fetch n c)
          <= n + Z.min (Z.of_nat rounds) (endPage - page + 1).
Proof.
  induction rounds as [|rounds IH]; intros page endPage fetch n c Hle.
  - cbn [produce_from fst snd]. split; [apply produced_refl|lia].
  - cbn [produce_from].
    destruct (Z.leb_spec page endPage) as [Hin|Hout];
      [|cbn [fst snd]; split; [apply produced_refl|lia]].
    pose proof (produce_page_produced page endPage fetch c) as Hpage.
    destruct (produce_page page endPage fetch c) as [c1 counted].
    cbn [fst] in Hpage.
    destruct (IH (page + 1) endPage fetch
                (if counted then n + 1 else n) c1) as [Hrest Hn]; [lia|].
    split.
    + apply (produced_trans page (page + 1) endPage endPage c c1); try lia.
      * replace (page + 1 - 1) with page by lia. exact Hpage.
      * exact Hrest.
    + destruct counted; lia.
Qed.

Lemma produce_from_skips rounds : forall page endPage fetch n c,
  (forall p, page <= p <= endPage -> TaskQueue.hasPage p (queue c) = true) ->
  produce_from rounds page endPage fetch n c
  = (c, n + Z.max 0 (Z.min (Z.of_nat rounds) (endPage - page + 1))).
Proof.
  induction rounds as [|rounds IH]; intros page endPage fetch n c Hall.
  - cbn [produce_from]. f_equal. lia.
  - cbn [produce_from].
    destruct (Z.leb_spec page endPage) as [Hin|Hout]; [|f_equal; lia].
    unfold produce_page. rewrite (Hall page) by lia.
    rewrite IH by (intros p Hp; apply Hall; lia). f_equal. lia.
Qed.


End Producer.

(** X22: When every page of the loop's range is already in the queue,
    producerLoop fetches nothing, does not sleep, leaves the coordinator and
    the queue unchanged and counts every page as processed. *)
Theorem producerLoop_resume_skips
    (startPageOpt endPageOpt : option Z)
    (fetch : Z -> Coordinator.fetch_result) (c : Coordinator.t) :
  let startPage := Coordinator.number_or startPageOpt 1 in
  let endPage := Coordinator.number_or endPageOpt
                   (startPage + Coordinator.totalPages c - 1) in
  (forall page, startPage <= page <= endPage ->
     TaskQueue.hasPage page (Coordinator.queue c) = true) ->
  Coordinator.producerLoop startPageOpt endPageOpt fetch c
  = (c, Z.max 0 (endPage - startPage + 1)).
Proof.
  intros startPage endPage Hall. unfold Coordinator.producerLoop.
  fold startPage. change (match endPageOpt with
                          | Some e => if e =? 0
                                      then startPage + Coordinator.totalPages c - 1
                                      else e
                          | None => startPage + Coordinator.totalPages c - 1
                          end) with endPage.
  rewrite produce_from_skips by exact Hall. f_equal. lia.
Qed.

Lemma producerLoop_resume_skips_witness :
  (forall page, 1 <= page <= 2 ->
     TaskQueue.hasPage page (Coordinator.queue resuming) = true)
  /\ Coordinator.producerLoop None None (fun _ => Coordinator.Rejects) resuming
     = (resuming, 2).
Proof.
  assert (forall page, 1 <= page <= 2 ->
            TaskQueue.hasPage page (Coordinator.queue resuming) = true) as H.
  { intros page Hp. assert (page = 1 \/ page = 2) as [-> | ->] by lia;
      reflexivity. }
  split; [exact H|].
  exact (producerLoop_resume_skips None None (fun _ => Coordinator.Rejects)
           resuming H).
Defined.

(** X23: producerLoop only appends rows to the queue: the rows present
    before are kept unchanged and in place, every added row is pending,
    unowned, carries the coordinator's search term, a page number within the
    loop's range and a non-empty name and address; metadata, totalPages and
    totalPdfs are not touched (so the loop never sets json_fetch_complete
    itself), and a queue whose rows all carry its search term stays so. *)
Theorem producerLoop_only_appends
    (startPageOpt endPageOpt : option Z)
    (fetch : Z -> Coordinator.fetch_result) (c : Coordinator.t) :
  let startPage := Coordinator.number_or startPageOpt 1 in
  let endPage := Coordinator.number_or endPageOpt
                   (startPage + Coordinator.totalPages c - 1) in
  let c' := fst (Coordinator.producerLoop startPageOpt endPageOpt fetch c) in
  (exists added,
     TaskQueue.pdf_tasks (Coordinator.queue c')
     = TaskQueue.pdf_tasks (Coordinator.queue c) ++ added
     /\ Forall (produced_row (Coordinator.searchTerm c) startPage endPage) added)
  /\ TaskQueue.metadata (Coordinator.queue c')
     = TaskQueue.metadata (Coordinator.queue c)
  /\ TaskQueue.searchTerm (Coordinator.queue c')
     = TaskQueue.searchTerm (Coordinator.queue c)
  /\ Coordinator.totalPages c' = Coordinator.totalPages c
  /\ Coordinator.totalPdfs c' = Coordinator.totalPdfs c
  /\ (TaskQueue.searchTerm (Coordinator.queue c) = Coordinator.searchTerm c ->
      scoped (Coordinator.queue c) -> scoped (Coordinator.queue c')).
Proof.
  intros startPage endPage c'.
  destruct (Z.le_gt_cases (startPage - 1) endPage) as [Hle|Hgt].
  - destruct (produce_from_produced (Z.to_nat (endPage - startPage + 1))
                startPage endPage fetch 0 c Hle)
      as [(Hs & Hp & Hd & Hq & Hm & (added & Ht & Ha) & _) _].
    change (fst (Coordinator.produce_from _ _ _ _ _ _)) with c' in *.
    split; [exists added; auto|]. repeat split; auto.
    intros Hst Hsc. unfold scoped in *. rewrite Ht, Hq.
    apply Forall_app. split; [exact Hsc|].
    eapply Forall_impl; [|exact Ha]. intros r (_ & _ & Hr & _). congruence.
  - assert (c' = c) as ->.
    { unfold c', Coordinator.producerLoop. fold startPage.
      change (match endPageOpt with
              | Some e => if e =? 0
                          then startPage + Coordinator.totalPages c - 1
                          else e
              | None => startPage + Coordinator.totalPages c - 1
              end) with endPage.
      replace (Z.to_nat (endPage - startPage + 1)) with O by lia.
      reflexivity. }
    split; [exists []; split; [now rewrite app_nil_r|constructor]|].
    repeat split; auto.
Qed.



Section Discover.
Import Coordinator.

Lemma ceil_div10_bounds n :
  10 * (ceil_div10 n - 1) < n <= 10 * ceil_div10 n.
Proof.
  unfold ceil_div10.
  pose proof (Z.div_mod (- n) 10 ltac:(lia)).
  pose proof (Z.mod_pos_bound (- n) 10 ltac:(lia)). lia.
Qed.

Lemma plan_bounds startPage endPage found :
  let pages := plan_pages startPage endPage found in
  let pdfs := plan_pdfs startPage pages found in
  0 <= pages /\ 0 <= pdfs <= 10 * pages
  /\ (forall e, endPage = Some e -> e <> 0 ->
        pages <= Z.max 0 (e - startPage + 1))
  /\ (1 <= startPage -> pdfs <= Z.max 0 found)
  /\ (startPage = 1 -> number_or endPage 0 = 0 -> 0 <= found ->
        pdfs = found /\ 10 * (pages - 1) < found <= 10 * pages).
Proof.
  cbn zeta. unfold plan_pages, plan_pdfs.
  pose proof (ceil_div10_bounds found) as Hc.
  set (k := ceil_div10 found) in *.
  split; [lia|]. split; [lia|]. split; [|split].
  - intros e -> He. apply Z.eqb_neq in He. rewrite He. lia.
  - lia.
  - intros -> He Hf.
    assert (match endPage with
            | Some e => if e =? 0 then k else Z.min e k
            | None => k
            end = k) as ->.
    { destruct endPage as [e|]; [|reflexivity]. simpl in He.
      destruct (e =? 0) eqn:E; [reflexivity|]. apply Z.eqb_neq in E. lia. }
    lia.
Qed.

End Discover.

(** X20: discoverTotals throws exactly when the start page is not in the
    queue and fetching it yields no JSON; when the start page is already in
    the queue it fetches nothing and leaves the queue as it is, and for a
    single-page run sets totalPages to 1 and totalPdfs to the queue's total;
    otherwise it fetches the start page exactly once. *)
Theorem discoverTotals_throws_iff
    (parseInt : string -> Z) (startPageOpt endPage : option Z)
    (fetch : Z -> Coordinator.fetch_result) (c : Coordinator.t) :
  let startPage := Coordinator.number_or startPageOpt 1 in
  let result := Coordinator.discoverTotals parseInt startPageOpt endPage
                  fetch c in
  (result = None
   <-> TaskQueue.hasPage startPage (Coordinator.queue c) = false
       /\ forall data, fetch startPage <> Coordinator.Fetched data)
  /\ (TaskQueue.hasPage startPage (Coordinator.queue c) = true ->
      exists c', result = Some c'
        /\ Coordinator.queue c' = Coordinator.queue c
        /\ Coordinator.fetched c' = Coordinator.fetched c
        /\ Coordinator.clock c' = Coordinator.clock c
        /\ (endPage = Some startPage ->
            Coordinator.totalPages c' = 1
            /\ Coordinator.totalPdfs c'
               = QueueProgress.total
                   (TaskQueue.getProgress (Coordinator.queue c))))
  /\ (forall c', result = Some c' ->
        TaskQueue.hasPage startPage (Coordinator.queue c) = false ->
        Coordinator.fetched c' = startPage :: Coordinator.fetched c).
Proof.
  intros startPage result. unfold result, Coordinator.discoverTotals.
  fold startPage.
  destruct (TaskQueue.hasPage startPage (Coordinator.queue c)) eqn:Hhas.
  - split; [|split].
    + split; [|intros [? _]; discriminate].
      destruct endPage as [e|]; [destruct (startPage =? e)|]; discriminate.
    + intros _. destruct endPage as [e|].
      * destruct (Z.eqb_spec startPage e) as [<-|Hne].
        -- eexists. split; [reflexivity|]. cbn.
           split; [reflexivity|]. split; [reflexivity|].
           split; [reflexivity|]. intros _. split; reflexivity.
        -- eexists. split; [reflexivity|]. cbn.
           split; [reflexivity|]. split; [reflexivity|].
           split; [reflexivity|]. intros [= <-]. contradiction.
      * eexists. split; [reflexivity|]. cbn.
        split; [reflexivity|]. split; [reflexivity|].
        split; [reflexivity|]. discriminate.
    + discriminate.
  - destruct (fetch startPage) as [data| |] eqn:Hfetch.
    + split; [|split].
      * split; [|intros [_ H]; now contradiction (H data)].
        destruct endPage as [e|]; [destruct (startPage =? e)|]; discriminate.
      * discriminate.
      * intros c' Hc' _.
        destruct endPage as [e|]; [destruct (startPage =? e)|];
          injection Hc' as <-; reflexivity.
    + split; [|split]; [|discriminate..].
      split; [|reflexivity]. intros _. split; [reflexivity|discriminate].
    + split; [|split]; [|discriminate..].
      split; [|reflexivity]. intros _. split; [reflexivity|discriminate].
Qed.

(** X21: On a full or range run whose start page is fetched, discoverTotals
    sets 0 <= totalPdfs <= 10 * totalPages, never plans more pages than the
    requested range, never more PDFs than the site reports when the start
    page is at least 1, and for a full run from page 1 sets totalPdfs to the
    reported count and totalPages to that count divided by 10, rounded up;
    it stores total_pages, total_pdfs and start_time in the metadata, leaves
    json_fetch_complete alone and inserts the tasks of the start page. *)
Theorem discoverTotals_plans
    (parseInt : string -> Z) (startPageOpt endPage : option Z)
    (fetch : Z -> Coordinator.fetch_result) (c : Coordinator.t)
    (data : Coordinator.JusticeGovJson) :
  let startPage := Coordinator.number_or startPageOpt 1 in
  let found := Coordinator.number_or (Coordinator.total_value data) 0 in
  TaskQueue.hasPage startPage (Coordinator.queue c) = false ->
  fetch startPage = Coordinator.Fetched data ->
  endPage <> Some startPage ->
  exists c',
    Coordinator.discoverTotals parseInt startPageOpt endPage fetch c = Some c'
    /\ 0 <= Coordinator.totalPages c'
    /\ 0 <= Coordinator.totalPdfs c' <= 10 * Coordinator.totalPages c'
    /\ (forall e, endPage = Some e -> e <> 0 ->
          Coordinator.totalPages c' <= Z.max 0 (e - startPage + 1))
    /\ (1 <= startPage -> Coordinator.totalPdfs c' <= Z.max 0 found)
    /\ (startPage = 1 -> Coordinator.number_or endPage 0 = 0 -> 0 <= found ->
          Coordinator.totalPdfs c' = found
          /\ 10 * (Coordinator.totalPages c' - 1) < found
             <= 10 * Coordinator.totalPages c')
    /\ TaskQueue.getMetadata "total_pages" (Coordinator.queue c')
       = Some (pretty (Coordinator.totalPages c'))
    /\ TaskQueue.getMetadata "total_pdfs" (Coordinator.queue c')
       = Some (pretty found)
    /\ TaskQueue.getMetadata "start_time" (Coordinator.queue c')
       = Some (pretty (Coordinator.clock c))
    /\ TaskQueue.getMetadata "json_fetch_complete" (Coordinator.queue c')
       = TaskQueue.getMetadata "json_fetch_complete" (Coordinator.queue c)
    /\ TaskQueue.pdf_tasks (Coordinator.queue c')
       = TaskQueue.pdf_tasks
           (TaskQueue.insertPdfs (Coordinator.clock c)
              (Coordinator.extractPdfsFromJson (Coordinator.searchTerm c) data
                 startPage (Coordinator.clock c))
              (Coordinator.queue c)).
Proof.
  intros startPage found Hhas Hfetch Hrange.
  unfold Coordinator.discoverTotals. fold startPage.
  rewrite Hhas, Hfetch.
  assert (match endPage with
          | Some e => startPage =? e
          | None => false
          end = false) as ->.
  { destruct endPage as [e|]; [|reflexivity].
    apply Z.eqb_neq. intros ->. now contradiction Hrange. }
  fold found. eexists. split; [reflexivity|].
  cbn [Coordinator.totalPages Coordinator.totalPdfs Coordinator.set_totals
       Coordinator.set_queue Coordinator.queue Coordinator.log_fetch
       Coordinator.clock Coordinator.searchTerm].
  destruct (plan_bounds startPage endPage found) as (H1 & H2 & H3 & H4 & H5).
  cbn zeta in *.
  split; [exact H1|]. split; [exact H2|]. split; [exact H3|].
  split; [exact H4|]. split; [exact H5|].
  unfold TaskQueue.getMetadata, TaskQueue.insertPdfs, TaskQueue.setMetadata.
  cbn [TaskQueue.metadata TaskQueue.with_tasks TaskQueue.pdf_tasks
       TaskQueue.searchTerm].
  repeat split.
  - rewrite lookup_insert_ne by discriminate.
    rewrite lookup_insert_ne by discriminate. apply lookup_insert_eq.
  - rewrite lookup_insert_ne by discriminate. apply lookup_insert_eq.
  - apply lookup_insert_eq.
  - now rewrite !lookup_insert_ne by discriminate.
Qed.

Lemma discoverTotals_plans_witness :
  TaskQueue.hasPage 1 (Coordinator.queue starting) = false
  /\ (fun _ : Z => Coordinator.Fetched first_page) 1
     = Coordinator.Fetched first_page
  /\ (None : option Z) <> Some 1
  /\ exists c',
       Coordinator.discoverTotals (fun _ => 0) None None
         (fun _ => Coordinator.Fetched first_page) starting = Some c'
       /\ Coordinator.totalPdfs c' = 25
       /\ Coordinator.totalPages c' = 3.
Proof.
  assert (TaskQueue.hasPage 1 (Coordinator.queue starting) = false) as H1
    by reflexivity.
  assert ((fun _ : Z => Coordinator.Fetched first_page) 1
          = Coordinator.Fetched first_page) as H2 by reflexivity.
  assert ((None : option Z) <> Some 1) as H3 by discriminate.
  split; [exact H1|]. split; [exact H2|]. split; [exact H3|].
  destruct (discoverTotals_plans (fun _ => 0) None None
              (fun _ => Coordinator.Fetched first_page) starting first_page
              H1 H2 H3)
    as (c' & Hrun & _ & _ & _ & _ & Hfull & _).
  destruct Hfull as [Hpdfs Hpages]; [reflexivity|reflexivity|simpl; lia|].
  exists c'. split; [exact Hrun|]. split; [exact Hpdfs|].
  simpl in Hpages. lia.
Defined.
